(* ===== verification/_CoqProject ===== *)
-Q . S2P
Prelude.v
Types.v
Policy.v
Builders.v
Kube.v
Interleave.v
Verify.v
Provision.v
Cleanup.v
Isolation.v
Ledger.v
Mocks.v
Client.v
