(* ===== verification/Prelude.v ===== *)
(** * Verification of the kubeconfig-service runtime provisioner

    Program: [src/components/kubeconfig-service/pkg/runtime/runtime.go]
    (package [runtime] of lindnerby/control-plane).  It provisions, on a
    Kubernetes cluster, a service account for a user, a "rules" cluster
    role carrying the permission rules of a privilege level, an
    aggregating cluster role selecting that rules role, and a cluster-role
    binding; it issues a token for the service account; on a failure it
    records a rollback ledger ([RuntimeClient.RollbackE.Data]) and a
    deferred [Cleaner] deletes the recorded resources with one goroutine
    per ledger entry, each retrying the deletion ([retry.Do], 20 attempts).

    Library layout (file, what it models, functions of runtime.go):
    - [Prelude]: this header, a finite program monad [prog] (an inductive
      interaction tree: [Ret] or an event [Vis] with a continuation) with
      stdpp's monad notation, its interpreter [interp] over a handler, the
      rewriting database [prog_rw], the tactic [prog_simp], and the
      generic list lemmas shared by the components.
    - [Types]: the Go data the program manipulates: [SAInfo], policy rules,
      label selectors, cluster roles, bindings, service accounts, API
      errors and the wrapped Go errors with their messages; decidable
      equality for all of them (the code compares them with
      [reflect.DeepEqual]).
    - [Policy]: the two global tables [L2L3OperatorPolicyRule] and
      [L2L3OperatorAggregationRule] and the rule builder of
      [rbacv1helpers].
    - [Builders]: [NewRuntimeClient]'s derivation of the names,
      [initServiceAccount], [initClusterRoleRules], [initClusterRole],
      [initCRBindingE], [initCRBinding].
    - [Kube]: the backing store (the Kubernetes API server, an external
      collaborator): its objects as stdpp [gmap]s, the API calls of the
      code as events [kubeE], and a handler [handle] that answers them,
      with scripted transport failures per call ([w_faults]) so that
      every error path of the code can be driven; the channel of the
      Cleaner ([w_chan]) and the retry sleeps are events too.
    - [Interleave]: the scheduler of the Cleaner's goroutines
      ([step_task], [run_sched], [run_all]) and the theorem that
      goroutines deleting disjoint objects reach the same store and send
      the same errors, up to order, under every interleaving and every
      fault script (a simulation against ghost solo runs); the step bound
      [bounded n p] (at most [n] events before [Ret]) and the lemma that
      a schedule granting each goroutine as many turns as its bound
      leaves every goroutine finished.
    - [Verify]: [verifyServiceAccount], [verifyClusterRoleRules],
      [verifyClusterRole], [verifyCRBinding] and the delete helpers.
    - [Provision]: [createServiceAccount], [createClusterRoleRules],
      [createClusterRole], [createClusterRoleBinding],
      [getServiceAccountToken] and the body of [Run], returning the
      result and the rollback ledger.
    - [Cleanup]: [retry.Do] with [LastErrorOnly], the three
      [RetryDelete*] goroutines, [Cleaner] and the whole [Run] with its
      deferred cleanup.
    - [Isolation]: the object each API event names ([event_obj]), the
      confinement of a program to a set of objects ([confined]), its
      effect on worlds ([stays], a preorder: objects outside the set keep
      their value and every recorded call names an object of the set),
      lifted through [exec], the Cleaner's scheduler and [Run].
    - [Ledger]: the rollback ledger against the objects a failed
      [Run_body] created: programs that never create ([no_create]), the
      objects new in a world ([new_in]), the tag the Cleaner deletes an
      object under ([obj_tag]).
    - [Mocks]: the two generated testify mocks outside runtime.go,
      [automock/strategy.go] ([Execute], [Wait]) and
      [automock/gql_fields_provider.go] ([ForApplication] with its copy
      loop [copy_ctx], [Page]), over a model of testify's [mock.Mock]
      (expected calls with matchers, [Times] and counters, the call log,
      [MethodCalled], [Arguments.Get] and [Arguments.Error]); panics are
      the [Panics] outcome.  It depends on nothing but this prelude.
    - [Client]: the whole of [NewRuntimeClient], module [Full]: the REST
      config, the target clientset and the control-plane clientset built
      in order with their early returns (the three constructors of
      client-go and [GetK8sClient] are the section's variables), then
      [Builders.NewRuntimeClient]; the struct with its two clients is
      [Full.Runtime].

    How the parts interact: [Run] ([Cleanup.Run]) runs [Run_body]
    ([Provision]), whose create steps call the verifiers ([Verify]) and
    the builders ([Builders], [Policy]) and issue API events answered by
    [Kube.handle]; the returned client carries the ledger, and [Cleaner]
    turns each ledger entry into a goroutine ([cleaner_task]) that deletes
    through the same API, the goroutines interleaved by a schedule.
    [Run] returns the body's result: the Cleaner's error is dropped, as
    in the code.  A verifier's contract is stated once, abstractly, as a
    [Reconciler] (the object it looks for, the predicate it accepts, the
    removal it performs otherwise); [refines_reconcile] says a verifier
    program implements it, and the create steps' contract [ensure] is
    proved once, generically, from that interface.

    Theorems (the claims C1-C30 of PROJECT.json):
    - provisioning ([Provision]): a quiet run yields a token and the store
      the step contracts describe (C1); on an empty cluster exactly the
      four builder objects (C2); the level guard of
      [createClusterRoleRules] rejects a level exactly when neither
      policy table defines it (C14); whatever cluster a run starts from,
      a second run right after succeeds, changes no object and issues no
      write (C21); each builder's object is accepted by its verifier
      (C20, a round trip build-then-verify);
    - the ledger ([Ledger]): whatever the API answers, a successful run
      leaves the ledger alone and a failed one records the tag of every
      object it created, so the Cleaner is started on all of them (C3);
    - verifiers ([Verify]): refinement of the reconciler contract for the
      rules role, the aggregating role and the binding (C4, C5, C15), and
      the error paths of [verifyClusterRoleRules] (C6);
    - cleanup ([Cleanup]): the retry bound of the service-account
      goroutine, 20 calls and 19 sleeps (C7); the cluster-role goroutine
      stops at a missing aggregating role (C8) and leaks the rules role
      after one transient failure (C9); [Run] drops the Cleaner's error
      (C10); the Cleaner's error fold keeps every error in order (C11);
      an unknown level is rejected only after the service account was
      created, which the Cleaner then deletes, for every interleaving
      (C12); a failed aggregating-role creation leaks the rules role,
      for every interleaving (C13); the Cleaner's outcome does not depend
      on the interleaving of its goroutines: every schedule is equivalent
      to running the goroutines one after the other (C16); the retry
      bound of the binding goroutine, whose final error names the cluster
      role (C17); every goroutine ends within 60, 100 and 60 events, a
      bound that follows from [retry.Attempts] = 20 (C18, termination);
      after a failed role step, every schedule that gives each goroutine
      100 turns completes the rollback against a quiet API: all
      goroutines return, no error, and the service account and both
      roles are gone (C19, liveness);
    - isolation ([Isolation]): for every schedule and fault script, [Run]
      touches and even names only its user's four objects (C22); hence a
      run for one user leaves another user's objects unchanged unless
      one id is the other followed by ["-rules"] (C23); that exception
      is real, because the run for [uid ++ "-rules"] replaces the rules
      role of [uid] by its own aggregating role (C24);
    - mocks ([Mocks]): [Execute] returns the registered values or applies
      the registered functions (C25) and panics on what its type
      assertions reject (C26); [Times(n)] answers [n] calls, then panics
      (C27); [ForApplication] matches its variadic fields one by one
      (C28);
    - construction ([Client]): [NewRuntimeClient] returns the first error
      of its three constructions in the code's order (C29), and returns
      a client exactly when all three succeed, that client being the one
      every other theorem is about (C30).
    C8, C9, C10, C12, C13, C17 and C24 establish behaviour the spec rules
    out or does not consider; they are recorded as findings in
    PROJECT.json.

    Quiet and faulty APIs: [quiet w] (no scripted failure) makes every
    call answer from the store; [w_faults] scripts, per call, the
    failures of its successive invocations, which is how the error
    paths and the retry bound are driven.

    Fuel and bounds: no definition needs fuel; the only loop with a
    retry ([retry.Do]) is structural on its attempt count (20 in the
    code), and the interleaving of the Cleaner's goroutines is driven by
    a finite schedule after which the remaining tasks run to completion,
    so every run terminates by construction.  Termination is also
    stated as a property (C18): the bound [bounded n] counts the events
    a goroutine may issue, [left * a + (left - 1)] for a retry of [left]
    attempts of an [a]-event body, which with the code's 20 attempts gives
    60 for the service-account and binding goroutines (two calls per
    attempt) and 100 for the cluster-role goroutine (four calls); 100
    turns per goroutine are therefore enough for C19.

    Not modelled: what the client-go constructors do with the
    kubeconfig bytes (they are left abstract: [Client] holds for any of
    their answers), logging, wall-clock durations of the
    retry delay (a [Sleep] event records the attempt it follows), the
    panic of [getServiceAccountToken] on a nil response (modelled as the
    error it should return), and the transformer package, of which the
    repository holds only a test file (see PROJECT.json).  testify
    itself is modelled from its semantics, not translated: [Run]
    callbacks, delays and the [MatchedBy]/[AnythingOfType] matchers are
    left out, none of them being used by the mocks.  What remains of
    the sources outside the map is imports and package clauses. *)

From stdpp Require Export base gmap strings list.
From Stdlib Require Export ZArith String.

(** ** A finite program monad *)

Inductive prog (E : Type -> Type) (A : Type) : Type :=
| Ret (a : A)
| Vis {X : Type} (e : E X) (k : X -> prog E A).

Arguments Ret {E A} a.
Arguments Vis {E A X} e k.

Fixpoint prog_bind {E A B} (p : prog E A) (f : A -> prog E B) : prog E B :=
  match p with
  | Ret a => f a
  | Vis e k => Vis e (fun x => prog_bind (k x) f)
  end.

#[export] Instance prog_mret {E} : MRet (prog E) := fun A a => Ret a.
#[export] Instance prog_mbind {E} : MBind (prog E) :=
  fun A B f p => prog_bind p f.

Definition trigger {E X} (e : E X) : prog E X := Vis e Ret.

(** A handler answers one event and updates a state; [interp] runs a
    whole program against it. *)
Definition handler (E : Type -> Type) (S : Type) := forall X, E X -> S -> X * S.

Fixpoint interp {E S A} (h : handler E S) (p : prog E A) (s : S) : A * S :=
  match p with
  | Ret a => (a, s)
  | Vis e k => let '(x, s') := h _ e s in interp h (k x) s'
  end.

Declare Scope prog_scope.
Delimit Scope prog_scope with prog.
Notation "⟦ p ⟧ h" := (interp h p) (at level 10, p at level 200) : prog_scope.
Open Scope prog_scope.

Section Interp.
Context {E : Type -> Type} {S : Type} (h : handler E S).

Lemma interp_ret {A} (a : A) s : interp h (mret a) s = (a, s).
Proof. reflexivity. Qed.

Lemma interp_bind {A B} (p : prog E A) (f : A -> prog E B) s :
  interp h (p ≫= f) s = let '(a, s') := interp h p s in interp h (f a) s'.
Proof.
  revert s. induction p as [a|X e k IH]; intros s; [reflexivity|].
  cbn. destruct (h X e s) as [x s']. apply IH.
Qed.

Lemma interp_trigger {X} (e : E X) s : interp h (trigger e) s = h X e s.
Proof. cbn. by destruct (h X e s). Qed.

Lemma interp_vis {X A} (e : E X) (k : X -> prog E A) s :
  interp h (Vis e k) s = let '(x, s') := h X e s in interp h (k x) s'.
Proof. reflexivity. Qed.
End Interp.

Create Rewrite HintDb prog_rw.
#[export] Hint Rewrite @interp_ret @interp_bind @interp_trigger : prog_rw.

Create HintDb kube.

(** Unfold one layer of program structure and compute the handler. *)
Ltac prog_simp := repeat (autorewrite with prog_rw; cbn [interp prog_bind mbind mret prog_mbind prog_mret trigger fst snd]).

(** ** Generic lemmas shared by the components *)

Lemma string_length_app (a b : string) :
  String.length (String.append a b) = String.length a + String.length b.
Proof. induction a as [|c a IH]; simpl; [done|by rewrite IH]. Qed.

(** Appending a non-empty suffix always changes a string. *)
Lemma string_app_neq (a b : string) : b <> EmptyString -> a <> String.append a b.
Proof.
  intros Hb Heq. apply (f_equal String.length) in Heq.
  rewrite string_length_app in Heq. destruct b; [done|]. cbn in Heq. lia.
Qed.

Lemma string_app_assoc (a b c : string) :
  String.append a (String.append b c) = String.append (String.append a b) c.
Proof. induction a as [|x a IH]; [reflexivity|]. exact (f_equal (String x) IH). Qed.

(** Joining a left-nested prefix is joining the flat list. *)
Lemma string_concat_nest (sep a b : string) (rest : list string) :
  String.concat sep (String.append a (String.append sep b) :: rest) = String.concat sep (a :: b :: rest).
Proof.
  destruct rest as [|c rest]; [done|]. cbn [String.concat].
  by rewrite <- !string_app_assoc.
Qed.
