(* ===== verification/Types.v ===== *)
(** * Types: the Go data of runtime.go

    The Kubernetes API types the code builds and compares (in modules
    named after their Go packages [metav1], [rbacv1], [corev1]), the
    identity record [SAInfo], the client record [RuntimeClient] with its
    rollback ledger, the constants of runtime.go, and the errors: API
    status errors ([apierr]) and the Go errors the code builds with
    [fmt.Errorf] and [errors.Wrapf], with their rendered messages.
    Every type has decidable equality: the code compares these values
    with [reflect.DeepEqual], which is structural equality here (slices
    are compared in order, maps as maps). *)

From S2P Require Import Prelude.

Local Open Scope string_scope.

Module metav1.
(** [metav1.LabelSelector]: the code only fills [MatchLabels];
    [MatchExpressions] is nil everywhere in runtime.go. *)
Record LabelSelector := { MatchLabels : gmap string string }.

(** [metav1.ObjectMeta], the fields runtime.go sets. *)
Record ObjectMeta := {
  Name : string;
  Namespace : string;
  Labels : gmap string string }.

Definition meta (name : string) : ObjectMeta :=
  {| Name := name; Namespace := ""; Labels := ∅ |}.

#[global] Instance LabelSelector_eq_dec : EqDecision LabelSelector.
Proof. solve_decision. Defined.
#[global] Instance ObjectMeta_eq_dec : EqDecision ObjectMeta.
Proof. solve_decision. Defined.
End metav1.

Module rbacv1.
(** [rbacv1.GroupName]. *)
Definition GroupName : string := "rbac.authorization.k8s.io".

Record PolicyRule := {
  Verbs : list string;
  APIGroups : list string;
  Resources : list string;
  ResourceNames : list string;
  NonResourceURLs : list string }.

Record ClusterRole := {
  cr_ObjectMeta : metav1.ObjectMeta;
  Rules : list PolicyRule;
  (** [AggregationRule *AggregationRule]: nil or the selector list. *)
  AggregationRule : option (list metav1.LabelSelector) }.

Record RoleRef := { rr_APIGroup : string; rr_Kind : string; rr_Name : string }.

Record Subject := {
  sub_Kind : string; sub_APIGroup : string; sub_Name : string; sub_Namespace : string }.

Record ClusterRoleBinding := {
  crb_ObjectMeta : metav1.ObjectMeta;
  crb_RoleRef : RoleRef;
  Subjects : list Subject }.

#[global] Instance PolicyRule_eq_dec : EqDecision PolicyRule.
Proof. solve_decision. Defined.
#[global] Instance ClusterRole_eq_dec : EqDecision ClusterRole.
Proof. solve_decision. Defined.
#[global] Instance RoleRef_eq_dec : EqDecision RoleRef.
Proof. solve_decision. Defined.
#[global] Instance Subject_eq_dec : EqDecision Subject.
Proof. solve_decision. Defined.
#[global] Instance ClusterRoleBinding_eq_dec : EqDecision ClusterRoleBinding.
Proof. solve_decision. Defined.
End rbacv1.

Module corev1.
Record ServiceAccount := { sa_ObjectMeta : metav1.ObjectMeta }.
#[global] Instance ServiceAccount_eq_dec : EqDecision ServiceAccount.
Proof. solve_decision. Defined.
End corev1.

(** ** Constants of runtime.go (lines 36-43) *)

Definition SA : string := "SA".
Definition ClusterRole : string := "ClusterRole".
Definition ClusterRoleBinding : string := "ClusterRoleBinding".
Definition Namespace : string := "kube-system".
Definition RUNTIME_ADMIN : string := "runtimeAdmin".
Definition RUNTIME_OPERATOR : string := "runtimeOperator".
Definition ServiceAccount : string := "ServiceAccount".

(** ** The identity and the client *)

Module SAInfo.
Record t := mk {
  ServiceAccountName : string;
  ClusterRoleName : string;
  ClusterRoleAggrLabel : string;
  ClusterRoleRulesName : string;
  ClusterRoleBindingName : string;
  Namespace : string;
  SecretName : string;
  TenantID : string }.
End SAInfo.

(** [type RollbackE struct { Data []string }]. *)
Record RollbackE := { Data : list string }.

(** [RuntimeClient] without its two API clients: the target cluster is
    the world of [Kube], the control-plane client is not used by the
    functions modelled here. *)
Record RuntimeClient := {
  User : SAInfo.t;
  L2L3OperatiorRole : string;
  Rollback : RollbackE }.

(** ** Errors *)

(** The [apierr] status errors the code distinguishes: [IsNotFound] is
    the only reason it tests; every other failure is [Failure]. *)
Inductive ApiError :=
| NotFound (resource name : string)
| AlreadyExists (resource name : string)
| Failure (msg : string).

Definition IsNotFound (e : ApiError) : bool :=
  match e with NotFound _ _ => true | _ => false end.

(** A Go [error] value built by the code. *)
Inductive GoError :=
| ApiErr (e : ApiError)
| Errorf (msg : string)
| Wrap (msg : string) (cause : GoError).

#[global] Instance ApiError_eq_dec : EqDecision ApiError.
Proof. solve_decision. Defined.
#[global] Instance GoError_eq_dec : EqDecision GoError.
Proof. solve_decision. Defined.

(** The double-quote character, for the [\"%s\"] of the messages. *)
Definition dq : string := String (Ascii.ascii_of_nat 34) EmptyString.

(** [err.Error()] (named [Error_msg]: [Error] is the constructor of [result]): [errors.Wrapf] renders as ["msg: cause"]. *)
Fixpoint Error_msg (e : GoError) : string :=
  match e with
  | ApiErr (NotFound r n) => r ++ " " ++ dq ++ n ++ dq ++ " not found"
  | ApiErr (AlreadyExists r n) => r ++ " " ++ dq ++ n ++ dq ++ " already exists"
  | ApiErr (Failure m) => m
  | Errorf m => m
  | Wrap m c => m ++ ": " ++ Error_msg c
  end.

(** [errors.Wrapf(err, ...)] returns nil on a nil [err]. *)
Definition Wrapf (msg : string) (err : option GoError) : option GoError :=
  Wrap msg <$> err.

(** The Go pair [(value, error)] of a fallible call. *)
Abbreviation goresult A := (result A GoError).
