(* ===== verification/Policy.v ===== *)
(** * Policy: the global tables of runtime.go (lines 45-71)

    [L2L3OperatorPolicyRule] maps a privilege level to the permission
    rules of its "rules" cluster role, [L2L3OperatorAggregationRule] to
    the label selectors its aggregating role starts with.  The rules are
    written as the values [rbacv1helpers.NewRule(...)...RuleOrDie()]
    produces: that builder appends the given verbs, groups, resources and
    URLs and sorts each list, and every list here is already sorted.
    A Go map lookup of a missing key yields a nil slice: [lookup_rules]
    and [lookup_aggregation] return the empty list there. *)

From S2P Require Import Prelude Types.

Local Open Scope string_scope.

Definition resource_rule (verbs : list string) : rbacv1.PolicyRule :=
  {| rbacv1.Verbs := verbs; rbacv1.APIGroups := ["*"]; rbacv1.Resources := ["*"];
     rbacv1.ResourceNames := []; rbacv1.NonResourceURLs := [] |}.

Definition url_rule (verbs : list string) : rbacv1.PolicyRule :=
  {| rbacv1.Verbs := verbs; rbacv1.APIGroups := []; rbacv1.Resources := [];
     rbacv1.ResourceNames := []; rbacv1.NonResourceURLs := ["*"] |}.

Definition L2L3OperatorPolicyRule : gmap string (list rbacv1.PolicyRule) :=
  <[RUNTIME_ADMIN := [resource_rule ["*"]; url_rule ["*"]]]>
  (<[RUNTIME_OPERATOR := [resource_rule ["get"; "list"; "watch"];
                          url_rule ["get"; "list"; "watch"]]]> ∅).

Definition aggregate_to (label : string) : metav1.LabelSelector :=
  {| metav1.MatchLabels := {[ label := "true" ]} |}.

Definition L2L3OperatorAggregationRule : gmap string (list metav1.LabelSelector) :=
  <[RUNTIME_ADMIN := [aggregate_to "rbac.authorization.k8s.io/aggregate-to-admin"]]>
  (<[RUNTIME_OPERATOR := [aggregate_to "rbac.authorization.k8s.io/aggregate-to-edit"]]> ∅).

(** [L2L3OperatorPolicyRule[role]] *)
Definition lookup_rules (role : string) : list rbacv1.PolicyRule :=
  default [] (L2L3OperatorPolicyRule !! role).

(** [L2L3OperatorAggregationRule[role]] *)
Definition lookup_aggregation (role : string) : list metav1.LabelSelector :=
  default [] (L2L3OperatorAggregationRule !! role).

(** The guard of [createClusterRoleRules] (line 167), as a boolean. *)
Definition known_role (role : string) : bool :=
  bool_decide (role = RUNTIME_ADMIN) || bool_decide (role = RUNTIME_OPERATOR).

(** The levels [known_role] accepts are exactly those both tables define. *)
Lemma known_role_tables (role : string) :
  known_role role = true <->
  is_Some (L2L3OperatorPolicyRule !! role) /\ is_Some (L2L3OperatorAggregationRule !! role).
Proof.
  unfold known_role, L2L3OperatorPolicyRule, L2L3OperatorAggregationRule.
  rewrite orb_true_iff, !bool_decide_eq_true.
  destruct (decide (role = RUNTIME_ADMIN)) as [->|Ha];
    [rewrite !lookup_insert_eq; naive_solver|].
  destruct (decide (role = RUNTIME_OPERATOR)) as [->|Ho];
    [rewrite !lookup_insert_ne, !lookup_insert_eq by done; naive_solver|].
  rewrite !lookup_insert_ne, !lookup_empty by done. split; [naive_solver|]. by intros [[? ?] _].
Qed.
