(* ===== verification/Builders.v ===== *)
(** * Builders: the pure constructors of runtime.go

    [newSAInfo] is the part of [NewRuntimeClient] (lines 99-109) that
    derives the names of the four resources from the user id; the
    kubeconfig parsing and client construction before it are not
    modelled.  [initServiceAccount], [initClusterRoleRules],
    [initClusterRole], [initCRBindingE] and [initCRBinding] build the
    objects the create steps send to the API server (lines 331-397). *)

From S2P Require Import Prelude Types Policy.

Local Open Scope string_scope.

Definition newSAInfo (userID tenant : string) : SAInfo.t :=
  {| SAInfo.ServiceAccountName := userID;
     SAInfo.ClusterRoleName := userID;
     SAInfo.ClusterRoleAggrLabel := "rbac.authorization.k8s.io/aggregate-to-" ++ userID;
     SAInfo.ClusterRoleRulesName := userID ++ "-rules";
     SAInfo.ClusterRoleBindingName := userID;
     SAInfo.Namespace := Namespace;
     SAInfo.SecretName := "";
     SAInfo.TenantID := tenant |}.

(** [NewRuntimeClient] once the clients are built: an empty ledger. *)
Definition NewRuntimeClient (userID L2L3OperatiorRole tenant : string) : RuntimeClient :=
  {| User := newSAInfo userID tenant;
     L2L3OperatiorRole := L2L3OperatiorRole;
     Rollback := {| Data := [] |} |}.

Definition initServiceAccount (user : SAInfo.t) : corev1.ServiceAccount :=
  {| corev1.sa_ObjectMeta :=
       {| metav1.Name := SAInfo.ServiceAccountName user;
          metav1.Namespace := SAInfo.Namespace user;
          metav1.Labels := ∅ |} |}.

Definition initClusterRoleRules (clusterRoleName l2L3OperatiorRole aggregationLabel : string)
  : rbacv1.ClusterRole :=
  {| rbacv1.cr_ObjectMeta :=
       {| metav1.Name := clusterRoleName; metav1.Namespace := "";
          metav1.Labels := {[ aggregationLabel := "true" ]} |};
     rbacv1.Rules := lookup_rules l2L3OperatiorRole;
     rbacv1.AggregationRule := None |}.

Definition initClusterRole (clusterRoleName l2L3OperatiorRole aggregationLabel : string)
  : rbacv1.ClusterRole :=
  {| rbacv1.cr_ObjectMeta := metav1.meta clusterRoleName;
     rbacv1.Rules := [];
     rbacv1.AggregationRule :=
       Some (([] ++ lookup_aggregation l2L3OperatiorRole) ++ [aggregate_to aggregationLabel])%list |}.

Definition initCRBindingE (user : SAInfo.t)
  : metav1.ObjectMeta * rbacv1.RoleRef * list rbacv1.Subject :=
  let objectMeta := metav1.meta (SAInfo.ClusterRoleBindingName user) in
  let roleRef := {| rbacv1.rr_APIGroup := rbacv1.GroupName;
                    rbacv1.rr_Kind := ClusterRole;
                    rbacv1.rr_Name := SAInfo.ClusterRoleName user |} in
  let subjects := [ {| rbacv1.sub_Kind := ServiceAccount;
                       rbacv1.sub_APIGroup := "";
                       rbacv1.sub_Name := SAInfo.ServiceAccountName user;
                       rbacv1.sub_Namespace := SAInfo.Namespace user |} ] in
  (objectMeta, roleRef, subjects).

Definition initCRBinding (objectMeta : metav1.ObjectMeta) (roleRef : rbacv1.RoleRef)
  (subjects : list rbacv1.Subject) : rbacv1.ClusterRoleBinding :=
  {| rbacv1.crb_ObjectMeta := objectMeta;
     rbacv1.crb_RoleRef := roleRef;
     rbacv1.Subjects := subjects |}.

(** The two cluster roles of one user never share a name. *)
Lemma rules_name_ne (userID tenant : string) :
  SAInfo.ClusterRoleName (newSAInfo userID tenant) <> SAInfo.ClusterRoleRulesName (newSAInfo userID tenant).
Proof. cbn. by apply string_app_neq. Qed.

(** The client of the scenarios of spec 8: user "alice", operator level. *)
Definition alice_client : RuntimeClient := NewRuntimeClient "alice" RUNTIME_OPERATOR "tenant-1".
