(* ===== verification/Kube.v ===== *)
(** * Kube: the backing store the code talks to

    The Kubernetes API server is an external collaborator of runtime.go;
    this file gives it the semantics the code relies on, so that the
    code's programs can be run and reasoned about:
    - [Store]: the objects, as stdpp maps keyed the way the API keys them
      (namespace and name for service accounts, name for the
      cluster-scoped roles and bindings);
    - [kubeE]: one event per client call the code makes
      ([ServiceAccounts(ns).Get/Create/Delete/CreateToken],
      [ClusterRoles().Get/Create/Delete],
      [ClusterRoleBindings().Get/Create/Delete]), answered by a
      [result _ ApiError], plus the two effects of the Cleaner's
      goroutines: a send on [errorCh] and the sleep between retries;
    - [World]: the store, a script of injected failures per call
      ([w_faults]: the n-th call with the same verb, kind and name fails
      with the n-th scripted error, if any, without touching the store),
      the trace of calls, the errors received on [errorCh] in order, the
      number of tokens issued and of retry sleeps;
    - [handle]: the handler, with the API's semantics: a get of a missing
      object and a delete of a missing object answer [NotFound], a create
      of an existing name answers [AlreadyExists], a token is issued only
      for an existing service account. *)

From S2P Require Import Prelude Types.
From stdpp Require Import pretty.

Local Open Scope string_scope.

(** ** Calls *)

Inductive Verb := VGet | VCreate | VDelete | VCreateToken.
Inductive Kind := KServiceAccount | KClusterRole | KClusterRoleBinding.

#[global] Instance Verb_eq_dec : EqDecision Verb.
Proof. solve_decision. Defined.
#[global] Instance Kind_eq_dec : EqDecision Kind.
Proof. solve_decision. Defined.

Definition Verb_to_nat (v : Verb) : nat :=
  match v with VGet => 0 | VCreate => 1 | VDelete => 2 | VCreateToken => 3 end.
Definition Verb_of_nat (n : nat) : Verb :=
  match n with 0 => VGet | 1 => VCreate | 2 => VDelete | _ => VCreateToken end.
Definition Kind_to_nat (k : Kind) : nat :=
  match k with KServiceAccount => 0 | KClusterRole => 1 | KClusterRoleBinding => 2 end.
Definition Kind_of_nat (n : nat) : Kind :=
  match n with 0 => KServiceAccount | 1 => KClusterRole | _ => KClusterRoleBinding end.

#[global] Instance Verb_countable : Countable Verb.
Proof. apply (inj_countable' Verb_to_nat Verb_of_nat). by intros []. Defined.
#[global] Instance Kind_countable : Countable Kind.
Proof. apply (inj_countable' Kind_to_nat Kind_of_nat). by intros []. Defined.

(** A call as the API sees it: verb, resource kind, namespace, name. *)
Abbreviation Call := (Verb * Kind * string * string)%type.

(** ** The store *)

Record Store := mkStore {
  sas : gmap (string * string) corev1.ServiceAccount;
  crs : gmap string rbacv1.ClusterRole;
  crbs : gmap string rbacv1.ClusterRoleBinding }.

Definition empty_store : Store := mkStore ∅ ∅ ∅.

(** ** Events *)

Inductive kubeE : Type -> Type :=
| GetServiceAccount (ns name : string) : kubeE (result corev1.ServiceAccount ApiError)
| CreateServiceAccount (ns : string) (sa : corev1.ServiceAccount)
    : kubeE (result corev1.ServiceAccount ApiError)
| DeleteServiceAccount (ns name : string) : kubeE (result unit ApiError)
| CreateToken (ns name : string) (expirationSeconds : Z) : kubeE (result string ApiError)
| GetClusterRole (name : string) : kubeE (result rbacv1.ClusterRole ApiError)
| CreateClusterRole (cr : rbacv1.ClusterRole) : kubeE (result rbacv1.ClusterRole ApiError)
| DeleteClusterRole (name : string) : kubeE (result unit ApiError)
| GetClusterRoleBinding (name : string) : kubeE (result rbacv1.ClusterRoleBinding ApiError)
| CreateClusterRoleBinding (crb : rbacv1.ClusterRoleBinding)
    : kubeE (result rbacv1.ClusterRoleBinding ApiError)
| DeleteClusterRoleBinding (name : string) : kubeE (result unit ApiError)
| Send (e : GoError) : kubeE unit
| Sleep (attempt : nat) : kubeE unit.

Abbreviation K := (prog kubeE).

(** ** The world *)

Record World := mkWorld {
  w_store : Store;
  w_faults : gmap Call (list (option ApiError));
  w_trace : list Call;
  w_chan : list GoError;
  w_tokens : nat;
  w_sleeps : nat }.

Definition init_world (s : Store) (faults : gmap Call (list (option ApiError))) : World :=
  mkWorld s faults [] [] 0 0.

Definition set_store (s : Store) (w : World) : World :=
  mkWorld s (w_faults w) (w_trace w) (w_chan w) (w_tokens w) (w_sleeps w).

(** Record the call and pop its next scripted failure. *)
Definition take_fault (c : Call) (w : World) : option ApiError * World :=
  let tr := (w_trace w ++ [c])%list in
  match w_faults w !! c with
  | Some (f :: q) => (f, mkWorld (w_store w) (<[c := q]> (w_faults w)) tr (w_chan w) (w_tokens w) (w_sleeps w))
  | _ => (None, mkWorld (w_store w) (w_faults w) tr (w_chan w) (w_tokens w) (w_sleeps w))
  end.

Lemma take_fault_store c w : w_store (snd (take_fault c w)) = w_store w.
Proof. unfold take_fault. by repeat case_match. Qed.

(** One API call: an injected failure, or the store's answer. *)
Definition api_call {A} (c : Call) (op : Store -> result A ApiError * Store) (w : World)
  : result A ApiError * World :=
  let '(f, w1) := take_fault c w in
  match f with
  | Some e => (Error e, w1)
  | None => let '(r, s') := op (w_store w1) in (r, set_store s' w1)
  end.

(** ** The API server's answers *)

Definition sa_get (ns name : string) (s : Store) : result corev1.ServiceAccount ApiError * Store :=
  match sas s !! (ns, name) with
  | Some sa => (Ok sa, s)
  | None => (Error (NotFound "serviceaccounts" name), s)
  end.

(** The server takes the namespace from the request path. *)
Definition sa_create (ns : string) (sa : corev1.ServiceAccount) (s : Store)
  : result corev1.ServiceAccount ApiError * Store :=
  let name := metav1.Name (corev1.sa_ObjectMeta sa) in
  let sa' := {| corev1.sa_ObjectMeta :=
                  {| metav1.Name := name; metav1.Namespace := ns;
                     metav1.Labels := metav1.Labels (corev1.sa_ObjectMeta sa) |} |} in
  match sas s !! (ns, name) with
  | Some _ => (Error (AlreadyExists "serviceaccounts" name), s)
  | None => (Ok sa', mkStore (<[(ns, name) := sa']> (sas s)) (crs s) (crbs s))
  end.

Definition sa_delete (ns name : string) (s : Store) : result unit ApiError * Store :=
  match sas s !! (ns, name) with
  | Some _ => (Ok tt, mkStore (delete (ns, name) (sas s)) (crs s) (crbs s))
  | None => (Error (NotFound "serviceaccounts" name), s)
  end.

Definition cr_get (name : string) (s : Store) : result rbacv1.ClusterRole ApiError * Store :=
  match crs s !! name with
  | Some cr => (Ok cr, s)
  | None => (Error (NotFound "clusterroles.rbac.authorization.k8s.io" name), s)
  end.

Definition cr_create (cr : rbacv1.ClusterRole) (s : Store) : result rbacv1.ClusterRole ApiError * Store :=
  let name := metav1.Name (rbacv1.cr_ObjectMeta cr) in
  match crs s !! name with
  | Some _ => (Error (AlreadyExists "clusterroles.rbac.authorization.k8s.io" name), s)
  | None => (Ok cr, mkStore (sas s) (<[name := cr]> (crs s)) (crbs s))
  end.

Definition cr_delete (name : string) (s : Store) : result unit ApiError * Store :=
  match crs s !! name with
  | Some _ => (Ok tt, mkStore (sas s) (delete name (crs s)) (crbs s))
  | None => (Error (NotFound "clusterroles.rbac.authorization.k8s.io" name), s)
  end.

Definition crb_get (name : string) (s : Store)
  : result rbacv1.ClusterRoleBinding ApiError * Store :=
  match crbs s !! name with
  | Some crb => (Ok crb, s)
  | None => (Error (NotFound "clusterrolebindings.rbac.authorization.k8s.io" name), s)
  end.

Definition crb_create (crb : rbacv1.ClusterRoleBinding) (s : Store)
  : result rbacv1.ClusterRoleBinding ApiError * Store :=
  let name := metav1.Name (rbacv1.crb_ObjectMeta crb) in
  match crbs s !! name with
  | Some _ => (Error (AlreadyExists "clusterrolebindings.rbac.authorization.k8s.io" name), s)
  | None => (Ok crb, mkStore (sas s) (crs s) (<[name := crb]> (crbs s)))
  end.

Definition crb_delete (name : string) (s : Store) : result unit ApiError * Store :=
  match crbs s !! name with
  | Some _ => (Ok tt, mkStore (sas s) (crs s) (delete name (crbs s)))
  | None => (Error (NotFound "clusterrolebindings.rbac.authorization.k8s.io" name), s)
  end.

(** A token names its service account and its serial number. *)
Definition mint_token (name : string) (serial : nat) : string :=
  "token-" ++ name ++ "-" ++ pretty (N.of_nat serial).

Definition handle : handler kubeE World :=
  fun X e w =>
  match e in kubeE X return X * World with
  | GetServiceAccount ns n => api_call (VGet, KServiceAccount, ns, n) (sa_get ns n) w
  | CreateServiceAccount ns sa =>
      api_call (VCreate, KServiceAccount, ns, metav1.Name (corev1.sa_ObjectMeta sa)) (sa_create ns sa) w
  | DeleteServiceAccount ns n => api_call (VDelete, KServiceAccount, ns, n) (sa_delete ns n) w
  | CreateToken ns n _ =>
      let '(f, w1) := take_fault (VCreateToken, KServiceAccount, ns, n) w in
      match f with
      | Some err => (Error err, w1)
      | None =>
          match sas (w_store w1) !! (ns, n) with
          | Some _ => (Ok (mint_token n (w_tokens w1)),
                       mkWorld (w_store w1) (w_faults w1) (w_trace w1) (w_chan w1)
                               (S (w_tokens w1)) (w_sleeps w1))
          | None => (Error (NotFound "serviceaccounts" n), w1)
          end
      end
  | GetClusterRole n => api_call (VGet, KClusterRole, "", n) (cr_get n) w
  | CreateClusterRole cr =>
      api_call (VCreate, KClusterRole, "", metav1.Name (rbacv1.cr_ObjectMeta cr)) (cr_create cr) w
  | DeleteClusterRole n => api_call (VDelete, KClusterRole, "", n) (cr_delete n) w
  | GetClusterRoleBinding n => api_call (VGet, KClusterRoleBinding, "", n) (crb_get n) w
  | CreateClusterRoleBinding crb =>
      api_call (VCreate, KClusterRoleBinding, "", metav1.Name (rbacv1.crb_ObjectMeta crb))
               (crb_create crb) w
  | DeleteClusterRoleBinding n => api_call (VDelete, KClusterRoleBinding, "", n) (crb_delete n) w
  | Send err => (tt, mkWorld (w_store w) (w_faults w) (w_trace w) (w_chan w ++ [err])%list
                              (w_tokens w) (w_sleeps w))
  | Sleep _ => (tt, mkWorld (w_store w) (w_faults w) (w_trace w) (w_chan w)
                             (w_tokens w) (S (w_sleeps w)))
  end.

(** Run a program of the code against the world. *)
Definition exec {A} (p : K A) (w : World) : A * World := interp handle p w.

(** ** Quiet worlds: no scripted failure is pending *)

Definition quiet (w : World) : Prop := w_faults w = ∅.

Lemma take_fault_quiet c w :
  quiet w ->
  take_fault c w = (None, mkWorld (w_store w) ∅ (w_trace w ++ [c])%list (w_chan w) (w_tokens w) (w_sleeps w)).
Proof. unfold quiet, take_fault. intros ->. by rewrite lookup_empty. Qed.

Lemma api_call_quiet {A} c (op : Store -> result A ApiError * Store) w :
  quiet w ->
  api_call c op w =
    let '(r, s') := op (w_store w) in
    (r, mkWorld s' ∅ (w_trace w ++ [c])%list (w_chan w) (w_tokens w) (w_sleeps w)).
Proof. intros Hq. unfold api_call. rewrite take_fault_quiet by done. cbn. by destruct (op _). Qed.

(** A quiet world stays quiet: only a scripted failure changes the script. *)
Lemma handle_quiet {X} (e : kubeE X) w : quiet w -> quiet (snd (handle X e w)).
Proof.
  intros Hq. destruct e; cbn;
    try (rewrite api_call_quiet by done; cbn; repeat case_match; done);
    try done.
  rewrite take_fault_quiet by done. cbn. by case_match.
Qed.

Lemma exec_quiet {A} (p : K A) w : quiet w -> quiet (snd (exec p w)).
Proof.
  unfold exec. revert w. induction p as [a|X e k IH]; intros w Hq; [done|].
  cbn. pose proof (handle_quiet e w Hq) as Hq'.
  destruct (handle X e w) as [x w']. by apply IH.
Qed.

#[export] Hint Resolve exec_quiet handle_quiet : kube.

Lemma exec_bind {A B} (p : K A) (f : A -> K B) w :
  exec (p ≫= f) w = let '(a, w') := exec p w in exec (f a) w'.
Proof. apply interp_bind. Qed.

Lemma exec_ret {A} (a : A) w : exec (mret a) w = (a, w).
Proof. reflexivity. Qed.

Create Rewrite HintDb kube_rw.
#[export] Hint Rewrite @exec_bind @exec_ret : kube_rw.

(** ** Calls with no failure scripted *)

Definition no_fault (c : Call) (w : World) : Prop := default [] (w_faults w !! c) = [].

Lemma quiet_no_fault c w : quiet w -> no_fault c w.
Proof. unfold quiet, no_fault. intros ->. by rewrite lookup_empty. Qed.

Lemma take_fault_none c w :
  no_fault c w ->
  take_fault c w = (None, mkWorld (w_store w) (w_faults w) (w_trace w ++ [c])%list (w_chan w) (w_tokens w) (w_sleeps w)).
Proof. unfold no_fault, take_fault. by destruct (w_faults w !! c) as [[|]|]. Qed.

Lemma api_call_none {A} c (op : Store -> result A ApiError * Store) w :
  no_fault c w ->
  api_call c op w =
    let '(r, s') := op (w_store w) in
    (r, mkWorld s' (w_faults w) (w_trace w ++ [c])%list (w_chan w) (w_tokens w) (w_sleeps w)).
Proof. intros H. unfold api_call. rewrite take_fault_none by done. cbn. by destruct (op _). Qed.

Lemma api_call_fault {A} c (op : Store -> result A ApiError * Store) w e q :
  w_faults w !! c = Some (Some e :: q) ->
  api_call c op w = (Error e, mkWorld (w_store w) (<[c := q]> (w_faults w))
                                 (w_trace w ++ [c])%list (w_chan w) (w_tokens w) (w_sleeps w)).
Proof. intros H. unfold api_call, take_fault. by rewrite H. Qed.

(** Discharge [no_fault] on a concrete fault script. *)
Ltac no_fault_tac :=
  unfold no_fault; cbn;
  repeat first [ rewrite lookup_empty | rewrite lookup_insert_eq
               | rewrite lookup_insert_ne by congruence
               | rewrite lookup_singleton_ne by congruence ]; done.

Ltac fault_lookup_tac :=
  cbn; repeat first [ rewrite lookup_insert_eq | rewrite lookup_insert_ne by congruence
                    | rewrite lookup_singleton_eq | rewrite lookup_singleton_ne by congruence ]; done.

(** Run the calls of a program against a world whose fault script is
    concrete: scripted failures are taken, other calls are answered. *)
Ltac kube_go :=
  repeat (cbn; first [ rewrite api_call_none by no_fault_tac
                     | erewrite api_call_fault by fault_lookup_tac ]); cbn.
