(* ===== verification/Interleave.v ===== *)
(** * Interleave: goroutines over the API and their interleavings

    The Cleaner of runtime.go (lines 405-426) starts one goroutine per
    ledger entry and lets them run concurrently.  This file holds the
    scheduler that makes the interleaving explicit ([step_task],
    [run_sched], [run_all]) and its main theorem: goroutines whose
    API calls are deletions of pairwise disjoint sets of objects (their
    footprints), plus sends on the error channel and sleeps, end in the
    same store whatever the interleaving, and the errors on the channel
    are, up to order, the errors each goroutine sends when it runs
    alone.  This holds under any fault script: a scripted failure is
    keyed by the call, and a deletion's call is determined by its object.

    The proof is a simulation: each goroutine has a ghost solo run
    ([ghost_ok]) that has executed the same events on a private world;
    [Inv] says the shared world agrees with each ghost on the goroutine's
    footprint ([wkey]), with the initial world elsewhere, and that the
    channel is a permutation of the ghosts' sends.

    The second part bounds goroutines: [bounded n p] says [p] returns
    after at most [n] events whatever the API answers, and
    [run_sched_fair] shows that a schedule naming every goroutine at
    least its bound many times leaves all of them returned. *)

From S2P Require Import Prelude Types Kube.

(** ** The scheduler *)

(** One event of a goroutine, or [None] once it has returned. *)
Definition step_task (p : K unit) (w : World) : option (K unit * World) :=
  match p with
  | Ret _ => None
  | Vis e k => let '(x, w') := handle _ e w in Some (k x, w')
  end.

(** Step the goroutines a schedule names, one event each; an index
    naming no running goroutine is skipped. *)
Fixpoint run_sched (sched : list nat) (ts : list (K unit)) (w : World) : list (K unit) * World :=
  match sched with
  | [] => (ts, w)
  | i :: rest =>
      match ts !! i with
      | Some p =>
          match step_task p w with
          | Some (p', w') => run_sched rest (<[i := p']> ts) w'
          | None => run_sched rest ts w
          end
      | None => run_sched rest ts w
      end
  end.

(** The goroutines left when the schedule ends run to completion. *)
Definition run_all (ts : list (K unit)) (w : World) : World :=
  fold_left (fun w p => snd (exec p w)) ts w.

(** ** Objects and footprints *)

(** The object a deletion names. *)
Inductive Key :=
| KeySA (ns name : string)
| KeyCR (name : string)
| KeyCRB (name : string).

#[global] Instance Key_eq_dec : EqDecision Key.
Proof. solve_decision. Defined.

Inductive Obj :=
| OSA (sa : corev1.ServiceAccount)
| OCR (cr : rbacv1.ClusterRole)
| OCRB (crb : rbacv1.ClusterRoleBinding).

Definition store_at (k : Key) (s : Store) : option Obj :=
  match k with
  | KeySA ns n => OSA <$> sas s !! (ns, n)
  | KeyCR n => OCR <$> crs s !! n
  | KeyCRB n => OCRB <$> crbs s !! n
  end.

(** The call that deletes the object, as the fault script keys it. *)
Definition call_of (k : Key) : Call :=
  match k with
  | KeySA ns n => (VDelete, KServiceAccount, ns, n)
  | KeyCR n => (VDelete, KClusterRole, ""%string, n)
  | KeyCRB n => (VDelete, KClusterRoleBinding, ""%string, n)
  end.

(** What a world holds about one object: the object and the failures
    scripted for its deletion. *)
Definition wkey (k : Key) (w : World) : option Obj * option (list (option ApiError)) :=
  (store_at k (w_store w), w_faults w !! call_of k).

(** The object an event deletes, if it is a deletion. *)
Definition event_key {X} (e : kubeE X) : option Key :=
  match e with
  | DeleteServiceAccount ns n => Some (KeySA ns n)
  | DeleteClusterRole n => Some (KeyCR n)
  | DeleteClusterRoleBinding n => Some (KeyCRB n)
  | _ => None
  end.

(** An event a goroutine with footprint [A] may issue. *)
Definition event_local {X} (A : list Key) (e : kubeE X) : Prop :=
  match e with
  | DeleteServiceAccount ns n => KeySA ns n ∈ A
  | DeleteClusterRole n => KeyCR n ∈ A
  | DeleteClusterRoleBinding n => KeyCRB n ∈ A
  | Send _ | Sleep _ => True
  | _ => False
  end.

(** Every event of every path of [p] is local to [A]. *)
Fixpoint local {R} (A : list Key) (p : K R) : Prop :=
  match p with
  | Ret _ => True
  | Vis e k => event_local A e /\ forall x, local A (k x)
  end.

(** What an event puts on the error channel. *)
Definition sent {X} (e : kubeE X) : list GoError :=
  match e with Send err => [err] | _ => [] end.

(** ** How one event acts on the objects *)

Lemma store_at_ext (s s' : Store) : (forall k, store_at k s = store_at k s') -> s = s'.
Proof.
  intros H. destruct s as [a b c], s' as [a' b' c'].
  f_equal; apply map_eq.
  - intros [ns n]. specialize (H (KeySA ns n)). cbn in H.
    by destruct (a !! _), (a' !! _); simplify_eq/=.
  - intros n. specialize (H (KeyCR n)). cbn in H. by destruct (b !! _), (b' !! _); simplify_eq/=.
  - intros n. specialize (H (KeyCRB n)). cbn in H. by destruct (c !! _), (c' !! _); simplify_eq/=.
Qed.

Lemma call_of_inj (k k' : Key) : call_of k = call_of k' -> k = k'.
Proof. destruct k, k'; cbn; intros; simplify_eq; done. Qed.

Lemma event_local_key {X} A (e : kubeE X) k : event_local A e -> event_key e = Some k -> k ∈ A.
Proof. destruct e; cbn; intros ? [=]; subst; done. Qed.

Lemma take_fault_frame c w k :
  call_of k <> c -> wkey k (snd (take_fault c w)) = wkey k w.
Proof.
  intros Hc. unfold take_fault, wkey. destruct (w_faults w !! c) as [[|f q]|]; cbn; try done.
  by rewrite lookup_insert_ne by congruence.
Qed.

Lemma api_call_frame {A} c (op : Store -> result A ApiError * Store) w k :
  call_of k <> c -> (forall s, store_at k (snd (op s)) = store_at k s) ->
  wkey k (snd (api_call c op w)) = wkey k w.
Proof.
  intros Hc Hop. rewrite <- (take_fault_frame c w k Hc). unfold api_call.
  destruct (take_fault c w) as [[f|] w1]; cbn; [done|].
  specialize (Hop (w_store w1)). destruct (op _) as [r s']. unfold wkey in *. cbn in *. by rewrite Hop.
Qed.

Lemma api_call_det {A} (op : Store -> result A ApiError * Store) w w' k :
  wkey k w = wkey k w' ->
  (forall s s', store_at k s = store_at k s' ->
     fst (op s) = fst (op s') /\ store_at k (snd (op s)) = store_at k (snd (op s'))) ->
  fst (api_call (call_of k) op w) = fst (api_call (call_of k) op w') /\
  wkey k (snd (api_call (call_of k) op w)) = wkey k (snd (api_call (call_of k) op w')).
Proof.
  unfold wkey, api_call, take_fault. intros [= Hs Hf] Hop.
  destruct (w_faults w !! call_of k) as [[|[f|] q]|] eqn:E; rewrite <- Hf; cbn;
    destruct (Hop _ _ Hs) as [H1 H2]; do 2 destruct (op _); cbn in *; subst;
    rewrite ?lookup_insert_eq; split; congruence.
Qed.

Lemma api_call_chan {A} c (op : Store -> result A ApiError * Store) w :
  w_chan (snd (api_call c op w)) = w_chan w.
Proof.
  unfold api_call, take_fault. destruct (w_faults w !! c) as [[|f q]|]; cbn;
    try destruct f; cbn; try done; by destruct (op _).
Qed.

(** The three deletions: each reads and changes only its own object. *)
Lemma delete_frame {X} A (e : kubeE X) k s :
  event_local A e -> event_key e <> Some k ->
  match e with
  | DeleteServiceAccount ns n => store_at k (snd (sa_delete ns n s)) = store_at k s
  | DeleteClusterRole n => store_at k (snd (cr_delete n s)) = store_at k s
  | DeleteClusterRoleBinding n => store_at k (snd (crb_delete n s)) = store_at k s
  | _ => True
  end.
Proof.
  destruct e; cbn; intros _ Hk; try done.
  - unfold sa_delete. destruct (sas s !! _); [|done]. destruct k; cbn; try done.
    rewrite lookup_delete_ne; congruence.
  - unfold cr_delete. destruct (crs s !! _); [|done]. destruct k; cbn; try done.
    rewrite lookup_delete_ne; congruence.
  - unfold crb_delete. destruct (crbs s !! _); [|done]. destruct k; cbn; try done.
    rewrite lookup_delete_ne; congruence.
Qed.

Ltac delete_det_tac :=
  let H := fresh in let Ea := fresh in let Eb := fresh in
  intros s1 s2 H; cbn in H;
  lazymatch goal with
  | |- context [sa_delete ?ns ?n] =>
      unfold sa_delete; destruct (sas s1 !! (ns, n)) eqn:Ea, (sas s2 !! (ns, n)) eqn:Eb
  | |- context [cr_delete ?n] =>
      unfold cr_delete; destruct (crs s1 !! n) eqn:Ea, (crs s2 !! n) eqn:Eb
  | |- context [crb_delete ?n] =>
      unfold crb_delete; destruct (crbs s1 !! n) eqn:Ea, (crbs s2 !! n) eqn:Eb
  end; rewrite ?Ea, ?Eb in H; simplify_eq/=; rewrite ?Ea, ?Eb, ?lookup_delete_eq; done.

Lemma handle_chan {X} A (e : kubeE X) w :
  event_local A e -> w_chan (snd (handle X e w)) = (w_chan w ++ sent e)%list.
Proof.
  destruct e; cbn; intros Hl; try contradiction; rewrite ?api_call_chan, ?app_nil_r; done.
Qed.

Lemma handle_frame {X} A (e : kubeE X) w k :
  event_local A e -> event_key e <> Some k -> wkey k (snd (handle X e w)) = wkey k w.
Proof.
  intros Hl Hk. pose proof (delete_frame A e k) as Hd.
  destruct e; cbn in *; try contradiction; try done;
    (apply api_call_frame; [|intros s; exact (Hd s Hl Hk)]);
    [intros Hc%(call_of_inj k (KeySA _ _)) | intros Hc%(call_of_inj k (KeyCR _))
    | intros Hc%(call_of_inj k (KeyCRB _))]; congruence.
Qed.

Lemma handle_det {X} A (e : kubeE X) w w' :
  event_local A e -> (forall k, event_key e = Some k -> wkey k w = wkey k w') ->
  fst (handle X e w) = fst (handle X e w') /\
  (forall k, event_key e = Some k -> wkey k (snd (handle X e w)) = wkey k (snd (handle X e w'))).
Proof.
  intros Hl Hk. destruct e; cbn in Hl; try contradiction.
  - destruct (api_call_det (sa_delete ns name) w w' (KeySA ns name)) as [H1 H2];
      [by apply Hk | delete_det_tac | split; [exact H1 | intros ? [= <-]; exact H2]].
  - destruct (api_call_det (cr_delete name) w w' (KeyCR name)) as [H1 H2];
      [by apply Hk | delete_det_tac | split; [exact H1 | intros ? [= <-]; exact H2]].
  - destruct (api_call_det (crb_delete name) w w' (KeyCRB name)) as [H1 H2];
      [by apply Hk | delete_det_tac | split; [exact H1 | intros ? [= <-]; exact H2]].
  - split; [done | by intros ? [=]].
  - split; [done | by intros ? [=]].
Qed.

Lemma handle_frame_eq {X} A (e : kubeE X) w x w1 k :
  handle X e w = (x, w1) -> event_local A e -> event_key e <> Some k -> wkey k w1 = wkey k w.
Proof. intros Hh He Hk. pose proof (handle_frame A e w k He Hk) as F. by rewrite Hh in F. Qed.

Lemma handle_chan_eq {X} A (e : kubeE X) w x w1 :
  handle X e w = (x, w1) -> event_local A e -> w_chan w1 = (w_chan w ++ sent e)%list.
Proof. intros Hh He. pose proof (handle_chan A e w He) as F. by rewrite Hh in F. Qed.

Lemma exec_vis_eq {X R} (e : kubeE X) (k : X -> K R) w x w1 :
  handle X e w = (x, w1) -> exec (Vis e k) w = exec (k x) w1.
Proof. intros Hh. unfold exec. by rewrite interp_vis, Hh. Qed.

Lemma not_key_of_local {X} A (e : kubeE X) k : event_local A e -> k ∉ A -> event_key e <> Some k.
Proof. intros He Hn Hk. apply Hn. exact (event_local_key A e k He Hk). Qed.

(** Extending one list of a concatenation moves the extension to the
    end, up to order. *)
Lemma concat_insert_app {A} (ls : list (list A)) i l x :
  ls !! i = Some l -> List.concat (<[i := (l ++ x)%list]> ls) ≡ₚ (List.concat ls ++ x)%list.
Proof.
  revert i. induction ls as [|l0 ls IH]; intros [|i] Hi; simplify_eq/=.
  - rewrite <- !app_assoc. apply Permutation_app_head, Permutation_app_comm.
  - rewrite (IH i Hi). by rewrite app_assoc.
Qed.

Lemma concat_fmap_nil {A B} (f : A -> list B) (l : list A) :
  (forall x, f x = []) -> List.concat (f <$> l) = [].
Proof. intros Hf. induction l as [|x l IH]; [done|]. cbn. by rewrite Hf, IH. Qed.

(** ** The simulation *)

Section Simulation.
(** The initial world and the goroutines, each with its footprint. *)
Context (w0 : World) (jobs : list (K unit * list Key)).
Hypothesis jobs_local : forall i p A, jobs !! i = Some (p, A) -> local A p.
Hypothesis jobs_disjoint : forall i j p q A B k,
  i <> j -> jobs !! i = Some (p, A) -> jobs !! j = Some (q, B) -> k ∈ A -> k ∉ B.

(** What a ghost run has sent on the channel. *)
Definition sends (g : K unit * World) : list GoError := drop (List.length (w_chan w0)) (w_chan g.2).

(** The ghost of goroutine [i]: the rest [g.1] of its program and the
    world [g.2] of a solo run from [w0] that has reached that rest. *)
Definition ghost_ok (i : nat) (g : K unit * World) : Prop :=
  exists p0 A, jobs !! i = Some (p0, A) /\ local A g.1 /\ exec p0 w0 = exec g.1 g.2 /\
    (forall k, k ∉ A -> wkey k g.2 = wkey k w0) /\
    w_chan g.2 = (w_chan w0 ++ sends g)%list.

Definition Inv (ts : list (K unit)) (w : World) : Prop :=
  exists gs : list (K unit * World),
    ts = gs.*1 /\ List.length gs = List.length jobs /\
    (forall i g, gs !! i = Some g -> ghost_ok i g) /\
    (forall i g p0 A k, gs !! i = Some g -> jobs !! i = Some (p0, A) -> k ∈ A -> wkey k w = wkey k g.2) /\
    (forall k, (forall i p0 A, jobs !! i = Some (p0, A) -> k ∉ A) -> wkey k w = wkey k w0) /\
    w_chan w ≡ₚ (w_chan w0 ++ List.concat (sends <$> gs))%list.

Lemma sends_app (g : K unit * World) L : w_chan g.2 = (w_chan w0 ++ L)%list -> sends g = L.
Proof. unfold sends. intros ->. apply drop_app_length. Qed.

Lemma Inv_init : Inv jobs.*1 w0.
Proof.
  exists ((fun j => (j.1, w0)) <$> jobs). split_and!.
  - by rewrite <- list_fmap_compose.
  - by rewrite length_fmap.
  - intros i g (j & -> & Hj)%list_lookup_fmap_Some. destruct j as [p0 A].
    exists p0, A. cbn. split_and!; eauto. unfold sends. cbn. by rewrite drop_all, app_nil_r.
  - intros i g p0 A k (j & -> & _)%list_lookup_fmap_Some _ _. done.
  - done.
  - rewrite <- list_fmap_compose, concat_fmap_nil, app_nil_r; [done|].
    intros j. unfold compose, sends. apply drop_all.
Qed.

(** One event of goroutine [i] keeps the invariant: the event reads only
    objects of [i]'s footprint, where the shared world and [i]'s ghost
    agree, so both answer alike and the ghost takes the same step. *)
Lemma Inv_step ts w i p p' w' :
  Inv ts w -> ts !! i = Some p -> step_task p w = Some (p', w') -> Inv (<[i := p']> ts) w'.
Proof.
  intros (gs & -> & Hlen & Hg & Hown & Hun & Hch) Hi Hs.
  apply list_lookup_fmap_Some in Hi as [[p1 wg] [-> Hgi]]. cbn in Hs |- *.
  destruct p1 as [a|X e k]; [done|]. cbn in Hs.
  destruct (Hg i _ Hgi) as (p0 & A & Hj & [He Hk] & Hex & Hfr & Hgc). cbn in Hex, Hfr, Hgc.
  assert (Hagree : forall key, event_key e = Some key -> wkey key w = wkey key wg).
  { intros key Hkey. exact (Hown i _ p0 A key Hgi Hj (event_local_key A e key He Hkey)). }
  destruct (handle_det A e w wg He Hagree) as [Hx Hpost].
  destruct (handle X e w) as [x w1] eqn:Hh. injection Hs as <- <-.
  destruct (handle X e wg) as [xg wg1] eqn:Hhg. cbn in Hx, Hpost. subst xg.
  assert (Hilen : i < List.length gs) by exact (lookup_lt_Some _ _ _ Hgi).
  assert (Hsends : sends (k x, wg1) = (sends (Vis e k, wg) ++ sent e)%list).
  { apply sends_app. cbn. by rewrite (handle_chan_eq A e wg x wg1 Hhg He), Hgc, <- app_assoc. }
  exists (<[i := (k x, wg1)]> gs). split_and!.
  - by rewrite list_fmap_insert.
  - by rewrite length_insert.
  - intros j g Hjg. destruct (decide (i = j)) as [<-|Hne].
    + rewrite list_lookup_insert_eq in Hjg by done. injection Hjg as <-.
      exists p0, A. cbn. split_and!; [done | apply Hk | | | ].
      * exact Hex.
      * intros key Hn. rewrite <- (Hfr key Hn).
        exact (handle_frame_eq A e wg x wg1 key Hhg He (not_key_of_local A e key He Hn)).
      * rewrite Hsends, app_assoc, <- Hgc. exact (handle_chan_eq A e wg x wg1 Hhg He).
    + rewrite list_lookup_insert_ne in Hjg by done. by apply Hg.
  - intros j g p0' A' key Hjg Hj' Hin. destruct (decide (i = j)) as [<-|Hne].
    + rewrite list_lookup_insert_eq in Hjg by done. injection Hjg as <-. rewrite Hj in Hj'.
      injection Hj' as <- <-. cbn.
      destruct (decide (event_key e = Some key)) as [Hkey|Hkey]; [by apply Hpost|].
      rewrite (handle_frame_eq A e w x w1 key Hh He Hkey), (handle_frame_eq A e wg x wg1 key Hhg He Hkey).
      exact (Hown i _ p0 A key Hgi Hj Hin).
    + rewrite list_lookup_insert_ne in Hjg by done.
      assert (Hn : key ∉ A) by exact (jobs_disjoint j i p0' p0 A' A key (not_eq_sym Hne) Hj' Hj Hin).
      rewrite (handle_frame_eq A e w x w1 key Hh He (not_key_of_local A e key He Hn)).
      exact (Hown j g p0' A' key Hjg Hj' Hin).
  - intros key Hno.
    rewrite (handle_frame_eq A e w x w1 key Hh He (not_key_of_local A e key He (Hno i p0 A Hj))).
    by apply Hun.
  - rewrite (handle_chan_eq A e w x w1 Hh He), Hch, list_fmap_insert, Hsends.
    rewrite concat_insert_app; [by rewrite app_assoc|]. by rewrite list_lookup_fmap, Hgi.
Qed.

Lemma Inv_sched sched : forall ts w, Inv ts w ->
  Inv (run_sched sched ts w).1 (run_sched sched ts w).2.
Proof.
  induction sched as [|i sched IH]; intros ts w HI; [done|]. cbn.
  destruct (ts !! i) as [p|] eqn:Hi; [|by apply IH].
  destruct (step_task p w) as [[p' w']|] eqn:Hs; [|by apply IH].
  apply IH. exact (Inv_step ts w i p p' w' HI Hi Hs).
Qed.

(** Running goroutine [i] to completion keeps the invariant. *)
Lemma Inv_exec (p : K unit) : forall ts w i, Inv ts w -> ts !! i = Some p ->
  Inv (<[i := Ret tt]> ts) (snd (exec p w)).
Proof.
  induction p as [a|X e k IH]; intros ts w i HI Hi.
  - destruct a. by rewrite list_insert_id.
  - destruct (handle X e w) as [x w1] eqn:Hh.
    assert (HI1 : Inv (<[i := k x]> ts) w1).
    { apply (Inv_step ts w i (Vis e k)); [done | done |]. cbn. by rewrite Hh. }
    rewrite (exec_vis_eq e k w x w1 Hh).
    pose proof (IH x _ w1 i HI1) as H. rewrite list_insert_insert_eq in H. apply H.
    apply list_lookup_insert_eq. exact (lookup_lt_Some _ _ _ Hi).
Qed.

Lemma Inv_run_all (l : list (K unit)) : forall pre w, Inv (pre ++ l) w ->
  Inv (pre ++ ((fun _ => Ret tt) <$> l)) (run_all l w).
Proof.
  induction l as [|p l IH]; intros pre w HI; [done|].
  unfold run_all. cbn [fold_left fmap list_fmap].
  pose proof (Inv_exec p _ w (List.length pre) HI) as H.
  rewrite list_lookup_middle in H by done.
  specialize (H eq_refl). pose proof (insert_app_r pre (p :: l) 0 (Ret tt)) as E.
  rewrite Nat.add_0_r in E. rewrite E in H. cbn in H.
  replace (pre ++ Ret tt :: l) with ((pre ++ [Ret tt]) ++ l) in H by by rewrite <- app_assoc.
  pose proof (IH _ _ H) as H'. rewrite <- app_assoc in H'. exact H'.
Qed.

(** Where the goroutines end after the schedule and the run to
    completion. *)
Definition outcome (sched : list nat) : World :=
  let '(ts, w1) := run_sched sched jobs.*1 w0 in run_all ts w1.

(** Whatever the schedule: on each goroutine's footprint the world ends
    as the goroutine's solo run leaves it, elsewhere as it started, and
    the channel holds, in some order, the errors of the solo runs. *)
Theorem interleave_outcome (sched : list nat) :
  (forall i p A k, jobs !! i = Some (p, A) -> k ∈ A -> wkey k (outcome sched) = wkey k (snd (exec p w0))) /\
  (forall k, (forall i p A, jobs !! i = Some (p, A) -> k ∉ A) -> wkey k (outcome sched) = wkey k w0) /\
  w_chan (outcome sched) ≡ₚ
    (w_chan w0 ++ List.concat ((fun j => sends (Ret tt, snd (exec j.1 w0))) <$> jobs))%list.
Proof.
  unfold outcome. pose proof (Inv_sched sched _ _ Inv_init) as HI.
  destruct (run_sched sched jobs.*1 w0) as [ts w1]. cbn in HI.
  destruct (Inv_run_all ts [] w1 HI) as (gs & Hts & Hlen & Hg & Hown & Hun & Hch).
  assert (Hfin : forall i g, gs !! i = Some g ->
            exists p0 A, jobs !! i = Some (p0, A) /\ g = (Ret tt, snd (exec p0 w0))).
  { intros i g Hgi. destruct (Hg i g Hgi) as (p0 & A & Hj & _ & Hex & _).
    assert (Hr : g.1 = Ret tt).
    { assert (H1 : gs.*1 !! i = Some g.1) by (rewrite list_lookup_fmap, Hgi; done).
      cbn in Hts. rewrite <- Hts, list_lookup_fmap in H1.
      destruct (ts !! i); by simplify_eq/=. }
    exists p0, A. split; [done|]. destruct g as [q wg]. cbn in Hr |- *. subst q. by rewrite Hex. }
  split_and!.
  - intros i p A k Hj Hk.
    destruct (lookup_lt_is_Some_2 gs i) as [g Hgi]; [rewrite Hlen; exact (lookup_lt_Some _ _ _ Hj)|].
    destruct (Hfin i g Hgi) as (p0 & A0 & Hj0 & ->). rewrite Hj in Hj0. injection Hj0 as <- <-.
    exact (Hown i _ p A k Hgi Hj Hk).
  - exact Hun.
  - rewrite Hch. enough (E : sends <$> gs = (fun j => sends (Ret tt, snd (exec j.1 w0))) <$> jobs)
      by (rewrite E; done).
    apply list_eq. intros i. rewrite !list_lookup_fmap.
    destruct (gs !! i) as [g|] eqn:Hgi.
    + destruct (Hfin i g Hgi) as (p0 & A & Hj & ->). by rewrite Hj.
    + apply lookup_ge_None in Hgi. rewrite Hlen in Hgi. by rewrite (lookup_ge_None_2 jobs i Hgi).
Qed.
End Simulation.

(** Two schedules lead to the same store and, up to order, the same
    errors on the channel. *)
Lemma interleave_indep (w0 : World) (jobs : list (K unit * list Key))
    (Hloc : forall i p A, jobs !! i = Some (p, A) -> local A p)
    (Hdisj : forall i j p q A B k,
       i <> j -> jobs !! i = Some (p, A) -> jobs !! j = Some (q, B) -> k ∈ A -> k ∉ B)
    (s1 s2 : list nat) :
  w_store (outcome w0 jobs s1) = w_store (outcome w0 jobs s2) /\
  w_chan (outcome w0 jobs s1) ≡ₚ w_chan (outcome w0 jobs s2).
Proof.
  destruct (interleave_outcome w0 jobs Hloc Hdisj s1) as (Ho1 & Hu1 & Hc1).
  destruct (interleave_outcome w0 jobs Hloc Hdisj s2) as (Ho2 & Hu2 & Hc2).
  split; [|by rewrite Hc1, Hc2].
  apply store_at_ext. intros k.
  destruct (decide (Exists (fun j => k ∈ j.2) jobs)) as [Hex|Hno].
  - apply Exists_exists in Hex as [[p A] [Hin Hk]]. apply list_elem_of_lookup_1 in Hin as [i Hi].
    cbn in Hk. exact (eq_trans (f_equal fst (Ho1 i p A k Hi Hk)) (eq_sym (f_equal fst (Ho2 i p A k Hi Hk)))).
  - assert (Hn : forall i p A, jobs !! i = Some (p, A) -> k ∉ A).
    { intros i p A Hi Hk. apply Hno, Exists_exists. exists (p, A). split; [|done].
      exact (list_elem_of_lookup_2 _ _ _ Hi). }
    exact (eq_trans (f_equal fst (Hu1 k Hn)) (eq_sym (f_equal fst (Hu2 k Hn)))).
Qed.

(** ** Locality of programs *)

Lemma local_bind {R S} A (p : K R) (f : R -> K S) :
  local A p -> (forall r, local A (f r)) -> local A (p ≫= f).
Proof.
  induction p as [r|X e k IH]; intros Hp Hf; [apply Hf|].
  destruct Hp as [He Hk]. split; [done|]. intros x. by apply IH.
Qed.

(** Prove [local] of a concrete program: events are checked against the
    footprint, continuations for every answer. *)
Ltac local_solve :=
  repeat first [ apply local_bind | progress cbn | split | intro | case_match | set_solver ].

(** ** Termination: a bound on the events of a program *)

(** [p] returns after at most [n] events, whatever the answers. *)
Fixpoint bounded {R} (n : nat) (p : K R) {struct p} : Prop :=
  match p with
  | Ret _ => True
  | Vis e k => match n with O => False | S m => forall x, bounded m (k x) end
  end.

Lemma bounded_mono {R} (p : K R) n m : n <= m -> bounded n p -> bounded m p.
Proof.
  revert n m. induction p as [r|X e k IH]; intros n m Hnm Hb; [exact I|].
  destruct n as [|n]; [destruct Hb|]. destruct m as [|m]; [lia|].
  intros x. apply (IH x n); [lia|apply Hb].
Qed.

Lemma bounded_bind {R S} (p : K R) (f : R -> K S) n m :
  bounded n p -> (forall r, bounded m (f r)) -> bounded (n + m) (p ≫= f).
Proof.
  revert n. induction p as [r|X e k IH]; intros n Hp Hf.
  - cbn. apply (bounded_mono _ m); [lia|apply Hf].
  - destruct n as [|n]; [destruct Hp|]. intros x. by apply IH.
Qed.

Lemma bounded_trigger {X} (e : kubeE X) : bounded 1 (trigger e).
Proof. by intros x. Qed.

Lemma bounded_step n p w p' w' :
  bounded n p -> step_task p w = Some (p', w') -> bounded (n - 1) p'.
Proof.
  destruct p as [r|X e k]; [done|]. cbn. destruct (handle X e w) as [x w1].
  intros Hb [= <- <-]. destruct n as [|n]; [destruct Hb|]. cbn. rewrite Nat.sub_0_r. apply Hb.
Qed.

Lemma bounded_zero {R} (p : K R) : bounded 0 p -> exists r, p = Ret r.
Proof. destruct p as [r|X e k]; [by exists r|destruct 1]. Qed.

(** Prove a bound on a concrete program: one unit per event. *)
Ltac bounded_solve :=
  repeat first [ exact I | progress cbn | intro | case_match ].

Lemma run_sched_length sched : forall ts w, List.length (run_sched sched ts w).1 = List.length ts.
Proof.
  induction sched as [|i sched IH]; intros ts w; [done|]. cbn.
  destruct (ts !! i); [|apply IH]. destruct (step_task _ _) as [[p' w']|]; [|apply IH].
  by rewrite IH, length_insert.
Qed.

(** Each scheduled step of a goroutine uses up one unit of its bound. *)
Lemma step_task_none p w : step_task p w = None -> exists r, p = Ret r.
Proof. destruct p as [r|X e k]; [by exists r|]. cbn. by destruct (handle X e w). Qed.

Lemma run_sched_bounded sched : forall ts w (b : nat -> nat),
  (forall i p, ts !! i = Some p -> bounded (b i) p) ->
  forall i p, (run_sched sched ts w).1 !! i = Some p -> bounded (b i - count_occ Nat.eq_dec sched i) p.
Proof.
  induction sched as [|j sched IH]; intros ts w b Hb; cbn.
  - intros i p Hi. rewrite Nat.sub_0_r. by apply Hb.
  - set (b' := fun i => if decide (i = j) then b i - 1 else b i).
    intros i p Hi.
    assert (Hc : b i - (if Nat.eq_dec j i then S (count_occ Nat.eq_dec sched i) else count_occ Nat.eq_dec sched i)
                 = b' i - count_occ Nat.eq_dec sched i).
    { unfold b'. destruct (Nat.eq_dec j i), (decide (i = j)); subst; try done; lia. }
    rewrite Hc.
    (* Goroutines other than [j] keep their bound; [j]'s is checked per case. *)
    assert (Hother : forall i p, i <> j -> ts !! i = Some p -> bounded (b' i) p).
    { intros i' p' Hne Hi'. unfold b'. rewrite decide_False by done. by apply Hb. }
    destruct (ts !! j) as [q|] eqn:Hj.
    + destruct (step_task q w) as [[q' w']|] eqn:Hs.
      * apply (IH (<[j := q']> ts) w' b'); [|exact Hi].
        intros i' p' Hi'. destruct (decide (i' = j)) as [->|Hne].
        -- rewrite list_lookup_insert_eq in Hi' by exact (lookup_lt_Some _ _ _ Hj).
           injection Hi' as <-. unfold b'. rewrite decide_True by done.
           exact (bounded_step _ q w q' w' (Hb j q Hj) Hs).
        -- rewrite list_lookup_insert_ne in Hi' by congruence. by apply Hother.
      * apply (IH ts w b'); [|exact Hi]. intros i' p' Hi'. destruct (decide (i' = j)) as [->|Hne].
        -- rewrite Hj in Hi'. injection Hi' as <-. destruct (step_task_none q w Hs) as [r ->]. exact I.
        -- by apply Hother.
    + apply (IH ts w b'); [|exact Hi]. intros i' p' Hi'. destruct (decide (i' = j)) as [->|Hne].
      * by rewrite Hj in Hi'.
      * by apply Hother.
Qed.

(** Liveness: when every goroutine returns within [N] events and the
    schedule names each of them at least [N] times, every goroutine has
    returned when the schedule ends. *)
Lemma run_sched_fair (sched : list nat) (ts : list (K unit)) (w : World) (N : nat) :
  (forall i p, ts !! i = Some p -> bounded N p) ->
  (forall i, i < List.length ts -> N <= count_occ Nat.eq_dec sched i) ->
  forall i p, (run_sched sched ts w).1 !! i = Some p -> exists r, p = Ret r.
Proof.
  intros Hb Hf i p Hi. apply bounded_zero.
  pose proof (run_sched_bounded sched ts w (fun _ => N) Hb i p Hi) as H.
  pose proof (lookup_lt_Some _ _ _ Hi) as Hlt. rewrite run_sched_length in Hlt.
  specialize (Hf i Hlt).
  assert (E : N - count_occ Nat.eq_dec sched i = 0) by lia. cbv beta in H. rewrite E in H. exact H.
Qed.

(** Goroutines that have all returned leave nothing for [run_all]. *)
Lemma run_all_done (ts : list (K unit)) w :
  (forall i p, ts !! i = Some p -> exists r, p = Ret r) -> run_all ts w = w.
Proof.
  intros Hd. unfold run_all. revert w. induction ts as [|p ts IH]; intros w; [done|].
  cbn. destruct (Hd 0 p eq_refl) as [r ->]. cbn.
  apply IH. intros i q Hi. exact (Hd (S i) q Hi).
Qed.
