(* ===== verification/Verify.v ===== *)
(** * Verify: the reconciling verifiers of runtime.go (lines 213-317)

    [verifyServiceAccount], [verifyClusterRoleRules], [verifyClusterRole]
    and [verifyCRBinding] fetch an object by name; a missing object
    answers [false], a present one whose compared fields equal the
    desired ones answers [true], a present one that differs is deleted
    and answers [false]; any other API error is returned.  The delete
    helpers [deleteServiceAccount], [deleteCRBinding] and
    [deleteClusterRole] treat [NotFound] as success.

    The abstract contract of a verifier is the record [Reconciler] (how
    to find the object in a store, how to remove it, which objects
    match) with its law, and the function [reconcile]; each verifier is
    shown to refine [reconcile] of its reconciler when the API answers
    without injected failures, issuing no create or delete call
    ([no_writes]) when it answers [Satisfied]; its error paths are
    stated separately. *)

From S2P Require Import Prelude Types Policy Builders Kube.

Local Open Scope string_scope.

(** [apierr.IsNotFound] applied to a Go error: true only on the API's
    own status error. *)
Definition IsNotFoundErr (e : GoError) : bool :=
  match e with ApiErr a => IsNotFound a | _ => false end.

Section Verifiers.
Context (rtc : RuntimeClient).
Let user := User rtc.

Definition deleteServiceAccount : K (goresult bool) :=
  r ← trigger (DeleteServiceAccount (SAInfo.Namespace user) (SAInfo.ServiceAccountName user));
  match r with
  | Ok _ => mret (Ok true)
  | Error e => if IsNotFound e then mret (Ok true) else mret (Error (ApiErr e))
  end.

Definition deleteCRBinding : K (option GoError) :=
  r ← trigger (DeleteClusterRoleBinding (SAInfo.ClusterRoleBindingName user));
  match r with
  | Ok _ => mret None
  | Error e => if IsNotFound e then mret None else mret (Some (ApiErr e))
  end.

Definition deleteClusterRole (name : string) : K (goresult bool) :=
  r ← trigger (DeleteClusterRole name);
  match r with
  | Ok _ => mret (Ok true)
  | Error e => if IsNotFound e then mret (Ok true) else mret (Error (ApiErr e))
  end.

Definition verifyServiceAccount : K (goresult bool) :=
  r ← trigger (GetServiceAccount (SAInfo.Namespace user) (SAInfo.ServiceAccountName user));
  match r with
  | Ok _ => mret (Ok true)
  | Error e => if IsNotFound e then mret (Ok false) else mret (Error (ApiErr e))
  end.

(** The tail shared by the two cluster-role verifiers: delete the stale
    role and answer [false], or return the wrapped delete error. *)
Definition delete_stale_role (name : string) : K (goresult bool) :=
  d ← deleteClusterRole name;
  match d with
  | Ok _ => mret (Ok false)
  | Error e => mret (Error (Wrap "in deleteClusterRole" e))
  end.

Definition verifyClusterRoleRules (l2L3OperatiorRole : string) : K (goresult bool) :=
  r ← trigger (GetClusterRole (SAInfo.ClusterRoleRulesName user));
  match r with
  | Ok cr =>
      if bool_decide (rbacv1.Rules cr = lookup_rules l2L3OperatiorRole)
      then mret (Ok true)
      else delete_stale_role (SAInfo.ClusterRoleRulesName user)
  | Error e => if IsNotFound e then mret (Ok false) else mret (Error (ApiErr e))
  end.

(** Lines 273-279. *)
Definition expectedSelectors (l2L3OperatiorRole aggregationLabel : string)
  : list metav1.LabelSelector :=
  ([] ++ lookup_aggregation l2L3OperatiorRole) ++ [aggregate_to aggregationLabel].

(** [cr.AggregationRule != nil && reflect.DeepEqual(...)]. *)
Definition selectors_match (cr : rbacv1.ClusterRole) (expected : list metav1.LabelSelector) : bool :=
  match rbacv1.AggregationRule cr with
  | Some sel => bool_decide (sel = expected)
  | None => false
  end.

Definition verifyClusterRole (l2L3OperatiorRole aggregationLabel : string) : K (goresult bool) :=
  r ← trigger (GetClusterRole (SAInfo.ClusterRoleName user));
  match r with
  | Ok cr =>
      if selectors_match cr (expectedSelectors l2L3OperatiorRole aggregationLabel)
      then mret (Ok true)
      else delete_stale_role (SAInfo.ClusterRoleName user)
  | Error e => if IsNotFound e then mret (Ok false) else mret (Error (ApiErr e))
  end.

Definition verifyCRBinding (roleRef : rbacv1.RoleRef) (subjects : list rbacv1.Subject)
  : K (goresult bool) :=
  r ← trigger (GetClusterRoleBinding (SAInfo.ClusterRoleBindingName user));
  match r with
  | Ok crb =>
      if bool_decide (rbacv1.Subjects crb = subjects) && bool_decide (rbacv1.crb_RoleRef crb = roleRef)
      then mret (Ok true)
      else
        d ← deleteCRBinding;
        match d with
        | None => mret (Ok false)
        | Some e =>
            if IsNotFoundErr e then mret (Ok false)
            else mret (Error (Wrap "in deleteCRBinding" e))
        end
  | Error e => if IsNotFound e then mret (Ok false) else mret (Error (ApiErr e))
  end.
End Verifiers.

(** ** The contract of a verifier *)

(** How a verifier sees its object in a store, how the store looks once
    the object is deleted, and which objects satisfy it; the law says a
    removed object is gone. *)
Record Reconciler (T : Type) := {
  rc_get : Store -> option T;
  rc_remove : Store -> Store;
  rc_matches : T -> bool;
  rc_remove_get : forall s, rc_get (rc_remove s) = None }.
Arguments rc_get {T}. Arguments rc_remove {T}. Arguments rc_matches {T}.
Arguments rc_remove_get {T}.

(** Spec 4.1: [Satisfied] (true) leaves the store alone; [Absent] (false)
    leaves a store where the object is missing. *)
Definition reconcile {T} (rc : Reconciler T) (s : Store) : bool * Store :=
  match rc_get rc s with
  | Some o => if rc_matches rc o then (true, s) else (false, rc_remove rc s)
  | None => (false, s)
  end.

(** The calls from [w] to [w'] include no create and no delete. *)
Definition no_writes (w w' : World) : Prop :=
  exists l, w_trace w' = (w_trace w ++ l)%list /\
            Forall (fun c : Call => c.1.1.1 <> VCreate /\ c.1.1.1 <> VDelete) l.

Lemma no_writes_refl w : no_writes w w.
Proof. exists []. by rewrite app_nil_r. Qed.

Lemma no_writes_trans w1 w2 w3 : no_writes w1 w2 -> no_writes w2 w3 -> no_writes w1 w3.
Proof.
  intros [l1 [H1 F1]] [l2 [H2 F2]]. exists (l1 ++ l2)%list.
  rewrite H2, H1, app_assoc. split; [done|]. by apply Forall_app.
Qed.

(** A verifier refines its reconciler when, against an API that answers
    every call, it returns [reconcile]'s answer and store, and issues no
    write when it answers [Satisfied]. *)
Definition refines_reconcile {T} (p : K (goresult bool)) (rc : Reconciler T) : Prop :=
  forall w, quiet w ->
    fst (exec p w) = Ok (fst (reconcile rc (w_store w))) /\
    w_store (snd (exec p w)) = snd (reconcile rc (w_store w)) /\
    (fst (reconcile rc (w_store w)) = true -> no_writes w (snd (exec p w))).

Definition sa_remove (ns name : string) (s : Store) : Store :=
  mkStore (delete (ns, name) (sas s)) (crs s) (crbs s).
Definition cr_remove (name : string) (s : Store) : Store :=
  mkStore (sas s) (delete name (crs s)) (crbs s).
Definition crb_remove (name : string) (s : Store) : Store :=
  mkStore (sas s) (crs s) (delete name (crbs s)).

Program Definition rc_sa (ns name : string) : Reconciler corev1.ServiceAccount :=
  {| rc_get s := sas s !! (ns, name); rc_remove := sa_remove ns name;
     rc_matches _ := true |}.
Next Obligation. intros. apply lookup_delete_eq. Qed.

Program Definition rc_rules (name role : string) : Reconciler rbacv1.ClusterRole :=
  {| rc_get s := crs s !! name; rc_remove := cr_remove name;
     rc_matches cr := bool_decide (rbacv1.Rules cr = lookup_rules role) |}.
Next Obligation. intros. apply lookup_delete_eq. Qed.

Program Definition rc_agg (name role label : string) : Reconciler rbacv1.ClusterRole :=
  {| rc_get s := crs s !! name; rc_remove := cr_remove name;
     rc_matches cr := selectors_match cr (expectedSelectors role label) |}.
Next Obligation. intros. apply lookup_delete_eq. Qed.

Program Definition rc_crb (name : string) (roleRef : rbacv1.RoleRef) (subjects : list rbacv1.Subject)
  : Reconciler rbacv1.ClusterRoleBinding :=
  {| rc_get s := crbs s !! name; rc_remove := crb_remove name;
     rc_matches crb := bool_decide (rbacv1.Subjects crb = subjects) &&
                       bool_decide (rbacv1.crb_RoleRef crb = roleRef) |}.
Next Obligation. intros. apply lookup_delete_eq. Qed.

(** Run the calls of a program against a quiet world. *)
Ltac kube_run :=
  repeat (cbn; rewrite ?api_call_quiet by (first [done | reflexivity])).

(** Close a branch of a verifier: answer, store, and the writes of a
    [Satisfied] answer (one get). *)
Ltac refine_done :=
  split_and!; try done; cbn;
  first [ intros _; eexists; split; [reflexivity | apply Forall_singleton; cbn; split; discriminate]
        | intros [=] ].

Ltac refine_tac get del E :=
  intros w Hq; unfold reconcile, exec; kube_run; unfold get;
  destruct (_ !! _) eqn:E; kube_run; [|refine_done];
  match goal with |- context [if ?b then _ else _] => destruct b eqn:? end;
  [kube_run; refine_done|];
  split_and!; [| |intros [=]]; kube_run; unfold del; rewrite E; kube_run; done.

(** ** Each verifier implements its contract *)

Lemma verifyClusterRoleRules_reconciles (rtc : RuntimeClient) (role : string) :
  refines_reconcile (verifyClusterRoleRules rtc role)
                    (rc_rules (SAInfo.ClusterRoleRulesName (User rtc)) role).
Proof. refine_tac cr_get cr_delete E. Qed.

Lemma verifyClusterRole_reconciles (rtc : RuntimeClient) (role label : string) :
  refines_reconcile (verifyClusterRole rtc role label)
                    (rc_agg (SAInfo.ClusterRoleName (User rtc)) role label).
Proof. refine_tac cr_get cr_delete E. Qed.

Lemma verifyCRBinding_reconciles (rtc : RuntimeClient) roleRef subjects :
  refines_reconcile (verifyCRBinding rtc roleRef subjects)
                    (rc_crb (SAInfo.ClusterRoleBindingName (User rtc)) roleRef subjects).
Proof. refine_tac crb_get crb_delete E. Qed.

Lemma verifyServiceAccount_reconciles (rtc : RuntimeClient) :
  refines_reconcile (verifyServiceAccount rtc)
    (rc_sa (SAInfo.Namespace (User rtc)) (SAInfo.ServiceAccountName (User rtc))).
Proof.
  intros w Hq. unfold reconcile, exec. kube_run. unfold sa_get.
  destruct (_ !! _); kube_run; refine_done.
Qed.

(** ** Error paths *)

(** C6: a failing get (other than NotFound) of the rules role is
    returned unchanged and touches nothing; a stale rules role whose
    deletion fails yields the error wrapped "in deleteClusterRole" and
    the stale role stays in the store. *)
Theorem verifyClusterRoleRules_errors (rtc : RuntimeClient) (role : string) (w : World) (e : ApiError) q :
  IsNotFound e = false ->
  let name := SAInfo.ClusterRoleRulesName (User rtc) in
  (w_faults w !! (VGet, KClusterRole, "", name) = Some (Some e :: q) ->
   fst (exec (verifyClusterRoleRules rtc role) w) = Error (ApiErr e) /\
   w_store (snd (exec (verifyClusterRoleRules rtc role) w)) = w_store w) /\
  (forall cr, w_faults w = {[ (VDelete, KClusterRole, "", name) := [Some e] ]} ->
   crs (w_store w) !! name = Some cr ->
   rbacv1.Rules cr <> lookup_rules role ->
   fst (exec (verifyClusterRoleRules rtc role) w) = Error (Wrap "in deleteClusterRole" (ApiErr e)) /\
   crs (w_store (snd (exec (verifyClusterRoleRules rtc role) w))) !! name = Some cr).
Proof.
  intros He name. subst name. split.
  - intros Hf. unfold exec. cbn. rewrite (api_call_fault _ _ _ _ _ Hf). cbn. by rewrite He.
  - intros cr Hf Hcr Hne. unfold exec. cbn. unfold api_call, take_fault.
    rewrite Hf, lookup_singleton_ne by congruence. cbn. unfold cr_get. rewrite Hcr. cbn.
    rewrite bool_decide_false by done. cbn.
    rewrite api_call_fault with (e := e) (q := []) by (cbn; by simplify_map_eq).
    cbn. by rewrite He.
Qed.

(** ** The verifiers' contracts, as claims *)

(** C4: against an API that answers every call, [verifyClusterRoleRules]
    answers true exactly when the rules role exists with the rules of the
    privilege level, leaving the store alone, and otherwise answers false
    with the rules role absent from the store (deleted when stale).  Only
    the rules are compared: a role with the right rules but without the
    aggregation label is accepted as it is. *)
Theorem verifyClusterRoleRules_refines (rtc : RuntimeClient) (role : string) :
  refines_reconcile (verifyClusterRoleRules rtc role)
                    (rc_rules (SAInfo.ClusterRoleRulesName (User rtc)) role).
Proof. apply verifyClusterRoleRules_reconciles. Qed.

(** C5: [verifyClusterRole] answers true exactly when the aggregating
    role exists with a non-nil aggregation rule whose selectors are the
    level's selectors followed by the user's own label, in that order,
    and otherwise leaves the aggregating role absent. *)
Theorem verifyClusterRole_refines (rtc : RuntimeClient) (role label : string) :
  refines_reconcile (verifyClusterRole rtc role label)
                    (rc_agg (SAInfo.ClusterRoleName (User rtc)) role label).
Proof. apply verifyClusterRole_reconciles. Qed.

(** C15: [verifyCRBinding] answers true exactly when the binding exists
    with the given subjects and role reference, and otherwise leaves the
    binding absent. *)
Theorem verifyCRBinding_refines (rtc : RuntimeClient) roleRef subjects :
  refines_reconcile (verifyCRBinding rtc roleRef subjects)
                    (rc_crb (SAInfo.ClusterRoleBindingName (User rtc)) roleRef subjects).
Proof. apply verifyCRBinding_reconciles. Qed.

(** ** Witnesses *)

Definition alice_rules_name : string := SAInfo.ClusterRoleRulesName (User alice_client).

Definition rules_get_timeout : World :=
  init_world empty_store {[ (VGet, KClusterRole, "", alice_rules_name) := [Some (Failure "etcdserver: request timed out")] ]}.

Lemma verifyClusterRoleRules_errors_witness :
  IsNotFound (Failure "etcdserver: request timed out") = false /\
  w_faults rules_get_timeout !! (VGet, KClusterRole, "", alice_rules_name) =
    Some [Some (Failure "etcdserver: request timed out")] /\
  fst (exec (verifyClusterRoleRules alice_client RUNTIME_OPERATOR) rules_get_timeout) =
    Error (ApiErr (Failure "etcdserver: request timed out")) /\
  w_store (snd (exec (verifyClusterRoleRules alice_client RUNTIME_OPERATOR) rules_get_timeout)) =
    w_store rules_get_timeout.
Proof.
  split; [reflexivity|]. split; [vm_compute; reflexivity|].
  apply (proj1 (verifyClusterRoleRules_errors alice_client RUNTIME_OPERATOR rules_get_timeout
                  (Failure "etcdserver: request timed out") [] eq_refl)).
  vm_compute. reflexivity.
Defined.

Lemma verifyClusterRoleRules_refines_witness :
  quiet (init_world empty_store ∅) /\
  fst (exec (verifyClusterRoleRules alice_client RUNTIME_OPERATOR) (init_world empty_store ∅)) =
    Ok (fst (reconcile (rc_rules alice_rules_name RUNTIME_OPERATOR) empty_store)).
Proof.
  split; [reflexivity|].
  exact (proj1 (verifyClusterRoleRules_refines alice_client RUNTIME_OPERATOR (init_world empty_store ∅) eq_refl)).
Defined.

Lemma verifyClusterRole_refines_witness :
  quiet (init_world empty_store ∅) /\
  fst (exec (verifyClusterRole alice_client RUNTIME_OPERATOR "l") (init_world empty_store ∅)) =
    Ok (fst (reconcile (rc_agg (SAInfo.ClusterRoleName (User alice_client)) RUNTIME_OPERATOR "l") empty_store)).
Proof.
  split; [reflexivity|].
  exact (proj1 (verifyClusterRole_refines alice_client RUNTIME_OPERATOR "l" (init_world empty_store ∅) eq_refl)).
Defined.

Lemma verifyCRBinding_refines_witness :
  let '(_, rr, subj) := initCRBindingE (User alice_client) in
  quiet (init_world empty_store ∅) /\
  fst (exec (verifyCRBinding alice_client rr subj) (init_world empty_store ∅)) =
    Ok (fst (reconcile (rc_crb (SAInfo.ClusterRoleBindingName (User alice_client)) rr subj) empty_store)).
Proof.
  cbn -[exec reconcile]. split; [reflexivity|].
  exact (proj1 (verifyCRBinding_refines alice_client _ _ (init_world empty_store ∅) eq_refl)).
Defined.
