(* ===== verification/Provision.v ===== *)
(** * Provision: the create steps and the body of [Run] (runtime.go lines 113-211, 319-329)

    Each create step consults its verifier and creates the object only
    when the verifier answers false; [createClusterRoleRules] first
    rejects a privilege level outside the two known ones.
    [getServiceAccountToken] requests a token with the fixed expiry.
    [Run_body] is [Run] without its deferred [Cleaner]: the five steps in
    order, each failure wrapped with the step's message and recorded in
    the rollback ledger [RollbackE.Data] as the code does it.  [Cleanup]
    adds the deferred cleanup.  The theorems give the result and store
    of a run against a quiet API, on an empty cluster and on the cluster
    a first run left (no write the second time), and the result and
    ledger of every failing phase; that each builder's object satisfies
    its verifier; and that a second run after any first one, from any
    cluster, makes no write. *)

From S2P Require Import Prelude Types Policy Builders Kube Verify.

Local Open Scope string_scope.

(** [ExpireTime] is declared outside runtime.go, in the same package;
    the theorems hold for any value. *)
Definition ExpireTime_seconds : Z := 28800.

Section Steps.
Context (rtc : RuntimeClient).
Let user := User rtc.
Let role := L2L3OperatiorRole rtc.

Definition createServiceAccount : K (option GoError) :=
  v ← verifyServiceAccount rtc;
  match v with
  | Error e => mret (Some (Wrap "in verifyServiceAccount" e))
  | Ok true => mret None
  | Ok false =>
      c ← trigger (CreateServiceAccount (SAInfo.Namespace user) (initServiceAccount user));
      match c with Ok _ => mret None | Error e => mret (Some (ApiErr e)) end
  end.

Definition createClusterRoleRules : K (option GoError) :=
  if bool_decide (role <> RUNTIME_ADMIN) && bool_decide (role <> RUNTIME_OPERATOR) then
    mret (Some (Errorf ("role " ++ role ++ " not in [" ++ RUNTIME_ADMIN ++ "," ++ RUNTIME_OPERATOR ++ "]")))
  else
    v ← verifyClusterRoleRules rtc role;
    match v with
    | Error e => mret (Some (Wrap "in verifyClusterRoleRules" e))
    | Ok true => mret None
    | Ok false =>
        c ← trigger (CreateClusterRole
               (initClusterRoleRules (SAInfo.ClusterRoleRulesName user) role
                                     (SAInfo.ClusterRoleAggrLabel user)));
        match c with Ok _ => mret None | Error e => mret (Some (ApiErr e)) end
    end.

Definition createClusterRole : K (option GoError) :=
  v ← verifyClusterRole rtc role (SAInfo.ClusterRoleAggrLabel user);
  match v with
  | Error e => mret (Some (Wrap "in verifyClusterRoleAggregation" e))
  | Ok true => mret None
  | Ok false =>
      c ← trigger (CreateClusterRole
             (initClusterRole (SAInfo.ClusterRoleName user) role (SAInfo.ClusterRoleAggrLabel user)));
      match c with Ok _ => mret None | Error e => mret (Some (ApiErr e)) end
  end.

Definition createClusterRoleBinding : K (option GoError) :=
  let '(objectMeta, roleRef, subjects) := initCRBindingE user in
  v ← verifyCRBinding rtc roleRef subjects;
  match v with
  | Error e => mret (Some (Wrap "in verifyCRBinding" e))
  | Ok true => mret None
  | Ok false =>
      c ← trigger (CreateClusterRoleBinding (initCRBinding objectMeta roleRef subjects));
      match c with Ok _ => mret None | Error e => mret (Some (ApiErr e)) end
  end.

Definition getServiceAccountToken : K (goresult string) :=
  r ← trigger (CreateToken (SAInfo.Namespace user) (SAInfo.ServiceAccountName user) ExpireTime_seconds);
  match r with Ok tok => mret (Ok tok) | Error e => mret (Error (ApiErr e)) end.
End Steps.

(** [rtc.RollbackE.Data = append(rtc.RollbackE.Data, tags...)] *)
Definition push_rollback (rtc : RuntimeClient) (tags : list string) : RuntimeClient :=
  {| User := User rtc; L2L3OperatiorRole := L2L3OperatiorRole rtc;
     Rollback := {| Data := (Data (Rollback rtc) ++ tags)%list |} |}.

(** The body of [Run] up to its return: the result and the client with
    its ledger. *)
Definition Run_body (rtc : RuntimeClient) : K (goresult string * RuntimeClient) :=
  let user := User rtc in
  e1 ← createServiceAccount rtc;
  match e1 with
  | Some e => mret (Error (Wrap ("while createServiceAccount " ++ SAInfo.ServiceAccountName user
                                  ++ " in " ++ SAInfo.Namespace user) e), rtc)
  | None =>
  e2 ← createClusterRoleRules rtc;
  match e2 with
  | Some e => mret (Error (Wrap ("while createClusterRole " ++ SAInfo.ClusterRoleName user) e),
                    push_rollback rtc [SA])
  | None =>
  e3 ← createClusterRole rtc;
  match e3 with
  | Some e => mret (Error (Wrap ("while createClusterRole " ++ SAInfo.ClusterRoleName user) e),
                    push_rollback rtc [SA; ClusterRole])
  | None =>
  t ← getServiceAccountToken rtc;
  match t with
  | Error e => mret (Error (Wrap ("while getServiceAccountToken from " ++ SAInfo.ServiceAccountName user) e),
                     push_rollback rtc [SA; ClusterRole])
  | Ok saToken =>
  e5 ← createClusterRoleBinding rtc;
  match e5 with
  | Some e => mret (Error (Wrap ("while createClusterRoleBinding " ++ SAInfo.ClusterRoleBindingName user) e),
                    push_rollback rtc [SA; ClusterRole])
  | None => mret (Ok saToken, rtc)
  end end end end end.

(** ** The pipeline as the spec's state machine *)

(** The phases of spec 4.4 in which a step can fail. *)
Inductive Phase := CreatingSA | CreatingRules | CreatingRole | IssuingToken | CreatingBinding.

(** The message [Run] wraps the failure of each phase with. *)
Definition step_message (rtc : RuntimeClient) (ph : Phase) : string :=
  let user := User rtc in
  match ph with
  | CreatingSA => "while createServiceAccount " ++ SAInfo.ServiceAccountName user
                    ++ " in " ++ SAInfo.Namespace user
  | CreatingRules | CreatingRole => "while createClusterRole " ++ SAInfo.ClusterRoleName user
  | IssuingToken => "while getServiceAccountToken from " ++ SAInfo.ServiceAccountName user
  | CreatingBinding => "while createClusterRoleBinding " ++ SAInfo.ClusterRoleBindingName user
  end.

(** The ledger entries spec 4.3 lists for a failure in each phase. *)
Definition ledger_of (ph : Phase) : list string :=
  match ph with
  | CreatingSA => []
  | CreatingRules => [SA]
  | CreatingRole | IssuingToken | CreatingBinding => [SA; ClusterRole]
  end.

Lemma push_rollback_nil rtc : push_rollback rtc [] = rtc.
Proof. destruct rtc as [u r [d]]. unfold push_rollback. cbn. by rewrite app_nil_r. Qed.

(** The outcome of [Run]'s body, phase by phase. *)
Lemma Run_body_outcome (rtc : RuntimeClient) (w : World) :
  let '(r, rtc') := fst (exec (Run_body rtc) w) in
  (exists tok, r = Ok tok /\ rtc' = rtc) \/
  (exists ph e, r = Error (Wrap (step_message rtc ph) e) /\ rtc' = push_rollback rtc (ledger_of ph)).
Proof.
  unfold Run_body. rewrite exec_bind.
  destruct (exec (createServiceAccount rtc) w) as [[e|] w1];
    [right; exists CreatingSA, e; by rewrite push_rollback_nil|].
  rewrite exec_bind. destruct (exec (createClusterRoleRules rtc) w1) as [[e|] w2];
    [right; by exists CreatingRules, e|].
  rewrite exec_bind. destruct (exec (createClusterRole rtc) w2) as [[e|] w3];
    [right; by exists CreatingRole, e|].
  rewrite exec_bind. destruct (exec (getServiceAccountToken rtc) w3) as [[tok|e] w4];
    [|right; by exists IssuingToken, e].
  rewrite exec_bind. destruct (exec (createClusterRoleBinding rtc) w4) as [[e|] w5];
    [right; by exists CreatingBinding, e|left; by exists tok].
Qed.

(** ** The create steps against a quiet API *)

(** The common shape of the four create steps: verify, then create on a
    false answer. *)
Definition ensure_prog (m : string) (verify : K (goresult bool)) {X} (ev : kubeE (result X ApiError))
  : K (option GoError) :=
  v ← verify;
  match v with
  | Error e => mret (Some (Wrap m e))
  | Ok true => mret None
  | Ok false => c ← trigger ev; match c with Ok _ => mret None | Error e => mret (Some (ApiErr e)) end
  end.

(** What a create step leaves in the store: the verified store, with the
    desired object put in when the verifier answered false. *)
Definition ensure {T} (rc : Reconciler T) (put : Store -> Store) (s : Store) : Store :=
  let '(b, s') := reconcile rc s in if b then s' else put s'.

Definition is_ok {X E} (r : result X E) : bool := match r with Ok _ => true | Error _ => false end.

(** An event creates the object a reconciler looks at, as [op] does,
    whenever that object is absent. *)
Definition creates {X T} (ev : kubeE (result X ApiError)) (rc : Reconciler T)
  (op : Store -> result X ApiError * Store) : Prop :=
  forall w, quiet w -> rc_get rc (w_store w) = None ->
    is_ok (fst (handle _ ev w)) = true /\ w_store (snd (handle _ ev w)) = snd (op (w_store w)).

Lemma reconcile_false_absent {T} (rc : Reconciler T) s :
  fst (reconcile rc s) = false -> rc_get rc (snd (reconcile rc s)) = None.
Proof.
  unfold reconcile. destruct (rc_get rc s) eqn:E; [|done].
  destruct (rc_matches rc t); [done|]. intros _. apply rc_remove_get.
Qed.

Lemma ensure_prog_spec {X T} m verify (ev : kubeE (result X ApiError)) (rc : Reconciler T) op w :
  refines_reconcile verify rc -> creates ev rc op -> quiet w ->
  fst (exec (ensure_prog m verify ev) w) = None /\
  w_store (snd (exec (ensure_prog m verify ev) w)) = ensure rc (fun s => snd (op s)) (w_store w) /\
  (fst (reconcile rc (w_store w)) = true -> no_writes w (snd (exec (ensure_prog m verify ev) w))).
Proof.
  intros Hv Hc Hq. unfold ensure_prog, ensure. rewrite exec_bind.
  destruct (Hv w Hq) as (Hr & Hs & Hn). pose proof (exec_quiet verify w Hq) as Hq1.
  pose proof (reconcile_false_absent rc (w_store w)) as Habs.
  destruct (exec verify w) as [r w1]. cbn in Hr, Hs, Hq1, Hn. subst r.
  destruct (reconcile rc (w_store w)) as [[|] s1]; cbn in *; subst s1.
  - split_and!; [done | done |]. intros _. exact (Hn eq_refl).
  - destruct (Hc w1 Hq1 (Habs eq_refl)) as [Hok Hst].
    unfold exec. cbn. destruct (handle _ ev w1) as [[x|e] w2]; cbn in *;
      (split_and!; [done | done | intros [=]]).
Qed.

Lemma CreateClusterRole_creates cr (rc : Reconciler rbacv1.ClusterRole) :
  (forall s, rc_get rc s = crs s !! metav1.Name (rbacv1.cr_ObjectMeta cr)) ->
  creates (CreateClusterRole cr) rc (cr_create cr).
Proof.
  intros Hg w Hq Hn. cbn. rewrite api_call_quiet by done. unfold cr_create.
  rewrite <- Hg, Hn. done.
Qed.

Lemma CreateServiceAccount_creates ns sa (rc : Reconciler corev1.ServiceAccount) :
  (forall s, rc_get rc s = sas s !! (ns, metav1.Name (corev1.sa_ObjectMeta sa))) ->
  creates (CreateServiceAccount ns sa) rc (sa_create ns sa).
Proof.
  intros Hg w Hq Hn. cbn. rewrite api_call_quiet by done. unfold sa_create.
  rewrite <- Hg, Hn. done.
Qed.

Lemma CreateClusterRoleBinding_creates crb (rc : Reconciler rbacv1.ClusterRoleBinding) :
  (forall s, rc_get rc s = crbs s !! metav1.Name (rbacv1.crb_ObjectMeta crb)) ->
  creates (CreateClusterRoleBinding crb) rc (crb_create crb).
Proof.
  intros Hg w Hq Hn. cbn. rewrite api_call_quiet by done. unfold crb_create.
  rewrite <- Hg, Hn. done.
Qed.

Section StepSpecs.
Context (rtc : RuntimeClient).
Let user := User rtc.
Let role := L2L3OperatiorRole rtc.

Definition rc_sa_of := rc_sa (SAInfo.Namespace user) (SAInfo.ServiceAccountName user).
Definition rc_rules_of := rc_rules (SAInfo.ClusterRoleRulesName user) role.
Definition rc_agg_of := rc_agg (SAInfo.ClusterRoleName user) role (SAInfo.ClusterRoleAggrLabel user).
Definition rc_crb_of :=
  let '(_, roleRef, subjects) := initCRBindingE user in
  rc_crb (SAInfo.ClusterRoleBindingName user) roleRef subjects.

Definition put_sa (s : Store) : Store :=
  snd (sa_create (SAInfo.Namespace user) (initServiceAccount user) s).
Definition put_rules (s : Store) : Store :=
  snd (cr_create (initClusterRoleRules (SAInfo.ClusterRoleRulesName user) role
                                       (SAInfo.ClusterRoleAggrLabel user)) s).
Definition put_agg (s : Store) : Store :=
  snd (cr_create (initClusterRole (SAInfo.ClusterRoleName user) role
                                  (SAInfo.ClusterRoleAggrLabel user)) s).
Definition put_crb (s : Store) : Store :=
  let '(om, roleRef, subjects) := initCRBindingE user in
  snd (crb_create (initCRBinding om roleRef subjects) s).

(** The store a fully successful provisioning leaves. *)
Definition provision_store (s : Store) : Store :=
  ensure rc_crb_of put_crb (ensure rc_agg_of put_agg (ensure rc_rules_of put_rules
    (ensure rc_sa_of put_sa s))).

Lemma createServiceAccount_spec w :
  quiet w ->
  fst (exec (createServiceAccount rtc) w) = None /\
  w_store (snd (exec (createServiceAccount rtc) w)) = ensure rc_sa_of put_sa (w_store w) /\
  (fst (reconcile rc_sa_of (w_store w)) = true -> no_writes w (snd (exec (createServiceAccount rtc) w))).
Proof.
  intros Hq. apply (ensure_prog_spec _ _ _ _ _ _ (verifyServiceAccount_reconciles rtc));
    [apply CreateServiceAccount_creates; done | done].
Qed.

Lemma createClusterRoleRules_spec w :
  known_role role = true -> quiet w ->
  fst (exec (createClusterRoleRules rtc) w) = None /\
  w_store (snd (exec (createClusterRoleRules rtc) w)) = ensure rc_rules_of put_rules (w_store w) /\
  (fst (reconcile rc_rules_of (w_store w)) = true -> no_writes w (snd (exec (createClusterRoleRules rtc) w))).
Proof.
  intros Hk Hq. unfold createClusterRoleRules.
  replace (bool_decide _ && bool_decide _) with false
    by (unfold known_role in Hk; subst role; repeat case_bool_decide; naive_solver).
  apply (ensure_prog_spec _ _ _ _ _ _ (verifyClusterRoleRules_reconciles rtc _));
    [apply CreateClusterRole_creates; done | done].
Qed.

Lemma createClusterRole_spec w :
  quiet w ->
  fst (exec (createClusterRole rtc) w) = None /\
  w_store (snd (exec (createClusterRole rtc) w)) = ensure rc_agg_of put_agg (w_store w) /\
  (fst (reconcile rc_agg_of (w_store w)) = true -> no_writes w (snd (exec (createClusterRole rtc) w))).
Proof.
  intros Hq. apply (ensure_prog_spec _ _ _ _ _ _ (verifyClusterRole_reconciles rtc _ _));
    [apply CreateClusterRole_creates; done | done].
Qed.

Lemma createClusterRoleBinding_spec w :
  quiet w ->
  fst (exec (createClusterRoleBinding rtc) w) = None /\
  w_store (snd (exec (createClusterRoleBinding rtc) w)) = ensure rc_crb_of put_crb (w_store w) /\
  (fst (reconcile rc_crb_of (w_store w)) = true -> no_writes w (snd (exec (createClusterRoleBinding rtc) w))).
Proof.
  intros Hq. apply (ensure_prog_spec _ _ _ _ _ _ (verifyCRBinding_reconciles rtc _ _));
    [apply CreateClusterRoleBinding_creates; done | done].
Qed.
End StepSpecs.

(** ** A whole provisioning run against a quiet API *)

Lemma ensure_sas {T} (rc : Reconciler T) put s :
  (forall s, sas (rc_remove rc s) = sas s) -> (forall s, sas (put s) = sas s) ->
  sas (ensure rc put s) = sas s.
Proof.
  intros Hr Hp. unfold ensure, reconcile.
  destruct (rc_get rc s); [destruct (rc_matches rc t)|]; cbn; by rewrite ?Hp, ?Hr.
Qed.

Lemma put_rules_sas rtc s : sas (put_rules rtc s) = sas s.
Proof. unfold put_rules, cr_create. by case_match. Qed.
Lemma put_agg_sas rtc s : sas (put_agg rtc s) = sas s.
Proof. unfold put_agg, cr_create. by case_match. Qed.

(** After the service-account step the service account exists. *)
Lemma ensure_sa_present rtc s :
  is_Some (sas (ensure (rc_sa_of rtc) (put_sa rtc) s) !!
           (SAInfo.Namespace (User rtc), SAInfo.ServiceAccountName (User rtc))).
Proof.
  unfold ensure, reconcile, rc_sa_of, put_sa. cbn.
  destruct (sas s !! _) eqn:E; cbn; [by rewrite E|].
  unfold sa_create. cbn. rewrite E. cbn. by simplify_map_eq.
Qed.

Lemma getServiceAccountToken_spec rtc w :
  quiet w ->
  is_Some (sas (w_store w) !! (SAInfo.Namespace (User rtc), SAInfo.ServiceAccountName (User rtc))) ->
  fst (exec (getServiceAccountToken rtc) w) =
    Ok (mint_token (SAInfo.ServiceAccountName (User rtc)) (w_tokens w)) /\
  w_store (snd (exec (getServiceAccountToken rtc) w)) = w_store w.
Proof.
  intros Hq [sa Hsa]. unfold exec. cbn. rewrite take_fault_quiet by done. cbn. by rewrite Hsa.
Qed.

Lemma Run_body_quiet_gen (rtc : RuntimeClient) (w : World) :
  known_role (L2L3OperatiorRole rtc) = true -> quiet w ->
  (exists n, fst (exec (Run_body rtc) w) =
             (Ok (mint_token (SAInfo.ServiceAccountName (User rtc)) n), rtc)) /\
  w_store (snd (exec (Run_body rtc) w)) = provision_store rtc (w_store w).
Proof.
  intros Hk Hq. unfold Run_body, provision_store.
  rewrite exec_bind. destruct (createServiceAccount_spec rtc w Hq) as (H1 & S1 & _).
  pose proof (exec_quiet (createServiceAccount rtc) w Hq) as Q1.
  destruct (exec _ w) as [r1 w1]; cbn in H1, S1, Q1; subst r1. cbv beta iota.
  rewrite exec_bind. destruct (createClusterRoleRules_spec rtc w1 Hk Q1) as (H2 & S2 & _).
  pose proof (exec_quiet (createClusterRoleRules rtc) w1 Q1) as Q2.
  destruct (exec _ w1) as [r2 w2]; cbn in H2, S2, Q2; subst r2. cbv beta iota.
  rewrite exec_bind. destruct (createClusterRole_spec rtc w2 Q2) as (H3 & S3 & _).
  pose proof (exec_quiet (createClusterRole rtc) w2 Q2) as Q3.
  destruct (exec _ w2) as [r3 w3]; cbn in H3, S3, Q3; subst r3. cbv beta iota.
  assert (Hsa : is_Some (sas (w_store w3) !!
            (SAInfo.Namespace (User rtc), SAInfo.ServiceAccountName (User rtc)))).
  { rewrite S3, ensure_sas, S2, ensure_sas, S1 by auto using put_rules_sas, put_agg_sas.
    apply ensure_sa_present. }
  rewrite exec_bind. destruct (getServiceAccountToken_spec rtc w3 Q3 Hsa) as [H4 S4].
  pose proof (exec_quiet (getServiceAccountToken rtc) w3 Q3) as Q4.
  destruct (exec _ w3) as [r4 w4]; cbn in H4, S4, Q4; subst r4. cbv beta iota.
  rewrite exec_bind. destruct (createClusterRoleBinding_spec rtc w4 Q4) as (H5 & S5 & _).
  destruct (exec _ w4) as [r5 w5]; cbn in H5, S5; subst r5. cbv beta iota.
  cbn. split; [by eexists|]. by rewrite S5, S4, S3, S2, S1.
Qed.

(** C1: against an API that answers every call, a run with a known
    privilege level succeeds, returns a token minted for the service
    account, leaves the ledger empty, and leaves the store each create
    step's contract describes: [provision_store]. *)
Theorem Run_body_quiet (rtc : RuntimeClient) (w : World) :
  known_role (L2L3OperatiorRole rtc) = true -> quiet w ->
  (exists n, fst (exec (Run_body rtc) w) =
             (Ok (mint_token (SAInfo.ServiceAccountName (User rtc)) n), rtc)) /\
  w_store (snd (exec (Run_body rtc) w)) = provision_store rtc (w_store w).
Proof. apply Run_body_quiet_gen. Qed.

(** The four objects of a user, as the builders make them. *)
Definition fresh_store (rtc : RuntimeClient) : Store :=
  let user := User rtc in
  let role := L2L3OperatiorRole rtc in
  let '(om, rr, subj) := initCRBindingE user in
  mkStore {[ (SAInfo.Namespace user, SAInfo.ServiceAccountName user) := initServiceAccount user ]}
          (<[ SAInfo.ClusterRoleName user :=
                initClusterRole (SAInfo.ClusterRoleName user) role (SAInfo.ClusterRoleAggrLabel user) ]>
           {[ SAInfo.ClusterRoleRulesName user :=
                initClusterRoleRules (SAInfo.ClusterRoleRulesName user) role (SAInfo.ClusterRoleAggrLabel user) ]})
          {[ SAInfo.ClusterRoleBindingName user := initCRBinding om rr subj ]}.

Lemma provision_empty (uid role tenant : string) :
  provision_store (NewRuntimeClient uid role tenant) empty_store = fresh_store (NewRuntimeClient uid role tenant).
Proof.
  pose proof (rules_name_ne uid tenant) as Hne. cbn in Hne.
  assert (Hne2 : (uid ++ "-rules")%string <> uid) by congruence.
  unfold provision_store, ensure, reconcile. cbn.
  unfold put_sa, put_rules, put_agg, put_crb, sa_create, cr_create, crb_create.
  repeat (rewrite ?lookup_empty, ?lookup_insert_ne by done; cbn).
  reflexivity.
Qed.

(** C2: on an empty cluster, with an API that answers every call,
    [Run] for a client built by [NewRuntimeClient] with a known level
    returns a token for the user's service account and leaves exactly
    the service account, the rules role, the aggregating role and the
    binding the builders describe. *)
Theorem Run_body_empty (uid role tenant : string) (w : World) :
  known_role role = true -> quiet w -> w_store w = empty_store ->
  let rtc := NewRuntimeClient uid role tenant in
  (exists n, fst (exec (Run_body rtc) w) = (Ok (mint_token uid n), rtc)) /\
  w_store (snd (exec (Run_body rtc) w)) = fresh_store rtc.
Proof.
  intros Hk Hq Hs rtc. destruct (Run_body_quiet_gen rtc w Hk Hq) as [Hr Hst].
  split; [done|]. rewrite Hst, Hs. apply provision_empty.
Qed.

(** ** Idempotence *)

(** A reconciler that finds a matching object answers [Satisfied] and
    changes nothing. *)
Lemma reconcile_satisfied {T} (rc : Reconciler T) s o :
  rc_get rc s = Some o -> rc_matches rc o = true -> reconcile rc s = (true, s).
Proof. intros Hg Hm. unfold reconcile. by rewrite Hg, Hm. Qed.

Lemma ensure_true {T} (rc : Reconciler T) put s : reconcile rc s = (true, s) -> ensure rc put s = s.
Proof. unfold ensure. by intros ->. Qed.

Lemma getServiceAccountToken_no_writes rtc w :
  quiet w -> no_writes w (snd (exec (getServiceAccountToken rtc) w)).
Proof.
  intros Hq. unfold exec. cbn. rewrite take_fault_quiet by done. cbn.
  destruct (sas (w_store w) !! _); cbn; eexists;
    (split; [reflexivity | apply Forall_singleton; cbn; split; discriminate]).
Qed.

(** ** Each builder's object satisfies its verifier *)

(** Creating a missing object with the builder, then verifying it,
    answers [Satisfied]: the builders and the verifiers agree on names,
    rules, selectors, subjects and role reference. *)
Lemma put_satisfied rtc s :
  (rc_get (rc_sa_of rtc) s = None -> reconcile (rc_sa_of rtc) (put_sa rtc s) = (true, put_sa rtc s)) /\
  (rc_get (rc_rules_of rtc) s = None ->
     reconcile (rc_rules_of rtc) (put_rules rtc s) = (true, put_rules rtc s)) /\
  (rc_get (rc_agg_of rtc) s = None -> reconcile (rc_agg_of rtc) (put_agg rtc s) = (true, put_agg rtc s)) /\
  (rc_get (rc_crb_of rtc) s = None -> reconcile (rc_crb_of rtc) (put_crb rtc s) = (true, put_crb rtc s)).
Proof.
  unfold rc_sa_of, rc_rules_of, rc_agg_of, rc_crb_of, put_sa, put_rules, put_agg, put_crb, initCRBindingE.
  split_and!; cbn; intros Hn;
    unfold sa_create, cr_create, crb_create; cbn; rewrite Hn;
    (eapply reconcile_satisfied; cbn; [apply lookup_insert_eq|]);
    unfold selectors_match, expectedSelectors; cbn; rewrite ?bool_decide_true by done; done.
Qed.

Lemma reconcile_true_some {T} (rc : Reconciler T) s s' :
  reconcile rc s = (true, s') -> is_Some (rc_get rc s).
Proof. unfold reconcile. destruct (rc_get rc s); [done|]. by intros [=]. Qed.

(** A run on a store where every verifier is satisfied reads each object,
    asks for a token, and writes nothing. *)
Lemma Run_body_satisfied_no_writes (rtc : RuntimeClient) (w : World) :
  known_role (L2L3OperatiorRole rtc) = true -> quiet w ->
  reconcile (rc_sa_of rtc) (w_store w) = (true, w_store w) ->
  reconcile (rc_rules_of rtc) (w_store w) = (true, w_store w) ->
  reconcile (rc_agg_of rtc) (w_store w) = (true, w_store w) ->
  reconcile (rc_crb_of rtc) (w_store w) = (true, w_store w) ->
  no_writes w (snd (exec (Run_body rtc) w)).
Proof.
  intros Hk Hq R1 R2 R3 R4. unfold Run_body.
  rewrite exec_bind. destruct (createServiceAccount_spec rtc w Hq) as (H1 & S1 & N1).
  rewrite (ensure_true _ _ _ R1) in S1. rewrite R1 in N1. specialize (N1 eq_refl).
  pose proof (exec_quiet (createServiceAccount rtc) w Hq) as Q1.
  destruct (exec _ w) as [r1 w1]; cbn [fst snd] in H1, S1, N1, Q1; subst r1. cbv beta iota.
  rewrite exec_bind. destruct (createClusterRoleRules_spec rtc w1 Hk Q1) as (H2 & S2 & N2).
  rewrite S1, (ensure_true _ _ _ R2) in S2. rewrite S1, R2 in N2. specialize (N2 eq_refl).
  pose proof (exec_quiet (createClusterRoleRules rtc) w1 Q1) as Q2.
  destruct (exec _ w1) as [r2 w2]; cbn [fst snd] in H2, S2, N2, Q2; subst r2. cbv beta iota.
  rewrite exec_bind. destruct (createClusterRole_spec rtc w2 Q2) as (H3 & S3 & N3).
  rewrite S2, (ensure_true _ _ _ R3) in S3. rewrite S2, R3 in N3. specialize (N3 eq_refl).
  pose proof (exec_quiet (createClusterRole rtc) w2 Q2) as Q3.
  destruct (exec _ w2) as [r3 w3]; cbn [fst snd] in H3, S3, N3, Q3; subst r3. cbv beta iota.
  rewrite exec_bind. pose proof (getServiceAccountToken_no_writes rtc w3 Q3) as N4.
  pose proof (exec_quiet (getServiceAccountToken rtc) w3 Q3) as Q4.
  pose proof (getServiceAccountToken_spec rtc w3 Q3) as T4.
  destruct (exec _ w3) as [r4 w4]; cbn [fst snd] in N4, Q4, T4.
  assert (S4 : w_store w4 = w_store w).
  { rewrite <- S3. apply T4. rewrite S3. exact (reconcile_true_some _ _ _ R1). }
  destruct r4 as [tok|e]; cbv beta iota.
  - rewrite exec_bind. destruct (createClusterRoleBinding_spec rtc w4 Q4) as (H5 & S5 & N5).
    rewrite S4, R4 in N5. specialize (N5 eq_refl).
    destruct (exec _ w4) as [r5 w5]; cbn in H5, N5; subst r5. cbn.
    eapply no_writes_trans; [exact N1|]. eapply no_writes_trans; [exact N2|].
    eapply no_writes_trans; [exact N3|]. eapply no_writes_trans; [exact N4|exact N5].
  - cbn. eapply no_writes_trans; [exact N1|]. eapply no_writes_trans; [exact N2|].
    eapply no_writes_trans; [exact N3|exact N4].
Qed.

(** ** Satisfaction is kept by the later steps *)

(** A step that leaves an object alone keeps its verifier satisfied. *)
Lemma reconcile_frame {T} (rc : Reconciler T) s s' :
  rc_get rc s' = rc_get rc s -> reconcile rc s = (true, s) -> reconcile rc s' = (true, s').
Proof.
  unfold reconcile. intros Hg. rewrite Hg. destruct (rc_get rc s) as [o|]; [|done].
  by destruct (rc_matches rc o).
Qed.

Lemma ensure_get_frame {T U} (rc : Reconciler T) (rc' : Reconciler U) put s :
  (forall s, rc_get rc (rc_remove rc' s) = rc_get rc s) -> (forall s, rc_get rc (put s) = rc_get rc s) ->
  rc_get rc (ensure rc' put s) = rc_get rc s.
Proof.
  intros Hr Hp. unfold ensure, reconcile.
  destruct (rc_get rc' s) as [o|]; [destruct (rc_matches rc' o)|]; cbn; by rewrite ?Hp, ?Hr.
Qed.

(** After a create step its verifier is satisfied. *)
Lemma ensure_satisfied_after {T} (rc : Reconciler T) put s :
  (forall s, rc_get rc s = None -> reconcile rc (put s) = (true, put s)) ->
  reconcile rc (ensure rc put s) = (true, ensure rc put s).
Proof.
  intros Hput. pose proof (reconcile_false_absent rc s) as Habs.
  unfold ensure. destruct (reconcile rc s) as [[|] s1] eqn:E; cbn in Habs.
  - assert (s1 = s) as ->; [|exact E].
    unfold reconcile in E. destruct (rc_get rc s) as [o|]; [destruct (rc_matches rc o)|]; congruence.
  - by apply Hput, Habs.
Qed.

(** Frame facts: each create step touches only its own object. *)
Ltac frame_tac :=
  intros ?s; unfold rc_sa_of, rc_rules_of, rc_agg_of, rc_crb_of, put_sa, put_rules, put_agg, put_crb,
    initCRBindingE, sa_remove, cr_remove, crb_remove, sa_create, cr_create, crb_create; cbn;
  repeat case_match; cbn; rewrite ?lookup_delete_ne, ?lookup_insert_ne by done; done.

(** After a whole provisioning every verifier is satisfied. *)
Lemma provision_satisfied (uid role tenant : string) (s : Store) :
  let rtc := NewRuntimeClient uid role tenant in
  let s' := provision_store rtc s in
  reconcile (rc_sa_of rtc) s' = (true, s') /\ reconcile (rc_rules_of rtc) s' = (true, s') /\
  reconcile (rc_agg_of rtc) s' = (true, s') /\ reconcile (rc_crb_of rtc) s' = (true, s').
Proof.
  intros rtc s'. subst s'. pose proof (rules_name_ne uid tenant) as Hne. cbn in Hne.
  assert (Hne2 : (uid ++ "-rules")%string <> uid) by congruence.
  unfold provision_store.
  split_and!;
    [do 3 (eapply reconcile_frame; [apply ensure_get_frame; frame_tac|])
    | do 2 (eapply reconcile_frame; [apply ensure_get_frame; frame_tac|])
    | eapply reconcile_frame; [apply ensure_get_frame; frame_tac|] | ];
    apply ensure_satisfied_after; intros s1; apply (put_satisfied rtc s1).
Qed.



(** C20: the builders and the verifiers agree: an object created by its
    builder where none was is accepted by its verifier as [Satisfied],
    for the service account, the rules role, the aggregating role and
    the binding. *)
Theorem builders_satisfy_verifiers (rtc : RuntimeClient) (s : Store) :
  (rc_get (rc_sa_of rtc) s = None -> reconcile (rc_sa_of rtc) (put_sa rtc s) = (true, put_sa rtc s)) /\
  (rc_get (rc_rules_of rtc) s = None ->
     reconcile (rc_rules_of rtc) (put_rules rtc s) = (true, put_rules rtc s)) /\
  (rc_get (rc_agg_of rtc) s = None -> reconcile (rc_agg_of rtc) (put_agg rtc s) = (true, put_agg rtc s)) /\
  (rc_get (rc_crb_of rtc) s = None -> reconcile (rc_crb_of rtc) (put_crb rtc s) = (true, put_crb rtc s)).
Proof. apply put_satisfied. Qed.

(** C21: whatever cluster a run starts from (the API answering every
    call), running [Run] again right after succeeds, changes no object
    and issues no create or delete call. *)
Theorem Run_body_twice (uid role tenant : string) (w : World) :
  known_role role = true -> quiet w ->
  let rtc := NewRuntimeClient uid role tenant in
  let w1 := snd (exec (Run_body rtc) w) in
  (exists n, fst (exec (Run_body rtc) w1) = (Ok (mint_token uid n), rtc)) /\
  w_store (snd (exec (Run_body rtc) w1)) = w_store w1 /\
  no_writes w1 (snd (exec (Run_body rtc) w1)).
Proof.
  intros Hk Hq rtc w1.
  destruct (Run_body_quiet_gen rtc w Hk Hq) as [_ Hs1].
  pose proof (exec_quiet (Run_body rtc) w Hq) as Q1. fold w1 in Hs1, Q1.
  destruct (Run_body_quiet_gen rtc w1 Hk Q1) as [Hr Hs2].
  destruct (provision_satisfied uid role tenant (w_store w)) as (R1 & R2 & R3 & R4).
  fold rtc in R1, R2, R3, R4. rewrite <- Hs1 in R1, R2, R3, R4.
  split_and!; [exact Hr | | exact (Run_body_satisfied_no_writes rtc w1 Hk Q1 R1 R2 R3 R4)].
  rewrite Hs2. unfold provision_store.
  by rewrite (ensure_true _ _ _ R1), (ensure_true _ _ _ R2), (ensure_true _ _ _ R3), (ensure_true _ _ _ R4).
Qed.

(** ** An unknown privilege level *)

Definition role_error (role : string) : GoError :=
  Errorf ("role " ++ role ++ " not in [" ++ RUNTIME_ADMIN ++ "," ++ RUNTIME_OPERATOR ++ "]").

Lemma createClusterRoleRules_unknown rtc w :
  known_role (L2L3OperatiorRole rtc) = false ->
  exec (createClusterRoleRules rtc) w = (Some (role_error (L2L3OperatiorRole rtc)), w).
Proof.
  intros Hk. unfold createClusterRoleRules, known_role in *. cbv zeta.
  apply orb_false_elim in Hk as [H1 H2]. apply bool_decide_eq_false in H1, H2.
  by rewrite !bool_decide_true by done.
Qed.

Lemma tables_unknown role : known_role role = false ->
  L2L3OperatorPolicyRule !! role = None /\ L2L3OperatorAggregationRule !! role = None.
Proof.
  unfold known_role. intros Hk. apply orb_false_elim in Hk as [H1 H2].
  apply bool_decide_eq_false in H1, H2. unfold L2L3OperatorPolicyRule, L2L3OperatorAggregationRule.
  by rewrite !lookup_insert_ne, !lookup_empty by done.
Qed.

(** C14: the guard of [createClusterRoleRules] (line 167) rejects a
    privilege level, at once and with the level error, exactly when
    neither policy table has an entry for it; every level the guard
    lets through has its permission rules and its aggregation selectors,
    so the builders never read a missing key (which Go would answer with
    a nil slice). *)
Theorem createClusterRoleRules_guard (rtc : RuntimeClient) :
  createClusterRoleRules rtc = mret (Some (role_error (L2L3OperatiorRole rtc))) <->
  L2L3OperatorPolicyRule !! L2L3OperatiorRole rtc = None /\
  L2L3OperatorAggregationRule !! L2L3OperatiorRole rtc = None.
Proof.
  destruct (known_role (L2L3OperatiorRole rtc)) eqn:Hk.
  - destruct (proj1 (known_role_tables _) Hk) as [[r1 E1] _]. rewrite E1.
    split; [|by intros [? _]]. unfold createClusterRoleRules, known_role in *. cbv zeta.
    apply orb_true_iff in Hk as [Hk|Hk]; apply bool_decide_eq_true in Hk; rewrite Hk;
      rewrite ?(bool_decide_false (_ <> _)) by done; cbn; unfold verifyClusterRoleRules; discriminate.
  - split; [intros _; by apply tables_unknown|intros _].
    unfold createClusterRoleRules, known_role in *. cbv zeta.
    apply orb_false_elim in Hk as [H1 H2]. apply bool_decide_eq_false in H1, H2.
    by rewrite !bool_decide_true by done.
Qed.

(** An unknown level is rejected only after the service account step:
    against a quiet API the body fails with the level error, records
    [SA] in the ledger, and leaves the store with the service account
    ensured (created when it was missing). *)
Theorem Run_body_unknown_role (rtc : RuntimeClient) (w : World) :
  known_role (L2L3OperatiorRole rtc) = false -> quiet w ->
  fst (exec (Run_body rtc) w) =
    (Error (Wrap ("while createClusterRole " ++ SAInfo.ClusterRoleName (User rtc))
                 (role_error (L2L3OperatiorRole rtc))), push_rollback rtc [SA]) /\
  w_store (snd (exec (Run_body rtc) w)) = ensure (rc_sa_of rtc) (put_sa rtc) (w_store w).
Proof.
  intros Hk Hq. unfold Run_body.
  rewrite exec_bind. destruct (createServiceAccount_spec rtc w Hq) as (H1 & S1 & _).
  destruct (exec _ w) as [r1 w1]; cbn in H1, S1; subst r1. cbv beta iota.
  rewrite exec_bind, createClusterRoleRules_unknown by done. done.
Qed.

(** ** Witnesses *)

Lemma Run_body_quiet_witness :
  let w := init_world empty_store ∅ in
  known_role (L2L3OperatiorRole alice_client) = true /\ quiet w /\
  ((exists n, fst (exec (Run_body alice_client) w) =
              (Ok (mint_token (SAInfo.ServiceAccountName (User alice_client)) n), alice_client)) /\
   w_store (snd (exec (Run_body alice_client) w)) = provision_store alice_client (w_store w)).
Proof.
  intros w. split; [reflexivity|]. split; [reflexivity|].
  apply Run_body_quiet; reflexivity.
Defined.

Lemma Run_body_empty_witness :
  let w := init_world empty_store ∅ in
  known_role RUNTIME_OPERATOR = true /\ quiet w /\ w_store w = empty_store /\
  ((exists n, fst (exec (Run_body alice_client) w) = (Ok (mint_token "alice" n), alice_client)) /\
   w_store (snd (exec (Run_body alice_client) w)) = fresh_store alice_client).
Proof.
  intros w. split; [reflexivity|]. split; [reflexivity|]. split; [reflexivity|].
  apply (Run_body_empty "alice" RUNTIME_OPERATOR "tenant-1" w); reflexivity.
Defined.

Lemma builders_satisfy_verifiers_witness :
  rc_get (rc_agg_of alice_client) empty_store = None /\
  reconcile (rc_agg_of alice_client) (put_agg alice_client empty_store) =
    (true, put_agg alice_client empty_store).
Proof.
  split; [reflexivity|].
  exact (proj1 (proj2 (proj2 (builders_satisfy_verifiers alice_client empty_store))) eq_refl).
Defined.

(** A cluster holding a stale role under the rules role's name. *)
Definition stale_rules_world : World :=
  init_world (mkStore ∅ {[ "alice-rules" := initClusterRole "alice-rules" RUNTIME_OPERATOR "x" ]} ∅) ∅.

Lemma Run_body_twice_witness :
  known_role RUNTIME_OPERATOR = true /\ quiet stale_rules_world /\
  no_writes (snd (exec (Run_body alice_client) stale_rules_world))
            (snd (exec (Run_body alice_client) (snd (exec (Run_body alice_client) stale_rules_world)))).
Proof.
  split; [reflexivity|]. split; [reflexivity|].
  exact (proj2 (proj2 (Run_body_twice "alice" RUNTIME_OPERATOR "tenant-1" stale_rules_world eq_refl eq_refl))).
Defined.
