(* ===== verification/Cleanup.v ===== *)
(** * Cleanup: the retrying deletions, [Cleaner] and [Run] (runtime.go lines 113-119, 399-524)

    [retry_Do] is [retry.Do] with [Attempts(n)] and [LastErrorOnly(true)]
    from the retry-go library: it calls the attempt until it returns nil,
    at most [n] times, sleeps between attempts but not after the last,
    and returns the last error.  [RetryDeleteServiceAccount],
    [RetryDeleteClusterRoles] and [RetryDeleteClusterRoleBinding] are the
    goroutines of the Cleaner: each attempt sends every non-NotFound
    deletion error on [errorCh] ([Send]), and an exhausted retry sends
    its final error too.

    [Cleaner] starts one goroutine per ledger entry; the goroutines run
    concurrently and the Cleaner folds every error it receives into one.
    The interleaving is explicit: [run_sched] (of [Interleave]) steps the
    goroutine a schedule names by one event (one API call, send or
    sleep); when the schedule ends the goroutines left run to completion
    in ledger order.
    [Run] is [Run_body] followed by the deferred [Cleaner] on the ledger
    the body left.  The Go code assigns the Cleaner's error to a local
    variable after the return value has been fixed, so [Run] returns the
    body's result whatever the cleanup does.
    The last part bounds the goroutines' events through the attempt
    count, hence their termination, and shows that every schedule fair
    enough finishes the Cleaner's work. *)

From S2P Require Import Prelude Types Policy Builders Kube Interleave Verify Provision.

Local Open Scope string_scope.

(** ** retry.Do with LastErrorOnly *)

(** [n] is the index of the attempt about to run, [left] the attempts
    left. *)
Fixpoint retry_go (f : K (option GoError)) (n left : nat) : K (option GoError) :=
  match left with
  | O => mret None
  | S left' =>
      r ← f;
      match r with
      | None => mret None
      | Some e =>
          match left' with
          | O => mret (Some e)
          | S _ => trigger (Sleep n);; retry_go f (S n) left'
          end
      end
  end.

Definition retry_Do (attempts : nat) (f : K (option GoError)) : K (option GoError) :=
  retry_go f 0 attempts.

(** [retry.Attempts(20)] *)
Definition Attempts : nat := 20.

Section Goroutines.
Context (rtc : RuntimeClient).
Let user := User rtc.

Definition sa_still_exists : string :=
  "Service account " ++ dq ++ SAInfo.ServiceAccountName user ++ dq ++ " still exists in "
    ++ dq ++ SAInfo.Namespace user ++ dq ++ " Namespace".

(** The closure of lines 452-461. *)
Definition delete_sa_attempt : K (option GoError) :=
  r ← trigger (DeleteServiceAccount (SAInfo.Namespace user) (SAInfo.ServiceAccountName user));
  match r with
  | Ok _ => mret (Wrapf sa_still_exists None)
  | Error e =>
      if IsNotFound e then mret None
      else trigger (Send (ApiErr e));; mret (Wrapf sa_still_exists (Some (ApiErr e)))
  end.

Definition RetryDeleteServiceAccount : K unit :=
  err ← retry_Do Attempts delete_sa_attempt;
  match err with Some e => trigger (Send e) | None => mret tt end.

(** [fmt.Sprintf("%v", clusterroles)] of a two-element slice. *)
Definition clusterroles : list string := [SAInfo.ClusterRoleName user; SAInfo.ClusterRoleRulesName user].

Definition roles_still_exist : string :=
  "ClusterRoles " ++ dq ++ "[" ++ SAInfo.ClusterRoleName user ++ " "
    ++ SAInfo.ClusterRoleRulesName user ++ "]" ++ dq ++ " still exist".

(** The loop of lines 479-487 over the role names; [err] is the
    variable the loop assigns, returned wrapped after the loop. *)
Fixpoint delete_roles_loop (names : list string) (err : option ApiError) : K (option GoError) :=
  match names with
  | [] => mret (Wrapf roles_still_exist (ApiErr <$> err))
  | name :: rest =>
      r ← trigger (DeleteClusterRole name);
      match r with
      | Ok _ => delete_roles_loop rest None
      | Error e =>
          if IsNotFound e then mret None
          else trigger (Send (ApiErr e));; delete_roles_loop rest (Some e)
      end
  end.

Definition RetryDeleteClusterRoles : K unit :=
  err ← retry_Do Attempts (delete_roles_loop clusterroles None);
  match err with Some e => trigger (Send e) | None => mret tt end.

Definition crb_still_exists : string :=
  "Cluster Role Binding" ++ dq ++ SAInfo.ClusterRoleName user ++ dq ++ " still exists".

Definition delete_crb_attempt : K (option GoError) :=
  r ← trigger (DeleteClusterRoleBinding (SAInfo.ClusterRoleBindingName user));
  match r with
  | Ok _ => mret (Wrapf crb_still_exists None)
  | Error e =>
      if IsNotFound e then mret None
      else trigger (Send (ApiErr e));; mret (Wrapf crb_still_exists (Some (ApiErr e)))
  end.

Definition RetryDeleteClusterRoleBinding : K unit :=
  err ← retry_Do Attempts delete_crb_attempt;
  match err with Some e => trigger (Send e) | None => mret tt end.

(** The [switch] of lines 411-420: a goroutine per known tag, none
    ([wg.Done()]) for any other. *)
Definition cleaner_task (data : string) : option (K unit) :=
  if bool_decide (data = SA) then Some RetryDeleteServiceAccount
  else if bool_decide (data = ClusterRole) then Some RetryDeleteClusterRoles
  else if bool_decide (data = ClusterRoleBinding) then Some RetryDeleteClusterRoleBinding
  else None.

Definition cleaner_tasks : list (K unit) := omap cleaner_task (Data (Rollback rtc)).
End Goroutines.

(** ** The Cleaner *)

(** The receive loop of lines 429-446: the first error as is, each later
    one wrapped with the message of the errors so far. *)
Definition fold_errors (errs : list GoError) : option GoError :=
  fold_left (fun acc err => match acc with
                            | None => Some err
                            | Some prev => Some (Wrap (Error_msg prev) err)
                            end) errs None.

Definition Cleaner (sched : list nat) (rtc : RuntimeClient) (w : World) : option GoError * World :=
  match Data (Rollback rtc) with
  | [] => (None, w)
  | _ =>
      let '(ts, w1) := run_sched sched (cleaner_tasks rtc) w in
      let w2 := run_all ts w1 in
      (fold_errors (drop (List.length (w_chan w)) (w_chan w2)), w2)
  end.

(** [Run]: the body, then the deferred [Cleaner] on the client the body
    left; the Cleaner's error is dropped. *)
Definition Run (sched : list nat) (rtc : RuntimeClient) (w : World)
  : goresult string * RuntimeClient * World :=
  let '((r, rtc'), w1) := exec (Run_body rtc) w in
  let '(_, w2) := Cleaner sched rtc' w1 in
  (r, rtc', w2).

(** ** The cluster-role goroutine *)

(** C8: when the aggregating role is already absent (its creation is the
    step that failed), [RetryDeleteClusterRoles] returns after one
    NotFound and never deletes the rules role: the store is unchanged. *)
Theorem RetryDeleteClusterRoles_agg_absent (rtc : RuntimeClient) (w : World) :
  quiet w -> crs (w_store w) !! SAInfo.ClusterRoleName (User rtc) = None ->
  exec (RetryDeleteClusterRoles rtc) w =
    (tt, mkWorld (w_store w) ∅
           (w_trace w ++ [(VDelete, KClusterRole, "", SAInfo.ClusterRoleName (User rtc))])%list
           (w_chan w) (w_tokens w) (w_sleeps w)).
Proof. intros Hq Hn. unfold exec. kube_run. unfold cr_delete. rewrite Hn. by kube_run. Qed.

(** C9: one transient failure deleting the rules role is enough to leak
    it: the failure is reported on the channel, the retry's next attempt
    finds the aggregating role gone, answers nil, and the rules role
    stays. *)
Theorem RetryDeleteClusterRoles_transient (rtc : RuntimeClient) (w : World) (e : ApiError) cr1 cr2 :
  IsNotFound e = false ->
  w_faults w = {[ (VDelete, KClusterRole, "", SAInfo.ClusterRoleRulesName (User rtc)) := [Some e] ]} ->
  SAInfo.ClusterRoleName (User rtc) <> SAInfo.ClusterRoleRulesName (User rtc) ->
  crs (w_store w) !! SAInfo.ClusterRoleName (User rtc) = Some cr1 ->
  crs (w_store w) !! SAInfo.ClusterRoleRulesName (User rtc) = Some cr2 ->
  let w' := snd (exec (RetryDeleteClusterRoles rtc) w) in
  crs (w_store w') !! SAInfo.ClusterRoleName (User rtc) = None /\
  crs (w_store w') !! SAInfo.ClusterRoleRulesName (User rtc) = Some cr2 /\
  w_chan w' = (w_chan w ++ [ApiErr e])%list.
Proof.
  intros He Hf Hne H1 H2 w'. subst w'. unfold exec.
  destruct w as [s f tr ch tk sl]. cbn in *. subst f.
  kube_go. unfold cr_delete. rewrite H1. kube_go. rewrite He. kube_go.
  unfold cr_delete. simplify_map_eq. kube_go. auto.
Qed.

(** ** A retried deletion under repeated failures *)

Lemma retry_go_S f n l : retry_go f n (S l) =
  r ← f; match r with None => mret None | Some e => match l with O => mret (Some e) | S _ => trigger (Sleep n);; retry_go f (S n) l end end.
Proof. reflexivity. Qed.

Lemma exec_sleep n w : exec (trigger (Sleep n)) w = (tt, mkWorld (w_store w) (w_faults w) (w_trace w) (w_chan w) (w_tokens w) (S (w_sleeps w))).
Proof. reflexivity. Qed.

Section RetryClosed.
(** An attempt issuing the one call [c]: a scripted failure [e] is
    reported on the channel and the attempt answers [fin]; without a
    scripted failure the attempt answers nil and leaves the store as
    [del] makes it. *)
Context (f : K (option GoError)) (c : Call) (e : ApiError) (fin : GoError) (del : Store -> Store).
Hypothesis f_fault : forall w q, w_faults w !! c = Some (Some e :: q) ->
  exec f w = (Some fin, mkWorld (w_store w) (<[c := q]> (w_faults w)) (w_trace w ++ [c])%list
                                 (w_chan w ++ [ApiErr e])%list (w_tokens w) (w_sleeps w)).
Hypothesis f_ok : forall w, no_fault c w ->
  exec f w = (None, mkWorld (del (w_store w)) (w_faults w) (w_trace w ++ [c])%list
                            (w_chan w) (w_tokens w) (w_sleeps w)).

(** [retry_go] against [k] consecutive failures, in closed form. *)
Lemma retry_closed left : forall n k w,
  w_faults w !! c = Some (replicate k (Some e)) ->
  exec (retry_go f n left) w =
  if decide (k < left) then
    (None, mkWorld (del (w_store w)) (<[c := []]> (w_faults w)) (w_trace w ++ replicate (S k) c)%list
                   (w_chan w ++ replicate k (ApiErr e))%list (w_tokens w) (w_sleeps w + k))
  else
    ((if left is O then None else Some fin),
     mkWorld (w_store w) (<[c := replicate (k - left) (Some e)]> (w_faults w))
             (w_trace w ++ replicate left c)%list
             (w_chan w ++ replicate left (ApiErr e))%list (w_tokens w) (w_sleeps w + (left - 1))).
Proof.
  induction left as [|l IH]; intros n k w Hf.
  - cbn. rewrite decide_False by lia. rewrite !app_nil_r, Nat.sub_0_r, Nat.add_0_r, insert_id by done.
    by destruct w.
  - rewrite retry_go_S, exec_bind. destruct k as [|k].
    + rewrite decide_True by lia. rewrite f_ok by (unfold no_fault; by rewrite Hf).
      cbn. by rewrite !app_nil_r, Nat.add_0_r, insert_id by done.
    + rewrite (f_fault w (replicate k (Some e))) by done. cbv beta iota.
      destruct l as [|l].
      * rewrite decide_False by lia. cbn. by rewrite Nat.sub_0_r, Nat.add_0_r.
      * rewrite exec_bind, exec_sleep. cbv beta iota.
        rewrite (IH (S n) k) by (cbn; by simplify_map_eq). cbn.
        rewrite !insert_insert_eq, <- !app_assoc, Nat.add_succ_r, Nat.sub_0_r. cbn.
        case_decide; case_decide; try lia; [done|]. do 3 f_equal. lia.
Qed.

(** A goroutine of the Cleaner around such an attempt (lines 449-471,
    501-524): [retry.Do] with 20 attempts, the final error sent. *)
Lemma retry_goroutine_faults k w :
  w_faults w !! c = Some (replicate k (Some e)) ->
  let w' := snd (exec (err ← retry_Do Attempts f;
                       match err with Some e => trigger (Send e) | None => mret tt end) w) in
  (k < Attempts ->
     w_store w' = del (w_store w) /\
     w_chan w' = (w_chan w ++ replicate k (ApiErr e))%list /\
     w_trace w' = (w_trace w ++ replicate (S k) c)%list /\
     w_sleeps w' = w_sleeps w + k) /\
  (Attempts <= k ->
     w_store w' = w_store w /\
     w_chan w' = (w_chan w ++ replicate Attempts (ApiErr e) ++ [fin])%list /\
     w_trace w' = (w_trace w ++ replicate Attempts c)%list /\
     w_sleeps w' = w_sleeps w + (Attempts - 1)).
Proof.
  intros Hf w'. subst w'. unfold retry_Do.
  rewrite exec_bind, (retry_closed Attempts 0 k w Hf).
  case_decide; cbn; split; intros; try lia; [done|].
  repeat split; try done. cbn. by rewrite <- app_assoc.
Qed.
End RetryClosed.

(** ** Every goroutine returns: the bound on its events *)

(** [left] attempts of [a] events each, with a sleep between two. *)
Lemma retry_go_bounded f a : bounded a f -> forall left n,
  bounded (left * a + (left - 1)) (retry_go f n left).
Proof.
  intros Hf. induction left as [|l IH]; intros n; [exact I|].
  rewrite retry_go_S. replace (S l * a + (S l - 1)) with (a + (l * a + l)) by lia.
  apply bounded_bind; [done|]. intros [e|]; [|exact I]. destruct l as [|l]; [exact I|].
  replace (S l * a + S l) with (1 + (S l * a + (S l - 1))) by lia.
  apply bounded_bind; [apply bounded_trigger|]. intros _. apply IH.
Qed.

Lemma retry_goroutine_bounded f a :
  bounded a f ->
  bounded (Attempts * a + (Attempts - 1) + 1)
    (err ← retry_Do Attempts f; match err with Some e => trigger (Send e) | None => mret tt end).
Proof.
  intros Hf. apply bounded_bind; [exact (retry_go_bounded f a Hf Attempts 0)|].
  intros [e|]; [apply bounded_trigger|exact I].
Qed.

Lemma goroutines_bounded rtc :
  bounded 60 (RetryDeleteServiceAccount rtc) /\ bounded 100 (RetryDeleteClusterRoles rtc) /\
  bounded 60 (RetryDeleteClusterRoleBinding rtc).
Proof.
  split_and!;
    [change 60 with (Attempts * 2 + (Attempts - 1) + 1)
    | change 100 with (Attempts * 4 + (Attempts - 1) + 1)
    | change 60 with (Attempts * 2 + (Attempts - 1) + 1)];
    apply retry_goroutine_bounded;
    unfold delete_sa_attempt, delete_roles_loop, delete_crb_attempt, clusterroles; bounded_solve.
Qed.

Lemma cleaner_tasks_bounded rtc i p : cleaner_tasks rtc !! i = Some p -> bounded 100 p.
Proof.
  intros Hi. pose proof (list_elem_of_lookup_2 _ _ _ Hi) as (d & _ & Hd)%list_elem_of_omap.
  destruct (goroutines_bounded rtc) as (H1 & H2 & H3).
  unfold cleaner_task in Hd.
  destruct (bool_decide (d = SA)); [injection Hd as <-; exact (bounded_mono _ 60 100 ltac:(lia) H1)|].
  destruct (bool_decide (d = ClusterRole)); [injection Hd as <-; exact H2|].
  destruct (bool_decide (d = ClusterRoleBinding)); [injection Hd as <-; exact (bounded_mono _ 60 100 ltac:(lia) H3)|].
  discriminate.
Qed.

(** C18: every goroutine of the Cleaner returns after at most 60
    (service account, binding) or 100 (cluster roles) events, whatever
    the API answers: 20 attempts of 2 (or 4) events, 19 sleeps and the
    final send. *)
Theorem Cleaner_goroutines_terminate (rtc : RuntimeClient) :
  bounded 60 (RetryDeleteServiceAccount rtc) /\ bounded 100 (RetryDeleteClusterRoles rtc) /\
  bounded 60 (RetryDeleteClusterRoleBinding rtc).
Proof. apply goroutines_bounded. Qed.

(** A schedule that names every goroutine of the Cleaner at least 100
    times lets all of them return: [wg.Wait] finds nothing left to run. *)
Lemma Cleaner_fair_schedule (sched : list nat) (rtc : RuntimeClient) (w : World) :
  (forall i, i < List.length (cleaner_tasks rtc) -> 100 <= count_occ Nat.eq_dec sched i) ->
  let '(ts, w1) := run_sched sched (cleaner_tasks rtc) w in
  (forall i p, ts !! i = Some p -> exists r, p = Ret r) /\ run_all ts w1 = w1.
Proof.
  intros Hf. pose proof (run_sched_fair sched _ w 100 (cleaner_tasks_bounded rtc) Hf) as Hd.
  destruct (run_sched sched (cleaner_tasks rtc) w) as [ts w1]. split; [done|].
  by apply run_all_done.
Qed.

(** ** The service-account and binding goroutines *)

Definition sa_delete_call (rtc : RuntimeClient) : Call :=
  (VDelete, KServiceAccount, SAInfo.Namespace (User rtc), SAInfo.ServiceAccountName (User rtc)).

Definition crb_delete_call (rtc : RuntimeClient) : Call :=
  (VDelete, KClusterRoleBinding, "", SAInfo.ClusterRoleBindingName (User rtc)).

Lemma delete_sa_attempt_fault rtc w e q :
  IsNotFound e = false -> w_faults w !! sa_delete_call rtc = Some (Some e :: q) ->
  exec (delete_sa_attempt rtc) w = (Some (Wrap (sa_still_exists rtc) (ApiErr e)),
    mkWorld (w_store w) (<[sa_delete_call rtc := q]> (w_faults w)) (w_trace w ++ [sa_delete_call rtc])%list
            (w_chan w ++ [ApiErr e])%list (w_tokens w) (w_sleeps w)).
Proof. intros He Hf. unfold exec. cbn. rewrite (api_call_fault _ _ _ e q) by done. cbn. by rewrite He. Qed.

(** Without a scripted failure the attempt answers nil: the account is
    deleted, or was already absent (NotFound). *)
Lemma delete_sa_attempt_ok rtc w :
  no_fault (sa_delete_call rtc) w ->
  exec (delete_sa_attempt rtc) w = (None,
    mkWorld (sa_remove (SAInfo.Namespace (User rtc)) (SAInfo.ServiceAccountName (User rtc)) (w_store w))
            (w_faults w) (w_trace w ++ [sa_delete_call rtc])%list (w_chan w) (w_tokens w) (w_sleeps w)).
Proof.
  intros Hf. unfold exec. cbn. rewrite api_call_none by done. cbn. unfold sa_delete.
  destruct (sas (w_store w) !! _) eqn:E; [done|]. cbn. unfold sa_remove. rewrite delete_id by done.
  by destruct (w_store w).
Qed.

Lemma delete_crb_attempt_fault rtc w e q :
  IsNotFound e = false -> w_faults w !! crb_delete_call rtc = Some (Some e :: q) ->
  exec (delete_crb_attempt rtc) w = (Some (Wrap (crb_still_exists rtc) (ApiErr e)),
    mkWorld (w_store w) (<[crb_delete_call rtc := q]> (w_faults w)) (w_trace w ++ [crb_delete_call rtc])%list
            (w_chan w ++ [ApiErr e])%list (w_tokens w) (w_sleeps w)).
Proof. intros He Hf. unfold exec. cbn. rewrite (api_call_fault _ _ _ e q) by done. cbn. by rewrite He. Qed.

Lemma delete_crb_attempt_ok rtc w :
  no_fault (crb_delete_call rtc) w ->
  exec (delete_crb_attempt rtc) w = (None,
    mkWorld (crb_remove (SAInfo.ClusterRoleBindingName (User rtc)) (w_store w))
            (w_faults w) (w_trace w ++ [crb_delete_call rtc])%list (w_chan w) (w_tokens w) (w_sleeps w)).
Proof.
  intros Hf. unfold exec. cbn. rewrite api_call_none by done. cbn. unfold crb_delete.
  destruct (crbs (w_store w) !! _) eqn:E; [done|]. cbn. unfold crb_remove. rewrite delete_id by done.
  by destruct (w_store w).
Qed.

(** C7: the service-account goroutine against a delete that fails [k]
    times in a row with a non-NotFound error.  With fewer than 20
    failures it deletes the account after [k + 1] calls and [k] sleeps,
    having reported each failure on the channel; with 20 or more it
    stops after exactly 20 calls and 19 sleeps, the store untouched, and
    the channel holds the 20 failures followed by the wrapped final
    error. *)
Theorem RetryDeleteServiceAccount_faults (rtc : RuntimeClient) (e : ApiError) (k : nat) (w : World) :
  IsNotFound e = false ->
  w_faults w !! sa_delete_call rtc = Some (replicate k (Some e)) ->
  let w' := snd (exec (RetryDeleteServiceAccount rtc) w) in
  (k < Attempts ->
     w_store w' = sa_remove (SAInfo.Namespace (User rtc)) (SAInfo.ServiceAccountName (User rtc)) (w_store w) /\
     w_chan w' = (w_chan w ++ replicate k (ApiErr e))%list /\
     w_trace w' = (w_trace w ++ replicate (S k) (sa_delete_call rtc))%list /\
     w_sleeps w' = w_sleeps w + k) /\
  (Attempts <= k ->
     w_store w' = w_store w /\
     w_chan w' = (w_chan w ++ replicate Attempts (ApiErr e) ++ [Wrap (sa_still_exists rtc) (ApiErr e)])%list /\
     w_trace w' = (w_trace w ++ replicate Attempts (sa_delete_call rtc))%list /\
     w_sleeps w' = w_sleeps w + (Attempts - 1)).
Proof.
  intros He Hf.
  exact (retry_goroutine_faults (delete_sa_attempt rtc) (sa_delete_call rtc) e _ _
           (fun w q => delete_sa_attempt_fault rtc w e q He) (delete_sa_attempt_ok rtc) k w Hf).
Qed.

(** C17: the binding goroutine against [k] consecutive non-NotFound
    failures: the same bound of 20 calls and 19 sleeps; the final error
    names the cluster role, not the binding (line 513). *)
Theorem RetryDeleteClusterRoleBinding_faults (rtc : RuntimeClient) (e : ApiError) (k : nat) (w : World) :
  IsNotFound e = false ->
  w_faults w !! crb_delete_call rtc = Some (replicate k (Some e)) ->
  let w' := snd (exec (RetryDeleteClusterRoleBinding rtc) w) in
  (k < Attempts ->
     w_store w' = crb_remove (SAInfo.ClusterRoleBindingName (User rtc)) (w_store w) /\
     w_chan w' = (w_chan w ++ replicate k (ApiErr e))%list /\
     w_sleeps w' = w_sleeps w + k) /\
  (Attempts <= k ->
     w_store w' = w_store w /\
     w_chan w' = (w_chan w ++ replicate Attempts (ApiErr e) ++
                  [Wrap ("Cluster Role Binding" ++ dq ++ SAInfo.ClusterRoleName (User rtc) ++ dq ++ " still exists")
                        (ApiErr e)])%list /\
     w_trace w' = (w_trace w ++ replicate Attempts (crb_delete_call rtc))%list).
Proof.
  intros He Hf.
  destruct (retry_goroutine_faults (delete_crb_attempt rtc) (crb_delete_call rtc) e _ _
              (fun w q => delete_crb_attempt_fault rtc w e q He) (delete_crb_attempt_ok rtc) k w Hf)
    as [H1 H2].
  split; intros Hk; [destruct (H1 Hk) as (? & ? & _ & ?) | destruct (H2 Hk) as (? & ? & ? & _)]; done.
Qed.

(** ** The error the Cleaner returns *)

Lemma fold_errors_some_acc (l : list GoError) (p : GoError) :
  exists q, fold_left (fun acc err => match acc with
                                      | None => Some err
                                      | Some prev => Some (Wrap (Error_msg prev) err)
                                      end) l (Some p) = Some q /\
            Error_msg q = String.concat ": " (Error_msg p :: map Error_msg l).
Proof.
  revert p. induction l as [|x l IH]; intros p; [by exists p|].
  destruct (IH (Wrap (Error_msg p) x)) as [q [Hq Hm]]. exists q. split; [done|].
  rewrite Hm. cbn [Error_msg map]. apply string_concat_nest.
Qed.

(** C11: the Cleaner's combined error is nil exactly when no goroutine
    reported an error, and otherwise its message is the messages of all
    reported errors, in the order received, joined by ": " (spec 4.4:
    failures are combined, none dropped). *)
Theorem fold_errors_spec (l : list GoError) :
  (fold_errors l = None <-> l = []) /\
  (forall e, fold_errors l = Some e -> Error_msg e = String.concat ": " (map Error_msg l)).
Proof.
  destruct l as [|x l]; [split; [done | by intros]|].
  unfold fold_errors. cbn [fold_left].
  destruct (fold_errors_some_acc l x) as [q [Hq Hm]]. rewrite Hq.
  split; [done|]. intros e [= <-]. exact Hm.
Qed.

(** ** One goroutine: the schedule does not matter *)

Lemma run_sched_single (sched : list nat) (p : K unit) (w : World) :
  let '(ts, w1) := run_sched sched [p] w in run_all ts w1 = snd (exec p w).
Proof.
  revert p w. induction sched as [|i sched IH]; intros p w; [done|].
  destruct i as [|i]; cbn [run_sched lookup list_lookup]; [|apply IH].
  destruct p as [a|X e k]; cbn [step_task]; [apply IH|].
  destruct (handle X e w) as [x w'] eqn:Hh. cbn [insert list_insert].
  specialize (IH (k x) w'). destruct (run_sched _ _ _) as [ts w1].
  rewrite IH. unfold exec. cbn. by rewrite Hh.
Qed.

Lemma Cleaner_single_SA (sched : list nat) (rtc : RuntimeClient) (w : World) :
  Data (Rollback rtc) = [SA] ->
  Cleaner sched rtc w =
    let w2 := snd (exec (RetryDeleteServiceAccount rtc) w) in
    (fold_errors (drop (List.length (w_chan w)) (w_chan w2)), w2).
Proof.
  intros Hd. unfold Cleaner, cleaner_tasks. rewrite Hd. cbn [omap list_omap].
  unfold cleaner_task at 1. rewrite bool_decide_true by done.
  pose proof (run_sched_single sched (RetryDeleteServiceAccount rtc) w) as H.
  destruct (run_sched _ _ _) as [ts w1]. by rewrite H.
Qed.

Lemma RetryDeleteServiceAccount_quiet (rtc : RuntimeClient) (w : World) sa :
  quiet w ->
  sas (w_store w) !! (SAInfo.Namespace (User rtc), SAInfo.ServiceAccountName (User rtc)) = Some sa ->
  w_store (snd (exec (RetryDeleteServiceAccount rtc) w)) =
    sa_remove (SAInfo.Namespace (User rtc)) (SAInfo.ServiceAccountName (User rtc)) (w_store w) /\
  w_chan (snd (exec (RetryDeleteServiceAccount rtc) w)) = w_chan w.
Proof.
  intros Hq Hsa. unfold RetryDeleteServiceAccount, retry_Do, Attempts.
  rewrite exec_bind, retry_go_S, exec_bind.
  by rewrite delete_sa_attempt_ok by auto using quiet_no_fault.
Qed.

Lemma sa_remove_ensure rtc s :
  sa_remove (SAInfo.Namespace (User rtc)) (SAInfo.ServiceAccountName (User rtc))
            (ensure (rc_sa_of rtc) (put_sa rtc) s) =
  sa_remove (SAInfo.Namespace (User rtc)) (SAInfo.ServiceAccountName (User rtc)) s.
Proof.
  unfold ensure, reconcile, rc_sa_of, put_sa, sa_remove, sa_create. cbn.
  destruct (sas s !! _) eqn:E; cbn; [done|]. rewrite E. cbn.
  by rewrite delete_insert_eq, delete_id by done.
Qed.

(** C12: with a privilege level outside the two known ones, [Run] (for
    any interleaving of the Cleaner) fails with the level error, but only
    after creating the service account; the Cleaner then deletes the
    service account, so the cluster ends without it, even when the
    account existed before the run: contrary to spec 6 and 8, the
    rejection is neither free of side effects nor free of writes. *)
Theorem Run_unknown_role (sched : list nat) (rtc : RuntimeClient) (w : World) :
  known_role (L2L3OperatiorRole rtc) = false -> quiet w -> Data (Rollback rtc) = [] ->
  let '(r, rtc', w') := Run sched rtc w in
  r = Error (Wrap ("while createClusterRole " ++ SAInfo.ClusterRoleName (User rtc))
                  (role_error (L2L3OperatiorRole rtc))) /\
  Data (Rollback rtc') = [SA] /\
  w_store w' = sa_remove (SAInfo.Namespace (User rtc)) (SAInfo.ServiceAccountName (User rtc)) (w_store w).
Proof.
  intros Hk Hq Hd. unfold Run.
  destruct (Run_body_unknown_role rtc w Hk Hq) as [Hr Hs].
  pose proof (exec_quiet (Run_body rtc) w Hq) as Hq1.
  destruct (exec (Run_body rtc) w) as [[r rtc'] w1]. cbn in Hr, Hs, Hq1. injection Hr as -> ->.
  rewrite Cleaner_single_SA by (cbn; by rewrite Hd). cbv beta iota zeta.
  destruct (ensure_sa_present rtc (w_store w)) as [sa Hsa]. rewrite <- Hs in Hsa.
  destruct (RetryDeleteServiceAccount_quiet (push_rollback rtc [SA]) w1 sa Hq1 Hsa) as [Hst _].
  repeat split; [cbn; by rewrite Hd|]. rewrite Hst, Hs. exact (sa_remove_ensure rtc (w_store w)).
Qed.

(** ** The goroutines of the Cleaner do not interfere *)

(** The objects each goroutine of [cleaner_task] deletes. *)
Definition footprint (rtc : RuntimeClient) (data : string) : list Key :=
  let user := User rtc in
  if bool_decide (data = SA) then [KeySA (SAInfo.Namespace user) (SAInfo.ServiceAccountName user)]
  else if bool_decide (data = ClusterRole) then
    [KeyCR (SAInfo.ClusterRoleName user); KeyCR (SAInfo.ClusterRoleRulesName user)]
  else if bool_decide (data = ClusterRoleBinding) then [KeyCRB (SAInfo.ClusterRoleBindingName user)]
  else [].

Definition cleaner_job (rtc : RuntimeClient) (data : string) : option (K unit * list Key) :=
  (fun p => (p, footprint rtc data)) <$> cleaner_task rtc data.

Definition cleaner_jobs (rtc : RuntimeClient) : list (K unit * list Key) :=
  omap (cleaner_job rtc) (Data (Rollback rtc)).

Lemma cleaner_jobs_tasks rtc : (cleaner_jobs rtc).*1 = cleaner_tasks rtc.
Proof.
  unfold cleaner_jobs, cleaner_tasks. rewrite list_fmap_omap. apply list_omap_ext.
  apply Forall_Forall2_diag, Forall_forall. intros d _. unfold cleaner_job.
  by destruct (cleaner_task rtc d).
Qed.

Lemma local_retry_go A f n left : local A f -> local A (retry_go f n left).
Proof.
  intros Hf. revert n. induction left as [|[|l] IH]; intros n; cbn; [done| |];
    apply local_bind; try done; intros [e|]; cbn; try done. split; [done|]. intros _. apply IH.
Qed.

Lemma cleaner_job_local rtc d p A : cleaner_job rtc d = Some (p, A) -> local A p.
Proof.
  unfold cleaner_job, cleaner_task, footprint.
  repeat case_bool_decide; intros [=<- <-];
    unfold RetryDeleteServiceAccount, RetryDeleteClusterRoles, RetryDeleteClusterRoleBinding, retry_Do;
    (apply local_bind; [apply local_retry_go|]);
    unfold delete_sa_attempt, delete_roles_loop, delete_crb_attempt, clusterroles; local_solve.
Qed.

(** Footprints of different tags share no object. *)
Lemma footprint_disjoint rtc d d' k :
  is_Some (cleaner_task rtc d) -> is_Some (cleaner_task rtc d') ->
  k ∈ footprint rtc d -> k ∈ footprint rtc d' -> d = d'.
Proof.
  unfold cleaner_task, footprint. intros Hd Hd'.
  repeat case_bool_decide; subst; try (by destruct Hd); try (by destruct Hd'); try done;
    set_unfold; naive_solver.
Qed.

Lemma NoDup_omap_inj {A B} (f : A -> option B) (l : list A) :
  (forall x y z, f x = Some z -> f y = Some z -> x = y) -> NoDup l -> NoDup (omap f l).
Proof.
  intros Hinj. induction l as [|x l IH]; intros Hnd; cbn; [constructor|].
  apply NoDup_cons in Hnd as [Hn Hnd]. destruct (f x) as [z|] eqn:E; [|by apply IH].
  constructor; [|by apply IH]. rewrite list_elem_of_omap. intros (y & Hy & Hfy).
  apply Hn. by rewrite (Hinj x y z E Hfy).
Qed.

Lemma cleaner_job_inv rtc d p A :
  cleaner_job rtc d = Some (p, A) -> is_Some (cleaner_task rtc d) /\ A = footprint rtc d.
Proof. unfold cleaner_job. intros (q & Hq & [= <- <-])%fmap_Some. by rewrite Hq. Qed.

Lemma cleaner_jobs_disjoint rtc : NoDup (Data (Rollback rtc)) ->
  forall i j p q A B k, i <> j -> cleaner_jobs rtc !! i = Some (p, A) ->
  cleaner_jobs rtc !! j = Some (q, B) -> k ∈ A -> k ∉ B.
Proof.
  intros Hnd i j p q A B k Hij Hi Hj HA HB.
  pose proof (list_elem_of_lookup_2 _ _ _ Hi) as (d & _ & Hd)%list_elem_of_omap.
  pose proof (list_elem_of_lookup_2 _ _ _ Hj) as (d' & _ & Hd')%list_elem_of_omap.
  destruct (cleaner_job_inv _ _ _ _ Hd) as [Hs ->], (cleaner_job_inv _ _ _ _ Hd') as [Hs' ->].
  pose proof (footprint_disjoint rtc d d' k Hs Hs' HA HB) as <-.
  rewrite Hd in Hd'. injection Hd' as <-.
  apply Hij. refine (NoDup_lookup _ _ _ _ _ Hi Hj).
  apply NoDup_omap_inj; [|done]. intros x y z Hx Hy.
  destruct z as [r C]. destruct (cleaner_job_inv _ _ _ _ Hx) as [Hsx ->],
    (cleaner_job_inv _ _ _ _ Hy) as [Hsy HC].
  unfold footprint in HC. unfold cleaner_task in Hsx, Hsy.
  repeat case_bool_decide; subst; try (by destruct Hsx); try (by destruct Hsy); done.
Qed.

Lemma cleaner_jobs_local rtc i p A : cleaner_jobs rtc !! i = Some (p, A) -> local A p.
Proof.
  intros Hi. pose proof (list_elem_of_lookup_2 _ _ _ Hi) as (d & _ & Hd)%list_elem_of_omap.
  exact (cleaner_job_local rtc d p A Hd).
Qed.

Lemma Cleaner_outcome sched rtc w :
  Cleaner sched rtc w =
    match Data (Rollback rtc) with
    | [] => (None, w)
    | _ => let w2 := outcome w (cleaner_jobs rtc) sched in
           (fold_errors (drop (List.length (w_chan w)) (w_chan w2)), w2)
    end.
Proof.
  unfold Cleaner, outcome. rewrite cleaner_jobs_tasks.
  destruct (Data (Rollback rtc)); [done|]. by destruct (run_sched _ _ _).
Qed.

Lemma fold_errors_none (l : list GoError) : fold_errors l = None <-> l = [].
Proof.
  destruct l as [|x l]; [done|]. unfold fold_errors. cbn [fold_left].
  destruct (fold_errors_some_acc l x) as [q [Hq _]]. by rewrite Hq.
Qed.

(** With a ledger that names each tag at most once, the Cleaner's result
    does not depend on how its goroutines interleave: the same store, the
    same errors up to order, and a nil combined error for one schedule
    exactly when for every other. *)
Lemma Cleaner_interleaving (s1 s2 : list nat) (rtc : RuntimeClient) (w : World) :
  NoDup (Data (Rollback rtc)) ->
  w_store (snd (Cleaner s1 rtc w)) = w_store (snd (Cleaner s2 rtc w)) /\
  w_chan (snd (Cleaner s1 rtc w)) ≡ₚ w_chan (snd (Cleaner s2 rtc w)) /\
  (fst (Cleaner s1 rtc w) = None <-> fst (Cleaner s2 rtc w) = None).
Proof.
  intros Hnd. rewrite !Cleaner_outcome.
  destruct (Data (Rollback rtc)) eqn:Hd; [done|]. cbn [fst snd].
  destruct (interleave_indep w (cleaner_jobs rtc) (cleaner_jobs_local rtc)
              (cleaner_jobs_disjoint rtc ltac:(by rewrite Hd)) s1 s2) as [Hs Hc].
  split_and!; [done|done|]. rewrite !fold_errors_none, <- !length_zero_iff_nil, !length_drop.
  by rewrite (Permutation_length Hc).
Qed.

Lemma ledger_of_NoDup rtc ph : Data (Rollback rtc) = [] ->
  NoDup (Data (Rollback (push_rollback rtc (ledger_of ph)))).
Proof. intros Hd. cbn. rewrite Hd. destruct ph; cbn; apply (bool_decide_unpack _); reflexivity. Qed.

(** [Run] on a fresh client: two schedules of the Cleaner give the same
    result, ledger and store, and the same errors up to order. *)
Lemma Run_interleaving (s1 s2 : list nat) (rtc : RuntimeClient) (w : World) :
  Data (Rollback rtc) = [] ->
  let '(r1, rtc1, w1) := Run s1 rtc w in
  let '(r2, rtc2, w2) := Run s2 rtc w in
  r1 = r2 /\ rtc1 = rtc2 /\ w_store w1 = w_store w2 /\ w_chan w1 ≡ₚ w_chan w2.
Proof.
  intros Hd. unfold Run. pose proof (Run_body_outcome rtc w) as Ho.
  destruct (exec (Run_body rtc) w) as [[r rtc'] w1]. cbn in Ho.
  assert (Hnd : NoDup (Data (Rollback rtc'))).
  { destruct Ho as [(tok & _ & ->) | (ph & e & _ & ->)]; [rewrite Hd; constructor|].
    by apply ledger_of_NoDup. }
  destruct (Cleaner_interleaving s1 s2 rtc' w1 Hnd) as (Hs & Hc & _).
  destruct (Cleaner s1 rtc' w1), (Cleaner s2 rtc' w1). cbn in *. done.
Qed.

(** ** Scenarios of a failed run *)

(** The aggregating role cannot be created for alice on an empty cluster. *)
Definition role_failure_world : World :=
  init_world empty_store {[ (VCreate, KClusterRole, "", "alice") := [Some (Failure "conflict")] ]}.

Lemma role_failure_sequential :
  let '(r, rtc', w') := Run [] alice_client role_failure_world in
  r = Error (Wrap "while createClusterRole alice" (ApiErr (Failure "conflict"))) /\
  Data (Rollback rtc') = [SA; ClusterRole] /\
  sas (w_store w') = ∅ /\
  crs (w_store w') !! "alice-rules" =
    Some (initClusterRoleRules "alice-rules" RUNTIME_OPERATOR "rbac.authorization.k8s.io/aggregate-to-alice") /\
  w_chan w' = [].
Proof. vm_compute. repeat split; reflexivity. Qed.

(** C13: when creating the aggregating role fails, [Run] reports the
    step and rolls back [SA; ClusterRole], yet, whatever the interleaving
    of the Cleaner's goroutines, the rules role "alice-rules" is left in
    the cluster and no error is reported: the cluster-role goroutine stops
    at the NotFound of the aggregating role (spec 4.4 says both roles are
    deleted as a pair). *)
Theorem Run_role_failure_leaks_rules (sched : list nat) :
  let '(r, rtc', w') := Run sched alice_client role_failure_world in
  r = Error (Wrap "while createClusterRole alice" (ApiErr (Failure "conflict"))) /\
  Data (Rollback rtc') = [SA; ClusterRole] /\
  sas (w_store w') = ∅ /\
  crs (w_store w') !! "alice-rules" =
    Some (initClusterRoleRules "alice-rules" RUNTIME_OPERATOR "rbac.authorization.k8s.io/aggregate-to-alice") /\
  w_chan w' = [].
Proof.
  pose proof (Run_interleaving sched [] alice_client role_failure_world eq_refl) as H.
  pose proof role_failure_sequential as H0.
  destruct (Run sched _ _) as [[r rtc'] w'], (Run [] _ _) as [[r0 rtc0] w0].
  destruct H as (-> & -> & Hs & Hc). rewrite Hs. destruct H0 as (? & ? & ? & ? & Hch).
  rewrite Hch in Hc. split_and!; try done. by apply Permutation_nil_r.
Qed.

(** The aggregating role cannot be created and the service account can
    never be deleted. *)
Definition cleanup_failure_world : World :=
  init_world empty_store
    {[ (VCreate, KClusterRole, "", "alice") := [Some (Failure "conflict")];
       (VDelete, KServiceAccount, "kube-system", "alice") := replicate 20 (Some (Failure "timeout")) ]}.

Lemma cleanup_failure_sequential :
  let '(body, w1) := exec (Run_body alice_client) cleanup_failure_world in
  let '(r, rtc', w') := Run [] alice_client cleanup_failure_world in
  r = Error (Wrap "while createClusterRole alice" (ApiErr (Failure "conflict"))) /\
  r = fst body /\ Data (Rollback rtc') = [SA; ClusterRole] /\
  is_Some (fst (Cleaner [] rtc' w1)) /\
  is_Some (sas (w_store w') !! ("kube-system", "alice")).
Proof. vm_compute. repeat split; try reflexivity; eexists; reflexivity. Qed.

(** C10: [Run] drops the Cleaner's error.  When the rollback itself
    fails (the service account cannot be deleted in 20 attempts), the
    Cleaner returns an error under every interleaving of its goroutines,
    the service account is leaked, and [Run] still returns only the
    step's error: spec 4.3 and 7 say the cleanup failure is appended so
    that leaked resources are visible. *)
Theorem Run_drops_cleanup_error (sched : list nat) :
  let '(body, w1) := exec (Run_body alice_client) cleanup_failure_world in
  let '(r, rtc', w') := Run sched alice_client cleanup_failure_world in
  r = Error (Wrap "while createClusterRole alice" (ApiErr (Failure "conflict"))) /\
  r = fst body /\ Data (Rollback rtc') = [SA; ClusterRole] /\
  is_Some (fst (Cleaner sched rtc' w1)) /\
  is_Some (sas (w_store w') !! ("kube-system", "alice")).
Proof.
  pose proof (Run_interleaving sched [] alice_client cleanup_failure_world eq_refl) as H.
  pose proof cleanup_failure_sequential as H0.
  destruct (exec (Run_body _) _) as [body w1].
  destruct (Run sched _ _) as [[r rtc'] w'], (Run [] _ _) as [[r0 rtc0] w0].
  destruct H as (-> & -> & Hs & _). rewrite Hs.
  destruct H0 as (? & ? & Hd & Hc & ?). split_and!; try done.
  destruct (Cleaner_interleaving sched [] rtc0 w1) as (_ & _ & Hn);
    [rewrite Hd; apply (bool_decide_unpack _); reflexivity|].
  destruct (fst (Cleaner sched rtc0 w1)) eqn:E; [done|]. destruct Hc as [x Hx].
  rewrite Hx in Hn. by destruct (proj1 Hn eq_refl).
Qed.

(** C16: for a ledger naming each tag at most once, the Cleaner's
    goroutines can interleave in any way, under any scripted failures:
    every two schedules leave the same store and the same errors on the
    channel up to order, and the combined error is nil for one exactly
    when it is nil for the other. *)
Theorem Cleaner_schedule_independent (s1 s2 : list nat) (rtc : RuntimeClient) (w : World) :
  NoDup (Data (Rollback rtc)) ->
  w_store (snd (Cleaner s1 rtc w)) = w_store (snd (Cleaner s2 rtc w)) /\
  w_chan (snd (Cleaner s1 rtc w)) ≡ₚ w_chan (snd (Cleaner s2 rtc w)) /\
  (fst (Cleaner s1 rtc w) = None <-> fst (Cleaner s2 rtc w) = None).
Proof. apply Cleaner_interleaving. Qed.

(** ** A fair schedule completes the rollback *)

(** Against a server that answers every call, the cluster-role
    goroutine deletes both roles in its first attempt and reports
    nothing. *)
Lemma RetryDeleteClusterRoles_quiet (rtc : RuntimeClient) (w : World) cr1 cr2 :
  quiet w -> SAInfo.ClusterRoleName (User rtc) <> SAInfo.ClusterRoleRulesName (User rtc) ->
  crs (w_store w) !! SAInfo.ClusterRoleName (User rtc) = Some cr1 ->
  crs (w_store w) !! SAInfo.ClusterRoleRulesName (User rtc) = Some cr2 ->
  w_store (snd (exec (RetryDeleteClusterRoles rtc) w)) =
    cr_remove (SAInfo.ClusterRoleRulesName (User rtc)) (cr_remove (SAInfo.ClusterRoleName (User rtc)) (w_store w)) /\
  w_chan (snd (exec (RetryDeleteClusterRoles rtc) w)) = w_chan w.
Proof.
  intros Hq Hne H1 H2. unfold exec. kube_run. unfold cr_delete. rewrite H1. kube_run.
  unfold cr_delete. cbn. rewrite lookup_delete_ne, H2 by done. by kube_run.
Qed.

Lemma cleaner_tasks_SA_CR rtc : Data (Rollback rtc) = [SA; ClusterRole] ->
  cleaner_tasks rtc = [RetryDeleteServiceAccount rtc; RetryDeleteClusterRoles rtc].
Proof.
  intros Hd. unfold cleaner_tasks. rewrite Hd. cbn [omap list_omap].
  unfold cleaner_task. by rewrite bool_decide_true, (bool_decide_false (ClusterRole = SA)), bool_decide_true.
Qed.

(** C19: after a failure of the rules-role or aggregating-role step
    (ledger [SA; ClusterRole]) against a server that answers every call,
    a schedule that names each of the two goroutines at least 100 times
    completes the rollback: both goroutines return, the Cleaner reports
    no error, and the store has lost exactly the user's service account
    and both cluster roles. *)
Theorem Cleaner_fair_completes (sched : list nat) (rtc : RuntimeClient) (w : World) sa cr1 cr2 :
  Data (Rollback rtc) = [SA; ClusterRole] -> quiet w ->
  SAInfo.ClusterRoleName (User rtc) <> SAInfo.ClusterRoleRulesName (User rtc) ->
  sas (w_store w) !! (SAInfo.Namespace (User rtc), SAInfo.ServiceAccountName (User rtc)) = Some sa ->
  crs (w_store w) !! SAInfo.ClusterRoleName (User rtc) = Some cr1 ->
  crs (w_store w) !! SAInfo.ClusterRoleRulesName (User rtc) = Some cr2 ->
  (forall i, i < 2 -> 100 <= count_occ Nat.eq_dec sched i) ->
  let '(ts, w1) := run_sched sched (cleaner_tasks rtc) w in
  (forall i p, ts !! i = Some p -> exists r, p = Ret r) /\
  Cleaner sched rtc w = (None, w1) /\
  w_store w1 = cr_remove (SAInfo.ClusterRoleRulesName (User rtc))
                 (cr_remove (SAInfo.ClusterRoleName (User rtc))
                    (sa_remove (SAInfo.Namespace (User rtc)) (SAInfo.ServiceAccountName (User rtc)) (w_store w))).
Proof.
  intros Hd Hq Hne Hsa H1 H2 Hf.
  assert (Hnd : NoDup (Data (Rollback rtc))) by (rewrite Hd; apply (bool_decide_unpack _); reflexivity).
  destruct (Cleaner_interleaving sched [] rtc w Hnd) as (Hs & _ & Hn).
  pose proof (exec_quiet (RetryDeleteServiceAccount rtc) w Hq) as Hq1.
  destruct (RetryDeleteServiceAccount_quiet rtc w sa Hq Hsa) as [S1 Ch1].
  destruct (RetryDeleteClusterRoles_quiet rtc (snd (exec (RetryDeleteServiceAccount rtc) w)) cr1 cr2 Hq1 Hne)
    as [S2 Ch2]; [by rewrite S1|by rewrite S1|].
  assert (E0 : Cleaner [] rtc w = (fold_errors (drop (List.length (w_chan w))
      (w_chan (snd (exec (RetryDeleteClusterRoles rtc) (snd (exec (RetryDeleteServiceAccount rtc) w)))))),
      snd (exec (RetryDeleteClusterRoles rtc) (snd (exec (RetryDeleteServiceAccount rtc) w))))).
  { unfold Cleaner. rewrite Hd, (cleaner_tasks_SA_CR rtc Hd). reflexivity. }
  rewrite E0, Ch2, Ch1, drop_all in Hn. cbn [fst snd] in Hn. rewrite E0 in Hs. cbn [snd] in Hs. rewrite S2, S1 in Hs.
  pose proof (Cleaner_fair_schedule sched rtc w) as Hfair.
  rewrite (cleaner_tasks_SA_CR rtc Hd) in Hfair |- *. specialize (Hfair Hf).
  revert Hs Hn. unfold Cleaner. rewrite Hd, (cleaner_tasks_SA_CR rtc Hd).
  destruct (run_sched _ _ _) as [ts w1]. destruct Hfair as [Hts Hw1]. rewrite Hw1. cbn.
  intros Hs Hn. split_and!; [done| |done]. f_equal. by apply Hn.
Qed.

(** ** Witnesses *)

Definition sa_timeouts (k : nat) : World :=
  init_world (fresh_store alice_client)
    {[ sa_delete_call alice_client := replicate k (Some (Failure "timeout")) ]}.

Lemma RetryDeleteServiceAccount_faults_witness :
  IsNotFound (Failure "timeout") = false /\
  w_faults (sa_timeouts 3) !! sa_delete_call alice_client = Some (replicate 3 (Some (Failure "timeout"))) /\
  w_chan (snd (exec (RetryDeleteServiceAccount alice_client) (sa_timeouts 3))) =
    replicate 3 (ApiErr (Failure "timeout")).
Proof.
  split; [reflexivity|]. split; [vm_compute; reflexivity|].
  destruct (RetryDeleteServiceAccount_faults alice_client (Failure "timeout") 3 (sa_timeouts 3) eq_refl)
    as [Hlt _]; [vm_compute; reflexivity|].
  apply Hlt. vm_compute. lia.
Defined.

Definition crb_timeouts (k : nat) : World :=
  init_world (fresh_store alice_client)
    {[ crb_delete_call alice_client := replicate k (Some (Failure "timeout")) ]}.

Lemma RetryDeleteClusterRoleBinding_faults_witness :
  IsNotFound (Failure "timeout") = false /\
  w_faults (crb_timeouts 25) !! crb_delete_call alice_client = Some (replicate 25 (Some (Failure "timeout"))) /\
  w_store (snd (exec (RetryDeleteClusterRoleBinding alice_client) (crb_timeouts 25))) =
    fresh_store alice_client.
Proof.
  split; [reflexivity|]. split; [vm_compute; reflexivity|].
  destruct (RetryDeleteClusterRoleBinding_faults alice_client (Failure "timeout") 25 (crb_timeouts 25) eq_refl)
    as [_ Hge]; [vm_compute; reflexivity|].
  apply Hge. vm_compute. lia.
Defined.

Lemma RetryDeleteClusterRoles_agg_absent_witness :
  quiet (init_world empty_store ∅) /\
  crs empty_store !! "alice" = None /\
  w_store (snd (exec (RetryDeleteClusterRoles alice_client) (init_world empty_store ∅))) = empty_store.
Proof.
  split; [reflexivity|]. split; [reflexivity|].
  rewrite (RetryDeleteClusterRoles_agg_absent alice_client (init_world empty_store ∅)); reflexivity.
Defined.

Definition rules_delete_timeout : World :=
  init_world (fresh_store alice_client)
    {[ (VDelete, KClusterRole, "", "alice-rules") := [Some (Failure "timeout")] ]}.

Lemma RetryDeleteClusterRoles_transient_witness :
  IsNotFound (Failure "timeout") = false /\
  crs (w_store (snd (exec (RetryDeleteClusterRoles alice_client) rules_delete_timeout))) !! "alice-rules" =
    Some (initClusterRoleRules "alice-rules" RUNTIME_OPERATOR "rbac.authorization.k8s.io/aggregate-to-alice").
Proof.
  split; [reflexivity|].
  apply (RetryDeleteClusterRoles_transient alice_client rules_delete_timeout (Failure "timeout")
           (initClusterRole "alice" RUNTIME_OPERATOR "rbac.authorization.k8s.io/aggregate-to-alice")
           (initClusterRoleRules "alice-rules" RUNTIME_OPERATOR "rbac.authorization.k8s.io/aggregate-to-alice"));
    [reflexivity | reflexivity | apply (rules_name_ne "alice" "tenant-1")
    | vm_compute; reflexivity | vm_compute; reflexivity].
Defined.

Definition viewer_client : RuntimeClient := NewRuntimeClient "alice" "viewer" "tenant-1".

Lemma Run_unknown_role_witness :
  known_role (L2L3OperatiorRole viewer_client) = false /\ quiet (init_world empty_store ∅) /\
  Data (Rollback viewer_client) = [] /\
  let '(r, rtc', w') := Run [0; 0] viewer_client (init_world empty_store ∅) in
  Data (Rollback rtc') = [SA] /\ w_store w' = sa_remove "kube-system" "alice" empty_store.
Proof.
  split; [reflexivity|]. split; [reflexivity|]. split; [reflexivity|].
  pose proof (Run_unknown_role [0; 0] viewer_client (init_world empty_store ∅) eq_refl eq_refl eq_refl) as H.
  destruct (Run _ _ _) as [[r rtc'] w']. destruct H as [_ H]. exact H.
Defined.

Definition failing_rollback_client : RuntimeClient := push_rollback alice_client [SA; ClusterRole].

Lemma Cleaner_schedule_independent_witness :
  NoDup (Data (Rollback failing_rollback_client)) /\
  w_store (snd (Cleaner [1; 0; 1; 1; 0] failing_rollback_client rules_delete_timeout)) =
  w_store (snd (Cleaner [] failing_rollback_client rules_delete_timeout)).
Proof.
  assert (Hnd : NoDup (Data (Rollback failing_rollback_client)))
    by (apply (bool_decide_unpack _); reflexivity).
  split; [exact Hnd|].
  exact (proj1 (Cleaner_schedule_independent [1; 0; 1; 1; 0] [] failing_rollback_client
                  rules_delete_timeout Hnd)).
Defined.

Definition sa_rollback_client : RuntimeClient := push_rollback alice_client [SA].

Definition roles_rollback_client : RuntimeClient := push_rollback alice_client [SA; ClusterRole].

Definition fair_sched : list nat := replicate 100 0 ++ replicate 100 1.

Lemma Cleaner_fair_completes_witness :
  let w := init_world (fresh_store alice_client) ∅ in
  let u := User roles_rollback_client in
  let '(ts, w1) := run_sched fair_sched (cleaner_tasks roles_rollback_client) w in
  (forall i p, ts !! i = Some p -> exists r, p = Ret r) /\
  Cleaner fair_sched roles_rollback_client w = (None, w1) /\
  w_store w1 = cr_remove (SAInfo.ClusterRoleRulesName u) (cr_remove (SAInfo.ClusterRoleName u)
                 (sa_remove (SAInfo.Namespace u) (SAInfo.ServiceAccountName u) (w_store w))).
Proof.
  intros w u. eapply (Cleaner_fair_completes fair_sched roles_rollback_client w);
    [reflexivity|reflexivity|vm_compute; discriminate|reflexivity|reflexivity|reflexivity|].
  intros i Hi. assert (i = 0 \/ i = 1) as [-> | ->] by lia; vm_compute; lia.
Defined.
