(* ===== verification/Isolation.v ===== *)
(** * Isolation: a run touches only the user's own objects

    Every API call of runtime.go names one object: the service account
    [SAInfo.ServiceAccountName] in [SAInfo.Namespace], the rules role
    [SAInfo.ClusterRoleRulesName], the aggregating role
    [SAInfo.ClusterRoleName] or the binding [SAInfo.ClusterRoleBindingName]
    of the client's user.  This file states it of the programs
    ([confined]: every event of every path names an object of a set) and
    lifts it to worlds ([stays]: objects outside the set are unchanged and
    every recorded call names an object of the set), through [exec], the
    Cleaner's scheduler and the whole [Run] with its deferred cleanup.
    The result: whatever the API answers and however the Cleaner's
    goroutines interleave, a run neither creates, modifies nor deletes an
    object of another user, and never even reads one. *)

From S2P Require Import Prelude Types Policy Builders Kube Interleave Verify Provision Cleanup.

Local Open Scope string_scope.

(** ** The object each call names *)

(** The object an event names; the channel and the sleeps name none. *)
Definition event_obj {X} (e : kubeE X) : option Key :=
  match e with
  | GetServiceAccount ns n | DeleteServiceAccount ns n | CreateToken ns n _ => Some (KeySA ns n)
  | CreateServiceAccount ns sa => Some (KeySA ns (metav1.Name (corev1.sa_ObjectMeta sa)))
  | GetClusterRole n | DeleteClusterRole n => Some (KeyCR n)
  | CreateClusterRole cr => Some (KeyCR (metav1.Name (rbacv1.cr_ObjectMeta cr)))
  | GetClusterRoleBinding n | DeleteClusterRoleBinding n => Some (KeyCRB n)
  | CreateClusterRoleBinding crb => Some (KeyCRB (metav1.Name (rbacv1.crb_ObjectMeta crb)))
  | Send _ | Sleep _ => None
  end.

(** The object a recorded call names. *)
Definition call_key (c : Call) : Key :=
  match c with
  | (_, KServiceAccount, ns, n) => KeySA ns n
  | (_, KClusterRole, _, n) => KeyCR n
  | (_, KClusterRoleBinding, _, n) => KeyCRB n
  end.

Definition obj_ok {X} (A : list Key) (e : kubeE X) : Prop :=
  match event_obj e with Some o => o ∈ A | None => True end.

(** Every event of every path of [p] names an object of [A]. *)
Fixpoint confined {R} (A : list Key) (p : K R) : Prop :=
  match p with
  | Ret _ => True
  | Vis e k => obj_ok A e /\ forall x, confined A (k x)
  end.

(** [w'] differs from [w] only on objects of [A], and the calls recorded
    in between all name objects of [A]. *)
Definition stays (A : list Key) (w w' : World) : Prop :=
  (forall k, k ∉ A -> store_at k (w_store w') = store_at k (w_store w)) /\
  exists l, w_trace w' = (w_trace w ++ l)%list /\ Forall (fun c => call_key c ∈ A) l.

(** The four objects of a user. *)
Definition user_keys (user : SAInfo.t) : list Key :=
  [KeySA (SAInfo.Namespace user) (SAInfo.ServiceAccountName user);
   KeyCR (SAInfo.ClusterRoleRulesName user); KeyCR (SAInfo.ClusterRoleName user);
   KeyCRB (SAInfo.ClusterRoleBindingName user)].

(** ** [stays] is a preorder *)

#[global] Instance stays_preorder A : PreOrder (stays A).
Proof.
  split.
  - intros w. split; [done|]. exists []. by rewrite app_nil_r.
  - intros w1 w2 w3 [H12 (l1 & E1 & F1)] [H23 (l2 & E2 & F2)]. split.
    + intros k Hk. by rewrite H23, H12.
    + exists (l1 ++ l2)%list. rewrite E2, E1, app_assoc. split; [done|]. by apply Forall_app.
Qed.

Lemma stays_same A w w' : w_store w' = w_store w -> w_trace w' = w_trace w -> stays A w w'.
Proof. intros Hs Ht. split; [by rewrite Hs|]. exists []. by rewrite Ht, app_nil_r. Qed.

(** ** One event *)

(** The store operation of a call changes at most the object it names. *)
Definition op_frame {A} (k0 : Key) (op : Store -> result A ApiError * Store) : Prop :=
  forall s k, k <> k0 -> store_at k (snd (op s)) = store_at k s.

Lemma op_frame_read {A} k0 (op : Store -> result A ApiError * Store) :
  (forall s, snd (op s) = s) -> op_frame k0 op.
Proof. intros H s k _. by rewrite H. Qed.

Ltac op_frame_tac :=
  intros s k Hk; repeat case_match; cbn; try done;
  destruct k; cbn; try done;
  rewrite ?lookup_insert_ne, ?lookup_delete_ne by congruence; done.

Lemma sa_create_frame ns sa :
  op_frame (KeySA ns (metav1.Name (corev1.sa_ObjectMeta sa))) (sa_create ns sa).
Proof. unfold sa_create. op_frame_tac. Qed.
Lemma sa_delete_frame ns n : op_frame (KeySA ns n) (sa_delete ns n).
Proof. unfold sa_delete. op_frame_tac. Qed.
Lemma cr_create_frame cr : op_frame (KeyCR (metav1.Name (rbacv1.cr_ObjectMeta cr))) (cr_create cr).
Proof. unfold cr_create. op_frame_tac. Qed.
Lemma cr_delete_frame n : op_frame (KeyCR n) (cr_delete n).
Proof. unfold cr_delete. op_frame_tac. Qed.
Lemma crb_create_frame crb :
  op_frame (KeyCRB (metav1.Name (rbacv1.crb_ObjectMeta crb))) (crb_create crb).
Proof. unfold crb_create. op_frame_tac. Qed.
Lemma crb_delete_frame n : op_frame (KeyCRB n) (crb_delete n).
Proof. unfold crb_delete. op_frame_tac. Qed.

Lemma take_fault_stays A c w : call_key c ∈ A -> stays A w (snd (take_fault c w)).
Proof.
  intros Hc. split; [intros k _; by rewrite take_fault_store|].
  exists [c]. unfold take_fault. split; [by repeat case_match|]. by apply Forall_singleton.
Qed.

Lemma api_call_stays {X} A c k0 (op : Store -> result X ApiError * Store) w :
  call_key c = k0 -> k0 ∈ A -> op_frame k0 op -> stays A w (snd (api_call c op w)).
Proof.
  intros <- Hc Hop. unfold api_call.
  pose proof (take_fault_stays A c w Hc) as Ht.
  destruct (take_fault c w) as [[e|] w1] eqn:E; [done|].
  destruct (op (w_store w1)) as [r s'] eqn:Eop. cbn.
  etransitivity; [exact Ht|]. split.
  - intros k Hk. cbn. change s' with (snd (r, s')). rewrite <- Eop.
    apply Hop. by intros ->.
  - exists []. by rewrite app_nil_r.
Qed.

Lemma handle_stays {X} A (e : kubeE X) w : obj_ok A e -> stays A w (snd (handle X e w)).
Proof.
  unfold obj_ok. destruct e; cbn; intros He;
    try (eapply api_call_stays; [reflexivity|exact He|]);
    try (apply op_frame_read; intros s; unfold sa_get, cr_get, crb_get; by case_match);
    eauto using sa_create_frame, sa_delete_frame, cr_create_frame, cr_delete_frame,
      crb_create_frame, crb_delete_frame.
  - pose proof (take_fault_stays A (VCreateToken, KServiceAccount, ns, name) w He) as Ht.
    destruct (take_fault _ w) as [[err|] w1]; cbn; [exact Ht|].
    case_match; [|exact Ht]. etransitivity; [exact Ht|]. by apply stays_same.
  - by apply stays_same.
  - by apply stays_same.
Qed.

(** ** Programs *)

Lemma confined_bind {R S} A (p : K R) (f : R -> K S) :
  confined A p -> (forall r, confined A (f r)) -> confined A (p ≫= f).
Proof.
  induction p as [r|X e k IH]; intros Hp Hf; [apply Hf|].
  destruct Hp as [He Hk]. split; [done|]. intros x. by apply IH.
Qed.

Lemma confined_mono {R} A B (p : K R) : A ⊆ B -> confined A p -> confined B p.
Proof.
  intros HAB. induction p as [r|X e k IH]; [done|]. intros [He Hk]. split; [|eauto].
  unfold obj_ok in *. destruct (event_obj e); [set_solver|done].
Qed.

(** A goroutine of the Cleaner that only deletes objects of [A] (and
    sends and sleeps) is confined to [A]. *)
Lemma local_confined {R} A (p : K R) : local A p -> confined A p.
Proof.
  induction p as [r|X e k IH]; [done|]. intros [He Hk]. split; [|eauto].
  destruct e; cbn in *; done.
Qed.

Lemma exec_stays {R} A (p : K R) w : confined A p -> stays A w (snd (exec p w)).
Proof.
  unfold exec. revert w. induction p as [r|X e k IH]; intros w Hp; cbn; [reflexivity|].
  destruct Hp as [He Hk]. pose proof (handle_stays A e w He) as H1.
  destruct (handle X e w) as [x w']. etransitivity; [exact H1|]. by apply IH.
Qed.

(** ** The Cleaner's scheduler *)

Lemma step_task_stays A p w p' w' :
  confined A p -> step_task p w = Some (p', w') -> confined A p' /\ stays A w w'.
Proof.
  destruct p as [r|X e k]; cbn; [done|]. intros [He Hk].
  pose proof (handle_stays A e w He) as H1.
  destruct (handle X e w) as [x w1]. intros [= <- <-]. auto.
Qed.

Lemma run_sched_stays A sched : forall ts w,
  Forall (confined A) ts ->
  Forall (confined A) (run_sched sched ts w).1 /\ stays A w (run_sched sched ts w).2.
Proof.
  induction sched as [|i sched IH]; intros ts w Hts; cbn; [split; [done|reflexivity]|].
  destruct (ts !! i) as [p|] eqn:Hi; [|by apply IH].
  destruct (step_task p w) as [[p' w']|] eqn:Hs; [|by apply IH].
  rewrite Forall_lookup in Hts. pose proof (Hts i p Hi) as Hp.
  destruct (step_task_stays A p w p' w' Hp Hs) as [Hp' H1].
  destruct (IH (<[i := p']> ts) w') as [H2 H3].
  { apply Forall_lookup. intros j q. destruct (decide (i = j)) as [<-|Hij].
    - rewrite list_lookup_insert_eq by (eapply lookup_lt_Some; done). by intros [= <-].
    - rewrite list_lookup_insert_ne by done. apply Hts. }
  split; [done|]. by etransitivity.
Qed.

Lemma run_all_stays A ts : forall w, Forall (confined A) ts -> stays A w (run_all ts w).
Proof.
  unfold run_all. induction ts as [|p ts IH]; intros w Hts; cbn; [reflexivity|].
  apply Forall_cons in Hts as [Hp Hts]. etransitivity; [exact (exec_stays A p w Hp)|]. by apply IH.
Qed.

Lemma Cleaner_stays A sched rtc w :
  Forall (confined A) (cleaner_tasks rtc) -> stays A w (snd (Cleaner sched rtc w)).
Proof.
  intros Hts. unfold Cleaner. destruct (Data (Rollback rtc)); [reflexivity|].
  destruct (run_sched_stays A sched (cleaner_tasks rtc) w Hts) as [H1 H2].
  destruct (run_sched sched _ w) as [ts w1]. cbn in *.
  etransitivity; [exact H2|]. by apply run_all_stays.
Qed.

(** ** The programs of runtime.go are confined to the user's objects *)

Ltac confined_solve :=
  repeat first [ exact I | apply confined_bind | progress cbn | split | intro | case_match | set_solver ].

Lemma steps_confined rtc :
  let A := user_keys (User rtc) in
  confined A (createServiceAccount rtc) /\ confined A (createClusterRoleRules rtc) /\
  confined A (createClusterRole rtc) /\ confined A (getServiceAccountToken rtc) /\
  confined A (createClusterRoleBinding rtc).
Proof.
  split_and!;
    unfold createServiceAccount, createClusterRoleRules, createClusterRole,
      getServiceAccountToken, createClusterRoleBinding,
      verifyServiceAccount, verifyClusterRoleRules, verifyClusterRole, verifyCRBinding,
      delete_stale_role, deleteClusterRole, deleteCRBinding, initCRBindingE;
    confined_solve.
Qed.

Lemma Run_body_confined rtc : confined (user_keys (User rtc)) (Run_body rtc).
Proof.
  destruct (steps_confined rtc) as (H1 & H2 & H3 & H4 & H5). unfold Run_body.
  repeat (apply confined_bind; [assumption|]; intros [?|]; cbv beta iota; try exact I).
Qed.

Lemma footprint_user rtc d : footprint rtc d ⊆ user_keys (User rtc).
Proof. unfold footprint, user_keys. intros k. repeat case_match; set_unfold; naive_solver. Qed.

Lemma cleaner_tasks_confined rtc : Forall (confined (user_keys (User rtc))) (cleaner_tasks rtc).
Proof.
  rewrite <- cleaner_jobs_tasks, Forall_lookup. intros i p ([q A] & -> & Hi)%list_lookup_fmap_Some. cbn.
  pose proof (list_elem_of_lookup_2 _ _ _ Hi) as (d & _ & Hd)%list_elem_of_omap.
  destruct (cleaner_job_inv _ _ _ _ Hd) as [_ ->].
  apply (confined_mono (footprint rtc d)); [apply footprint_user|].
  exact (local_confined _ _ (cleaner_job_local rtc d q _ Hd)).
Qed.

(** The client [Run_body] returns is the one it was given, with entries
    appended to its ledger: the user is the same. *)
Lemma Run_body_user rtc w : User (fst (exec (Run_body rtc) w)).2 = User rtc.
Proof.
  pose proof (Run_body_outcome rtc w) as H. destruct (fst (exec _ w)) as [r rtc'].
  destruct H as [(? & _ & ->)|(? & ? & _ & ->)]; done.
Qed.

(** ** A run touches only its user's objects *)

Lemma Run_stays sched rtc w :
  let '(_, _, w') := Run sched rtc w in stays (user_keys (User rtc)) w w'.
Proof.
  unfold Run. pose proof (Run_body_user rtc w) as HU.
  pose proof (exec_stays _ (Run_body rtc) w (Run_body_confined rtc)) as H1.
  destruct (exec (Run_body rtc) w) as [[r rtc'] w1]. cbn in HU, H1.
  pose proof (Cleaner_stays (user_keys (User rtc)) sched rtc' w1) as H2.
  destruct (Cleaner sched rtc' w1) as [e w2]. etransitivity; [exact H1|]. apply H2.
  rewrite <- HU. apply cleaner_tasks_confined.
Qed.

(** C22: whatever the API answers (any fault script) and however the
    Cleaner's goroutines are interleaved, [Run] (the body and its
    deferred cleanup) changes no object outside the four of its user,
    and every call it makes names one of those four: it neither reads
    nor writes an object of anyone else. *)
Theorem Run_isolated (sched : list nat) (rtc : RuntimeClient) (w : World) :
  let '(_, _, w') := Run sched rtc w in stays (user_keys (User rtc)) w w'.
Proof. apply Run_stays. Qed.

(** ** Which users share an object *)

Lemma string_app_inj_r (a b t : string) : (a ++ t = b ++ t)%string -> a = b.
Proof.
  revert b. induction a as [|c a IH]; intros [|c' b] E; try done;
    try (apply (f_equal String.length) in E; rewrite !string_length_app in E; cbn in E; lia).
  change (String c (a ++ t) = String c' (b ++ t))%string in E. injection E as -> E.
  by rewrite (IH b E).
Qed.

(** The names [NewRuntimeClient] derives for two users share an object
    only when the users are the same, or when one user id is the other's
    followed by ["-rules"]: the rules role of [u] is named like the
    aggregating role of [u ++ "-rules"]. *)
Lemma user_keys_overlap uid uid' tenant tenant' k :
  k ∈ user_keys (newSAInfo uid tenant) -> k ∈ user_keys (newSAInfo uid' tenant') ->
  uid = uid' \/ uid' = (uid ++ "-rules")%string \/ uid = (uid' ++ "-rules")%string.
Proof.
  unfold user_keys. cbn. rewrite !elem_of_cons, !elem_of_nil.
  intros H1 H2. destruct H1 as [->|[->|[->|[->|[]]]]]; destruct H2 as [E|[E|[E|[E|[]]]]];
    simplify_eq; eauto using string_app_inj_r.
Qed.

(** C23: a run for user [uid] leaves every object of another user
    [uid'] exactly as it was, for every schedule and fault script,
    provided neither id is the other's followed by ["-rules"]. *)
Theorem Run_users_isolated (sched : list nat) (uid role tenant uid' tenant' : string) (w : World) (k : Key) :
  uid <> uid' -> uid' <> (uid ++ "-rules")%string -> uid <> (uid' ++ "-rules")%string ->
  k ∈ user_keys (newSAInfo uid' tenant') ->
  let '(_, _, w') := Run sched (NewRuntimeClient uid role tenant) w in
  store_at k (w_store w') = store_at k (w_store w).
Proof.
  intros H1 H2 H3 Hk. pose proof (Run_stays sched (NewRuntimeClient uid role tenant) w) as HS.
  destruct (Run _ _ w) as [[r rtc'] w']. destruct HS as [HS _]. apply HS. cbn.
  intros Hk'. by destruct (user_keys_overlap uid uid' tenant tenant' k Hk' Hk) as [|[|]].
Qed.

(** ** Two users whose names collide *)

(** On the cluster the run for [uid] left, the store a run for
    [uid ++ "-rules"] leaves has that user's aggregating role where the
    rules role of [uid] was. *)
Lemma provision_collision uid role tenant role2 tenant2 :
  crs (provision_store (NewRuntimeClient (uid ++ "-rules") role2 tenant2)
                       (fresh_store (NewRuntimeClient uid role tenant))) !! (uid ++ "-rules")%string
  = Some (initClusterRole (uid ++ "-rules") role2
            (SAInfo.ClusterRoleAggrLabel (newSAInfo (uid ++ "-rules") tenant2))).
Proof.
  assert (H1 : (uid ++ "-rules")%string <> uid) by (apply not_eq_sym, string_app_neq; done).
  assert (H2 : ((uid ++ "-rules") ++ "-rules")%string <> (uid ++ "-rules")%string)
    by (apply not_eq_sym, string_app_neq; done).
  assert (H3 : ((uid ++ "-rules") ++ "-rules")%string <> uid).
  { rewrite <- string_app_assoc. apply not_eq_sym, string_app_neq. done. }
  unfold provision_store, ensure, reconcile. cbn.
  unfold put_sa, put_rules, put_agg, put_crb, sa_create, cr_create, crb_create. cbn.
  repeat (rewrite ?lookup_empty, ?lookup_singleton_ne, ?lookup_singleton_eq, ?lookup_insert_ne,
                  ?lookup_insert_eq, ?lookup_delete_eq, ?lookup_delete_ne by congruence; cbn).
  reflexivity.
Qed.

(** C24: the names [NewRuntimeClient] derives are not injective across
    users: the rules role of [uid] is named [uid ++ "-rules"], which is
    also the name of the aggregating role of the user [uid ++ "-rules"].
    On an empty cluster, against an API that answers every call, the run
    for [uid] creates its rules role; the run for [uid ++ "-rules"] that
    follows succeeds too, having replaced that rules role by its own
    aggregating role (its verifier sees a role without its selectors,
    deletes it as stale and creates its own), so [uid] loses the rules
    its aggregating role selects.  The shared object is in both users'
    [user_keys], which is why [Run_users_isolated] excludes the pair. *)
Theorem Run_body_rules_collision (uid role tenant role2 tenant2 : string) (w : World) :
  known_role role = true -> known_role role2 = true -> quiet w -> w_store w = empty_store ->
  let rtc1 := NewRuntimeClient uid role tenant in
  let rtc2 := NewRuntimeClient (uid ++ "-rules") role2 tenant2 in
  let w1 := snd (exec (Run_body rtc1) w) in
  KeyCR (uid ++ "-rules") ∈ user_keys (User rtc1) /\ KeyCR (uid ++ "-rules") ∈ user_keys (User rtc2) /\
  crs (w_store w1) !! (uid ++ "-rules") =
    Some (initClusterRoleRules (uid ++ "-rules") role (SAInfo.ClusterRoleAggrLabel (User rtc1))) /\
  (exists n, fst (exec (Run_body rtc2) w1) = (Ok (mint_token (uid ++ "-rules") n), rtc2)) /\
  crs (w_store (snd (exec (Run_body rtc2) w1))) !! (uid ++ "-rules") =
    Some (initClusterRole (uid ++ "-rules") role2 (SAInfo.ClusterRoleAggrLabel (User rtc2))).
Proof.
  intros Hk1 Hk2 Hq Hs rtc1 rtc2 w1.
  destruct (Run_body_quiet_gen rtc1 w Hk1 Hq) as [_ S1]. fold w1 in S1.
  rewrite Hs in S1. unfold rtc1 in S1. rewrite provision_empty in S1.
  destruct (Run_body_quiet_gen rtc2 w1 Hk2 (exec_quiet _ w Hq)) as [R2 S2].
  split_and!; [unfold user_keys; cbn; set_solver | unfold user_keys; cbn; set_solver | | exact R2 |
    rewrite S2, S1; apply provision_collision].
  rewrite S1. cbn. rewrite lookup_insert_ne by (apply string_app_neq; done).
  by rewrite lookup_insert_eq.
Qed.

(** ** Witnesses *)

Definition bob_world : World := init_world (fresh_store (NewRuntimeClient "bob" RUNTIME_ADMIN "tenant-2")) ∅.

Lemma Run_users_isolated_witness :
  let '(_, _, w') := Run [0; 0] alice_client bob_world in
  store_at (KeySA Namespace "bob") (w_store w') = store_at (KeySA Namespace "bob") (w_store bob_world).
Proof.
  apply (Run_users_isolated [0; 0] "alice" RUNTIME_OPERATOR "tenant-1" "bob" "tenant-2");
    try (intros E; vm_compute in E; congruence).
  vm_compute. left.
Defined.

Lemma Run_body_rules_collision_witness :
  let rtc1 := NewRuntimeClient "bob" RUNTIME_ADMIN "tenant-2" in
  let rtc2 := NewRuntimeClient ("bob" ++ "-rules") RUNTIME_OPERATOR "tenant-3" in
  let w1 := snd (exec (Run_body rtc1) (init_world empty_store ∅)) in
  KeyCR ("bob" ++ "-rules") ∈ user_keys (User rtc1) /\ KeyCR ("bob" ++ "-rules") ∈ user_keys (User rtc2) /\
  crs (w_store w1) !! ("bob" ++ "-rules") =
    Some (initClusterRoleRules ("bob" ++ "-rules") RUNTIME_ADMIN (SAInfo.ClusterRoleAggrLabel (User rtc1))) /\
  (exists n, fst (exec (Run_body rtc2) w1) = (Ok (mint_token ("bob" ++ "-rules") n), rtc2)) /\
  crs (w_store (snd (exec (Run_body rtc2) w1))) !! ("bob" ++ "-rules") =
    Some (initClusterRole ("bob" ++ "-rules") RUNTIME_OPERATOR (SAInfo.ClusterRoleAggrLabel (User rtc2))).
Proof. apply Run_body_rules_collision; reflexivity. Defined.
