(* ===== verification/Ledger.v ===== *)
(** * Ledger: a failed run records every object it created

    The rollback ledger of [Run] ([RuntimeClient.RollbackE.Data],
    appended by [Run_body]) is what the deferred [Cleaner] deletes: the
    tag [SA] starts the deletion of the service account, [ClusterRole]
    that of both cluster roles ([cleaner_task], [obj_tag]).  The ledger
    is sound when every object a failed run created is deleted by its
    cleanup, so that the run leaves nothing behind (spec: a partial
    failure leaves no orphaned resources).  The file proves it for every
    fault script, from three facts about the steps of [Run_body]:
    - each step changes only its own object ([confined], [stays] of
      [Isolation]), so the objects it creates are among its own;
    - a step that fails creates nothing: a verifier never creates
      ([no_create]), and a create call the API answers with an error
      leaves the store as it was;
    - the token request creates nothing.
    The ledger then has to hold [SA] once the service account step has
    passed, and [ClusterRole] once the rules-role step has passed, which
    is what the appends of [Run_body] do. *)

From S2P Require Import Prelude Types Policy Builders Kube Interleave Verify Provision Cleanup Isolation.

Local Open Scope string_scope.

(** The ledger tag the Cleaner deletes an object under. *)
Definition obj_tag (k : Key) : string :=
  match k with KeySA _ _ => SA | KeyCR _ => ClusterRole | KeyCRB _ => ClusterRoleBinding end.

(** The objects absent in [w] and present in [w'] are all in [A]. *)
Definition new_in (A : list Key) (w w' : World) : Prop :=
  forall k, store_at k (w_store w) = None -> is_Some (store_at k (w_store w')) -> k ∈ A.

Lemma new_in_trans A B w1 w2 w3 : new_in A w1 w2 -> new_in B w2 w3 -> new_in (A ++ B) w1 w3.
Proof.
  intros H12 H23 k Hk1 Hk3. apply elem_of_app.
  destruct (store_at k (w_store w2)) eqn:E; [left; apply H12; [done|by eexists]|right; by apply H23].
Qed.

Lemma new_in_same A w w' : w_store w' = w_store w -> new_in A w w'.
Proof. intros Hs k Hk1 Hk2. rewrite Hs, Hk1 in Hk2. by destruct Hk2. Qed.

Lemma stays_new_in A w w' : stays A w w' -> new_in A w w'.
Proof.
  intros [Hs _] k Hk1 Hk2. destruct (decide (k ∈ A)) as [|Hn]; [done|].
  rewrite (Hs k Hn), Hk1 in Hk2. by destruct Hk2.
Qed.

(** ** Programs that never create *)

Definition is_create {X} (e : kubeE X) : bool :=
  match e with
  | CreateServiceAccount _ _ | CreateClusterRole _ | CreateClusterRoleBinding _ => true
  | _ => false
  end.

Fixpoint no_create {R} (p : K R) : Prop :=
  match p with
  | Ret _ => True
  | Vis e k => is_create e = false /\ forall x, no_create (k x)
  end.

Lemma no_create_bind {R S} (p : K R) (f : R -> K S) :
  no_create p -> (forall r, no_create (f r)) -> no_create (p ≫= f).
Proof.
  induction p as [r|X e k IH]; intros Hp Hf; [apply Hf|].
  destruct Hp as [He Hk]. split; [done|]. intros x. by apply IH.
Qed.

(** A store operation that never brings an object into being. *)
Definition keeps_absent {A} (op : Store -> result A ApiError * Store) : Prop :=
  forall s k, store_at k s = None -> store_at k (snd (op s)) = None.

Lemma api_call_no_new {A} c (op : Store -> result A ApiError * Store) w :
  keeps_absent op -> new_in [] w (snd (api_call c op w)).
Proof.
  intros Hop k Hk1 Hk2. exfalso. revert Hk2. unfold api_call.
  pose proof (take_fault_store c w) as Hs.
  destruct (take_fault c w) as [[e|] w1]; cbn in *; rewrite <- ?Hs in Hk1; [by rewrite Hk1; intros []|].
  destruct (op (w_store w1)) as [r s'] eqn:E. cbn. change s' with (snd (r, s')). rewrite <- E.
  rewrite (Hop _ _ Hk1). by intros [].
Qed.

Ltac keeps_absent_tac :=
  intros s k Hk; repeat case_match; cbn; try done;
  destruct k; cbn in *; try done;
  match goal with
  | |- context [delete ?i _ !! ?j] => destruct (decide (i = j)) as [<-|?];
      [by rewrite lookup_delete_eq | by rewrite lookup_delete_ne]
  end.

Lemma handle_no_new {X} (e : kubeE X) w : is_create e = false -> new_in [] w (snd (handle X e w)).
Proof.
  destruct e; cbn; intros He; try done;
    try (apply api_call_no_new;
         unfold sa_get, sa_delete, cr_get, cr_delete, crb_get, crb_delete; keeps_absent_tac);
    try (apply new_in_same; done).
  pose proof (take_fault_store (VCreateToken, KServiceAccount, ns, name) w) as Hs.
  apply new_in_same. destruct (take_fault _ w) as [[err|] w1]; cbn in *; [done|].
  by case_match.
Qed.

Lemma exec_no_create {R} (p : K R) w : no_create p -> new_in [] w (snd (exec p w)).
Proof.
  unfold exec. revert w. induction p as [r|X e k IH]; intros w Hp; cbn; [by apply new_in_same|].
  destruct Hp as [He Hk]. pose proof (handle_no_new e w He) as H1.
  destruct (handle X e w) as [x w']. apply (new_in_trans [] [] _ _ _ H1). by apply IH.
Qed.

(** ** A failed create step creates nothing *)

(** A create call the API answers with an error leaves the store alone. *)
Definition create_error_keeps {X} (ev : kubeE (result X ApiError)) : Prop :=
  forall w err, fst (handle _ ev w) = Error err -> w_store (snd (handle _ ev w)) = w_store w.

Lemma api_call_error_keeps {A} c (op : Store -> result A ApiError * Store) w err :
  (forall s err, fst (op s) = Error err -> snd (op s) = s) ->
  fst (api_call c op w) = Error err -> w_store (snd (api_call c op w)) = w_store w.
Proof.
  intros Hop. unfold api_call. pose proof (take_fault_store c w) as Hs.
  destruct (take_fault c w) as [[e|] w1]; cbn in *; [done|].
  destruct (op (w_store w1)) as [r s'] eqn:E. cbn. intros ->.
  rewrite <- Hs. change s' with (snd (Error (A:=A) err, s')). rewrite <- E. apply (Hop _ err). by rewrite E.
Qed.

Ltac create_error_tac :=
  intros w err; cbn; apply api_call_error_keeps;
  intros s e; unfold sa_create, cr_create, crb_create; case_match; cbn; congruence.

Lemma CreateServiceAccount_error_keeps ns sa : create_error_keeps (CreateServiceAccount ns sa).
Proof. create_error_tac. Qed.
Lemma CreateClusterRole_error_keeps cr : create_error_keeps (CreateClusterRole cr).
Proof. create_error_tac. Qed.
Lemma CreateClusterRoleBinding_error_keeps crb : create_error_keeps (CreateClusterRoleBinding crb).
Proof. create_error_tac. Qed.

Lemma ensure_prog_fail {X} m verify (ev : kubeE (result X ApiError)) w :
  no_create verify -> create_error_keeps ev ->
  is_Some (fst (exec (ensure_prog m verify ev) w)) -> new_in [] w (snd (exec (ensure_prog m verify ev) w)).
Proof.
  intros Hv Hev. unfold ensure_prog. rewrite exec_bind.
  pose proof (exec_no_create verify w Hv) as H1.
  destruct (exec verify w) as [[[|]|e] w1]; cbn; [by intros [? ?]| |done].
  cbn in H1. pose proof (Hev w1) as H2.
  destruct (handle _ ev w1) as [[c|err] w2]; cbn in *; [by intros [? ?]|].
  intros _ k Hk1 Hk2. apply (H1 k Hk1). by rewrite <- (H2 err eq_refl).
Qed.

Ltac no_create_solve :=
  repeat first [ exact I | apply no_create_bind | progress cbn | split | intro | case_match | reflexivity ].

(** ** The steps of [Run_body] *)

Section Steps.
Context (rtc : RuntimeClient).
Let user := User rtc.

Lemma verifiers_no_create :
  no_create (verifyServiceAccount rtc) /\
  no_create (verifyClusterRoleRules rtc (L2L3OperatiorRole rtc)) /\
  no_create (verifyClusterRole rtc (L2L3OperatiorRole rtc) (SAInfo.ClusterRoleAggrLabel user)) /\
  (forall rr subj, no_create (verifyCRBinding rtc rr subj)).
Proof.
  unfold verifyServiceAccount, verifyClusterRoleRules, verifyClusterRole, verifyCRBinding,
    delete_stale_role, deleteClusterRole, deleteCRBinding.
  split_and!; no_create_solve.
Qed.

(** Each create step changes only its own object. *)
Lemma steps_own_keys :
  confined [KeySA (SAInfo.Namespace user) (SAInfo.ServiceAccountName user)] (createServiceAccount rtc) /\
  confined [KeyCR (SAInfo.ClusterRoleRulesName user)] (createClusterRoleRules rtc) /\
  confined [KeyCR (SAInfo.ClusterRoleName user)] (createClusterRole rtc).
Proof.
  unfold createServiceAccount, createClusterRoleRules, createClusterRole,
    verifyServiceAccount, verifyClusterRoleRules, verifyClusterRole, delete_stale_role, deleteClusterRole.
  split_and!; confined_solve.
Qed.

(** A create step that fails creates nothing. *)
Lemma steps_fail w :
  (is_Some (fst (exec (createServiceAccount rtc) w)) -> new_in [] w (snd (exec (createServiceAccount rtc) w))) /\
  (is_Some (fst (exec (createClusterRoleRules rtc) w)) -> new_in [] w (snd (exec (createClusterRoleRules rtc) w))) /\
  (is_Some (fst (exec (createClusterRole rtc) w)) -> new_in [] w (snd (exec (createClusterRole rtc) w))) /\
  (is_Some (fst (exec (createClusterRoleBinding rtc) w)) ->
     new_in [] w (snd (exec (createClusterRoleBinding rtc) w))).
Proof.
  destruct verifiers_no_create as (V1 & V2 & V3 & V4). split_and!.
  - apply ensure_prog_fail; [exact V1|apply CreateServiceAccount_error_keeps].
  - unfold createClusterRoleRules. cbv zeta. case_match; [intros _; by apply new_in_same|].
    apply ensure_prog_fail; [exact V2|apply CreateClusterRole_error_keeps].
  - apply ensure_prog_fail; [exact V3|apply CreateClusterRole_error_keeps].
  - unfold createClusterRoleBinding. destruct (initCRBindingE user) as [[om rr] subj].
    apply ensure_prog_fail; [apply V4|apply CreateClusterRoleBinding_error_keeps].
Qed.

Lemma token_no_new w : new_in [] w (snd (exec (getServiceAccountToken rtc) w)).
Proof. apply exec_no_create. unfold getServiceAccountToken. no_create_solve. Qed.
End Steps.

Ltac tags_solve := intros k Hk; set_unfold in Hk; destruct_or! Hk; subst; cbn; set_solver.

Lemma covers_of (A : list Key) (L : list string) w w' :
  new_in A w w' -> (forall k, k ∈ A -> obj_tag k ∈ L) ->
  forall k, store_at k (w_store w) = None -> is_Some (store_at k (w_store w')) -> obj_tag k ∈ L.
Proof. intros Hn HA k Hk1 Hk2. apply HA, Hn; done. Qed.

(** C3: whatever the API answers (any fault script), when [Run]'s body
    returns a token the ledger is untouched, and when it fails, every
    object that was absent before the run and is present after it has
    its tag in the returned ledger: the service account under [SA], a
    cluster role under [ClusterRole].  The deferred Cleaner is therefore
    started on every object the failed run created. *)
Theorem Run_body_ledger_covers (rtc : RuntimeClient) (w : World) :
  let '((r, rtc'), w') := exec (Run_body rtc) w in
  (is_ok r = true -> rtc' = rtc) /\
  (is_ok r = false -> forall k, store_at k (w_store w) = None -> is_Some (store_at k (w_store w')) ->
     obj_tag k ∈ Data (Rollback rtc')).
Proof.
  destruct (steps_own_keys rtc) as (O1 & O2 & O3). unfold Run_body.
  rewrite exec_bind. pose proof (steps_fail rtc w) as (F1 & _).
  pose proof (stays_new_in _ _ _ (exec_stays _ _ w O1)) as N1.
  destruct (exec (createServiceAccount rtc) w) as [[e|] w1].
  { cbn. split; [done|]. intros _. apply (covers_of [] _ w w1); [by apply F1|set_solver]. }
  cbn beta iota. rewrite exec_bind. pose proof (steps_fail rtc w1) as (_ & F2 & _).
  pose proof (new_in_trans _ _ _ _ _ N1 (stays_new_in _ _ _ (exec_stays _ _ w1 O2))) as N2.
  destruct (exec (createClusterRoleRules rtc) w1) as [[e|] w2].
  { cbn. split; [done|]. intros _. apply (covers_of _ _ w w2 (new_in_trans _ _ _ _ _ N1 (F2 ltac:(done)))).
    tags_solve. }
  cbn beta iota. rewrite exec_bind. pose proof (steps_fail rtc w2) as (_ & _ & F3 & _).
  pose proof (new_in_trans _ _ _ _ _ N2 (stays_new_in _ _ _ (exec_stays _ _ w2 O3))) as N3.
  destruct (exec (createClusterRole rtc) w2) as [[e|] w3].
  { cbn. split; [done|]. intros _. apply (covers_of _ _ w w3 (new_in_trans _ _ _ _ _ N2 (F3 ltac:(done)))).
    tags_solve. }
  cbn beta iota. rewrite exec_bind. pose proof (new_in_trans _ _ _ _ _ N3 (token_no_new rtc w3)) as N4.
  destruct (exec (getServiceAccountToken rtc) w3) as [[tok|e] w4].
  2: { cbn. split; [done|]. intros _. apply (covers_of _ _ w w4 N4).
       tags_solve. }
  cbn beta iota. rewrite exec_bind. pose proof (steps_fail rtc w4) as (_ & _ & _ & F5).
  destruct (exec (createClusterRoleBinding rtc) w4) as [[e|] w5]; cbn; [|done].
  split; [done|]. intros _. apply (covers_of _ _ w w5 (new_in_trans _ _ _ _ _ N4 (F5 ltac:(done)))).
  tags_solve.
Qed.
