(* ===== verification/Mocks.v ===== *)
(** * Mocks: the two generated testify mocks of the repository

    [automock/strategy.go] (mockery v2.3.0) mocks the orchestration
    [Strategy] interface with [Execute] and [Wait];
    [automock/gql_fields_provider.go] (mockery v1.0.0) mocks
    [GqlFieldsProvider] with [ForApplication] and [Page].  Each method
    hands its arguments to [mock.Mock.Called] and decodes the values the
    test registered with [On(...).Return(...)]: a registered function of
    the method's own type is applied to the arguments, any other value
    is asserted to be of the result type, which panics when it is not
    (nil included).

    testify's [Mock] is a library the mocks call, modelled here from its
    semantics as an environment, as [Kube] models the API server: the
    expected calls with their argument matchers, return values,
    repeatability ([Once], [Times]) and call counters, and the log of
    the calls made.  [MethodCalled] is [Mock.MethodCalled]: it finds
    the first expected call of the method whose arguments match and
    whose repeatability is not used up ([findExpectedCall]), fails when
    there is none, counts the call down and records it.  A failure of the
    mock ([m.fail] without a test, a failed type assertion, an index past
    the returned values) is the [Panics] outcome; the mock is left as it
    was.  Not modelled: [Run] callbacks, [WaitUntil]/[After] delays,
    [MatchedBy] and [AnythingOfType] matchers, and the mutex (the mocks
    are called from one goroutine in the tests). *)

From S2P Require Import Prelude.

Local Open Scope string_scope.

(** ** Outcomes: a result or a panic *)

Inductive Panic :=
| PUnexpectedCall (method : string)
| PCalledOver (method : string) (totalCalls : nat)
| PIndexOutOfRange (index len : nat)
| PTypeAssertion (expected : string).

#[global] Instance Panic_eq_dec : EqDecision Panic.
Proof. solve_decision. Defined.

Inductive outcome (A : Type) := Returns (a : A) | Panics (p : Panic).
Arguments Returns {A}. Arguments Panics {A}.

#[global] Instance outcome_ret : MRet outcome := fun A a => Returns a.
#[global] Instance outcome_bind : MBind outcome :=
  fun A B f o => match o with Returns a => f a | Panics p => Panics p end.

Section Mocks.
Context {RuntimeOperation StrategySpec FieldCtx : Type}.
Context `{EqDecision RuntimeOperation, EqDecision StrategySpec, EqDecision FieldCtx}.

(** ** The dynamic values *)

(** An argument handed to [Called] ([interface{}]); [ANil] is the zero
    value [make] fills a slice with. *)
Inductive Arg :=
| ANil
| AOperations (ops : list RuntimeOperation)
| AStrategySpec (spec : StrategySpec)
| AString (s : string)
| AFieldCtx (c : FieldCtx).

#[global] Instance Arg_eq_dec : EqDecision Arg.
Proof. solve_decision. Defined.

(** A Go [error]: nil or a message. *)
Abbreviation error := (option string).

(** A value registered with [Return]: the types the mocks assert, and
    any other value. *)
Inductive Value :=
| VNil
| VString (s : string)
| VError (msg : string)
| VExecute_string (f : list RuntimeOperation -> StrategySpec -> string)
| VExecute_error (f : list RuntimeOperation -> StrategySpec -> error)
| VForApplication_string (f : list FieldCtx -> string)
| VPage_string (f : string -> string)
| VOther (type_name : string).

(** [mock.Anything] or an expected value (compared with
    [ObjectsAreEqual]). *)
Inductive Matcher := Anything | Exactly (a : Arg).

(** ** testify's mock *)

(** [mock.Call]: an expectation; [Repeatability] is 0 for an unbounded
    expectation, the calls left for [Times(n)], and -1 once used up. *)
Record Call := mkCall {
  Method : string;
  Arguments : list Matcher;
  ReturnArguments : list Value;
  Repeatability : Z;
  totalCalls : nat }.

Record Mock := mkMock {
  ExpectedCalls : list Call;
  Calls : list (string * list Arg) }.

(** [On(method, args...).Return(rets...)], with [Times(n)] ([n = 0]
    for no bound). *)
Definition On (m : Mock) (method : string) (args : list Matcher) (rets : list Value) (n : Z) : Mock :=
  mkMock (ExpectedCalls m ++ [mkCall method args rets n 0]) (Calls m).

Definition arg_differs (e : option Matcher) (a : option Arg) : bool :=
  match e, a with
  | Some Anything, _ => false
  | Some (Exactly x), Some y => negb (bool_decide (x = y))
  | _, _ => true
  end.

(** [Arguments.Diff]: the number of positions, up to the longer list,
    where the expectation and the call differ. *)
Definition Diff (expected : list Matcher) (objects : list Arg) : nat :=
  List.length (filter (fun i => arg_differs (expected !! i) (objects !! i) = true)
                      (seq 0 (Nat.max (List.length expected) (List.length objects)))).

(** [Mock.findExpectedCall]: the index of the first matching expectation
    not used up, or none with the last matching one that is used up. *)
Fixpoint findExpectedCall (cs : list Call) (method : string) (args : list Arg) (i : nat)
    (expectedCall : option Call) : option nat * option Call :=
  match cs with
  | [] => (None, expectedCall)
  | c :: rest =>
      if bool_decide (Method c = method) && bool_decide (Diff (Arguments c) args = 0) then
        if bool_decide (-1 < Repeatability c)%Z then (Some i, Some c)
        else findExpectedCall rest method args (S i) (Some c)
      else findExpectedCall rest method args (S i) expectedCall
  end.

(** The expectation after one more call. *)
Definition count_call (c : Call) : Call :=
  mkCall (Method c) (Arguments c) (ReturnArguments c)
    (if bool_decide (Repeatability c = 1)%Z then (-1)%Z
     else if bool_decide (1 < Repeatability c)%Z then (Repeatability c - 1)%Z
     else Repeatability c)
    (S (totalCalls c)).

(** [Mock.MethodCalled]. *)
Definition MethodCalled (m : Mock) (method : string) (args : list Arg) : outcome (list Value) * Mock :=
  match findExpectedCall (ExpectedCalls m) method args 0 None with
  | (Some i, Some c) =>
      (Returns (ReturnArguments c),
       mkMock (<[i := count_call c]> (ExpectedCalls m)) (Calls m ++ [(method, args)]))
  | (_, Some c) => (Panics (PCalledOver method (totalCalls c)), m)
  | (_, None) => (Panics (PUnexpectedCall method), m)
  end.

(** [Arguments.Get]. *)
Definition Get (args : list Value) (index : nat) : outcome Value :=
  match args !! index with
  | Some v => Returns v
  | None => Panics (PIndexOutOfRange index (List.length args))
  end.

(** [Arguments.Error]: nil, an error, or a panic. *)
Definition Error (args : list Value) (index : nat) : outcome error :=
  obj ← Get args index;
  match obj with
  | VNil => mret None
  | VError e => mret (Some e)
  | _ => Panics (PTypeAssertion "error")
  end.

(** [ret.Get(i).(string)]. *)
Definition as_string (v : Value) : outcome string :=
  match v with VString s => mret s | _ => Panics (PTypeAssertion "string") end.

(** ** strategy.go *)

Definition Strategy := Mock.

Definition Execute (_m : Strategy) (operations : list RuntimeOperation) (strategySpec : StrategySpec)
    : outcome (string * error) * Strategy :=
  let '(o, _m') := MethodCalled _m "Execute" [AOperations operations; AStrategySpec strategySpec] in
  (ret ← o;
   v0 ← Get ret 0;
   r0 ← match v0 with
        | VExecute_string rf => mret (rf operations strategySpec)
        | _ => as_string v0
        end;
   v1 ← Get ret 1;
   r1 ← match v1 with
        | VExecute_error rf => mret (rf operations strategySpec)
        | _ => Error ret 1
        end;
   mret (r0, r1), _m').

Definition Wait (_m : Strategy) (executionID : string) : outcome unit * Strategy :=
  let '(o, _m') := MethodCalled _m "Wait" [AString executionID] in
  (_ ← o; mret tt, _m').

(** ** gql_fields_provider.go *)

Definition GqlFieldsProvider := Mock.

(** Lines 15-18: [_va := make([]interface{}, len(ctx))] and the copy
    loop over the indices of [ctx]. *)
Definition copy_step (ctx : list FieldCtx) (_va : list Arg) (_i : nat) : list Arg :=
  match ctx !! _i with Some c => <[_i := AFieldCtx c]> _va | None => _va end.

Definition copy_ctx (ctx : list FieldCtx) : list Arg :=
  foldl (copy_step ctx) (replicate (List.length ctx) ANil) (seq 0 (List.length ctx)).

Definition ForApplication (_m : GqlFieldsProvider) (ctx : list FieldCtx) : outcome string * GqlFieldsProvider :=
  let _va := copy_ctx ctx in
  let _ca := ([] ++ _va)%list in
  let '(o, _m') := MethodCalled _m "ForApplication" _ca in
  (ret ← o;
   v0 ← Get ret 0;
   match v0 with
   | VForApplication_string rf => mret (rf ctx)
   | _ => as_string v0
   end, _m').

Definition Page (_m : GqlFieldsProvider) (item : string) : outcome string * GqlFieldsProvider :=
  let '(o, _m') := MethodCalled _m "Page" [AString item] in
  (ret ← o;
   v0 ← Get ret 0;
   match v0 with
   | VPage_string rf => mret (rf item)
   | _ => as_string v0
   end, _m').

(** A test's sequence of calls to [Page]. *)
Fixpoint Page_calls (m : GqlFieldsProvider) (items : list string) : list (outcome string) * GqlFieldsProvider :=
  match items with
  | [] => ([], m)
  | item :: rest =>
      let '(o, m1) := Page m item in
      let '(os, m2) := Page_calls m1 rest in (o :: os, m2)
  end.

Definition fresh_for (method : string) (cs : list Call) : Prop :=
  Forall (fun c => Method c <> method) cs.

(** ** Matching arguments *)

Lemma filter_none {A} (P : A -> Prop) `{forall x, Decision (P x)} (l : list A) :
  Forall (fun x => ~ P x) l -> filter P l = [].
Proof. induction 1; [done|]. by rewrite filter_cons_False. Qed.

Lemma Diff_zero_iff ms args :
  Diff ms args = 0 <->
  forall i, i < Nat.max (List.length ms) (List.length args) -> arg_differs (ms !! i) (args !! i) = false.
Proof.
  unfold Diff. rewrite length_zero_iff_nil. split.
  - intros Hf i Hi. destruct (arg_differs _ _) eqn:E; [|done]. exfalso.
    eapply (filter_nil_not_elem_of _ _ i Hf); [exact E|]. apply elem_of_seq. lia.
  - intros H. apply filter_none, Forall_forall. intros i Hi%elem_of_seq. rewrite H by lia. done.
Qed.

Lemma Diff_exact_refl (l : list Arg) : Diff (Exactly <$> l) l = 0.
Proof.
  apply Diff_zero_iff. intros i Hi. rewrite list_lookup_fmap, length_fmap in *.
  destruct (l !! i) eqn:E; cbn; [by rewrite bool_decide_true|].
  apply lookup_ge_None in E. lia.
Qed.

Lemma Diff_exact_inv (l l' : list Arg) : Diff (Exactly <$> l) l' = 0 -> l' = l.
Proof.
  rewrite Diff_zero_iff, length_fmap. intros H. apply list_eq. intros i.
  destruct (decide (i < Nat.max (List.length l) (List.length l'))) as [Hi|Hi].
  - specialize (H i Hi). rewrite list_lookup_fmap in H.
    destruct (l !! i), (l' !! i); cbn in H; try done. by case_bool_decide; subst.
  - rewrite !(proj2 (lookup_ge_None _ _)) by lia. done.
Qed.

(** ** Finding the expected call *)

Lemma findExpectedCall_fresh cs method args i prev :
  fresh_for method cs -> findExpectedCall cs method args i prev = (None, prev).
Proof.
  intros H. revert i. induction H as [|c cs Hc _ IH]; intros i; [done|]. cbn.
  rewrite bool_decide_false by done. apply IH.
Qed.

Lemma findExpectedCall_app_fresh cs c method args i prev :
  fresh_for method cs ->
  findExpectedCall (cs ++ [c]) method args i prev = findExpectedCall [c] method args (i + List.length cs) prev.
Proof.
  intros H. revert i. induction H as [|c' cs Hc _ IH]; intros i; [by rewrite Nat.add_0_r|].
  cbn [List.length]. rewrite Nat.add_succ_r, <- Nat.add_succ_l, <- IH.
  cbn [app findExpectedCall]. by rewrite bool_decide_false.
Qed.

Lemma findExpectedCall_found cs method args i prev j c :
  findExpectedCall cs method args i prev = (Some j, Some c) -> i <= j /\ cs !! (j - i) = Some c.
Proof.
  revert i prev. induction cs as [|c' cs IH]; intros i prev; cbn; [done|].
  repeat case_match; intros E; simplify_eq; [by rewrite Nat.sub_diag| |];
    apply IH in E as [Hij E]; split; [lia| |lia|];
    by replace (j - i) with (S (j - S i)) by lia.
Qed.

(** The last expectation, when no earlier one is on the method, answers
    the call while it is not used up, and fails it once it is. *)
Lemma MethodCalled_last cs c L method args :
  fresh_for method cs -> Method c = method -> Diff (Arguments c) args = 0 -> (-1 < Repeatability c)%Z ->
  MethodCalled (mkMock (cs ++ [c]) L) method args =
    (Returns (ReturnArguments c), mkMock (cs ++ [count_call c]) (L ++ [(method, args)])).
Proof.
  intros Hf Hm Hd Hr. unfold MethodCalled. cbn [ExpectedCalls Calls].
  rewrite findExpectedCall_app_fresh by done. cbn.
  rewrite !bool_decide_true by done. cbn. f_equal. f_equal.
  pose proof (insert_app_r cs [c] 0 (count_call c)) as E. rewrite Nat.add_0_r in E. by rewrite E.
Qed.

Lemma MethodCalled_used cs c L method args :
  fresh_for method cs -> Method c = method -> Diff (Arguments c) args = 0 -> Repeatability c = (-1)%Z ->
  MethodCalled (mkMock (cs ++ [c]) L) method args = (Panics (PCalledOver method (totalCalls c)), mkMock (cs ++ [c]) L).
Proof.
  intros Hf Hm Hd Hr. unfold MethodCalled. cbn [ExpectedCalls].
  rewrite findExpectedCall_app_fresh by done. cbn.
  rewrite !bool_decide_true by done. rewrite bool_decide_false by lia. done.
Qed.

Lemma MethodCalled_fresh m method args :
  fresh_for method (ExpectedCalls m) -> MethodCalled m method args = (Panics (PUnexpectedCall method), m).
Proof. intros H. unfold MethodCalled. by rewrite findExpectedCall_fresh. Qed.

Lemma MethodCalled_mismatch cs c L method args :
  fresh_for method cs -> Diff (Arguments c) args <> 0 ->
  MethodCalled (mkMock (cs ++ [c]) L) method args = (Panics (PUnexpectedCall method), mkMock (cs ++ [c]) L).
Proof.
  intros Hf Hd. unfold MethodCalled. cbn [ExpectedCalls].
  rewrite findExpectedCall_app_fresh by done. cbn.
  by rewrite (bool_decide_false (Diff _ _ = 0)), andb_false_r.
Qed.

(** ** The copy loop of [ForApplication] *)

Lemma copy_prefix ctx k : k <= List.length ctx ->
  foldl (copy_step ctx) (replicate (List.length ctx) ANil) (seq 0 k) =
    ((AFieldCtx <$> take k ctx) ++ replicate (List.length ctx - k) ANil)%list.
Proof.
  induction k as [|k IH]; intros Hk; [by rewrite Nat.sub_0_r|].
  rewrite seq_S, foldl_app, IH by lia. cbn.
  destruct (ctx !! k) as [c|] eqn:Hc; [|apply lookup_ge_None in Hc; lia].
  unfold copy_step. rewrite Hc.
  replace (List.length ctx - k) with (S (List.length ctx - S k)) by lia. cbn [replicate].
  pose proof (insert_app_r (AFieldCtx <$> take k ctx) (ANil :: replicate (List.length ctx - S k) ANil)
                0 (AFieldCtx c)) as E.
  rewrite Nat.add_0_r, length_fmap, length_take, Nat.min_l in E by lia. rewrite E.
  rewrite (take_S_r ctx k c Hc), fmap_app, <- app_assoc. done.
Qed.

Lemma copy_ctx_fmap ctx : copy_ctx ctx = AFieldCtx <$> ctx.
Proof. unfold copy_ctx. rewrite copy_prefix, take_ge, Nat.sub_diag by lia. apply app_nil_r. Qed.

Lemma fmap_AFieldCtx_inj (l l' : list FieldCtx) : AFieldCtx <$> l = AFieldCtx <$> l' -> l = l'.
Proof. revert l'. induction l as [|x l IH]; intros [|y l']; cbn; intros E; simplify_eq; f_equal; auto. Qed.

(** The value a test registers for an [error] result. *)
Definition err_value (e : error) : Value :=
  match e with None => VNil | Some msg => VError msg end.

Ltac mock_call_tac :=
  try unfold On; cbn [ExpectedCalls Calls];
  first [ rewrite MethodCalled_last by first [assumption | reflexivity | cbn; lia]
        | rewrite MethodCalled_fresh by done ]; cbn.

(** ** Strategy.Execute *)

(** C25: once a test registers [On("Execute", Anything, Anything)] with
    [Return(s, err)] (and [Times(n)], [n = 0] for no bound) on a mock
    with no other expectation of [Execute], [Execute] returns [(s, err)],
    records the call with its two arguments and counts it; registered
    functions of the method's own type are applied to the arguments. *)
Theorem Execute_On_Return (m : Strategy) (ops : list RuntimeOperation) (spec : StrategySpec) (n : Z)
    (s : string) (e : error) (f : list RuntimeOperation -> StrategySpec -> string)
    (g : list RuntimeOperation -> StrategySpec -> error) :
  fresh_for "Execute" (ExpectedCalls m) -> (0 <= n)%Z ->
  Execute (On m "Execute" [Anything; Anything] [VString s; err_value e] n) ops spec =
    (Returns (s, e),
     mkMock (ExpectedCalls m ++ [count_call (mkCall "Execute" [Anything; Anything] [VString s; err_value e] n 0)])
            (Calls m ++ [("Execute", [AOperations ops; AStrategySpec spec])])) /\
  fst (Execute (On m "Execute" [Anything; Anything] [VExecute_string f; VExecute_error g] n) ops spec) =
    Returns (f ops spec, g ops spec).
Proof. intros Hf Hn. unfold Execute. split; mock_call_tac; [by destruct e|done]. Qed.

(** C26: [Execute] panics, leaving the mock as it was, when no
    expectation is registered; it panics on a registered nil string
    result (the type assertion [ret.Get(0).(string)] fails on nil), on a
    [Return] with one value only ([ret.Get(1)] out of range), and on a
    second value that is neither nil nor an error ([ret.Error(1)]). *)
Theorem Execute_panics (m : Strategy) (ops : list RuntimeOperation) (spec : StrategySpec) (n : Z) (s s' : string) :
  fresh_for "Execute" (ExpectedCalls m) -> (0 <= n)%Z ->
  Execute m ops spec = (Panics (PUnexpectedCall "Execute"), m) /\
  fst (Execute (On m "Execute" [Anything; Anything] [VNil; VNil] n) ops spec) = Panics (PTypeAssertion "string") /\
  fst (Execute (On m "Execute" [Anything; Anything] [VString s] n) ops spec) = Panics (PIndexOutOfRange 1 1) /\
  fst (Execute (On m "Execute" [Anything; Anything] [VString s; VString s'] n) ops spec) =
    Panics (PTypeAssertion "error").
Proof. intros Hf Hn. unfold Execute. split_and!; mock_call_tac; done. Qed.

(** ** GqlFieldsProvider.Page under [Times(n)] *)

Lemma Page_calls_times cs s L items t :
  fresh_for "Page" cs -> items <> [] ->
  Page_calls (mkMock (cs ++ [mkCall "Page" [Anything] [VString s] (Z.of_nat (List.length items)) t]) L) items =
    (replicate (List.length items) (Returns s),
     mkMock (cs ++ [mkCall "Page" [Anything] [VString s] (-1) (t + List.length items)])
            (L ++ ((fun item => ("Page", [AString item])) <$> items))).
Proof.
  intros Hf. revert t L. induction items as [|item rest IH]; intros t L Hne; [done|].
  cbn [Page_calls]. unfold Page. mock_call_tac. unfold count_call. cbn [Method Arguments ReturnArguments
    Repeatability totalCalls].
  destruct rest as [|item2 rest].
  - cbn. by rewrite Nat.add_1_r.
  - rewrite bool_decide_false, bool_decide_true by (cbn [List.length]; lia).
    replace (Z.of_nat (S (List.length (item2 :: rest))) - 1)%Z
      with (Z.of_nat (List.length (item2 :: rest))) by lia.
    rewrite IH by done. rewrite <- app_assoc, Nat.add_succ_r. reflexivity.
Qed.

(** C27: with [On("Page", Anything).Return(s).Times(n)], [n > 0], on a
    mock with no other expectation of [Page], the first [n] calls return
    [s] and the next one panics: the method has been called over [n]
    times. *)
Theorem Page_Times (m : GqlFieldsProvider) (s : string) (n : nat) (items : list string) (item : string) :
  fresh_for "Page" (ExpectedCalls m) -> List.length items = n -> 0 < n ->
  let '(os, m1) := Page_calls (On m "Page" [Anything] [VString s] (Z.of_nat n)) items in
  os = replicate n (Returns s) /\ fst (Page m1 item) = Panics (PCalledOver "Page" n).
Proof.
  intros Hf <- Hn. unfold On.
  rewrite Page_calls_times by (done || (intros ->; cbn in Hn; lia)).
  split; [done|]. unfold Page. rewrite MethodCalled_used by done. done.
Qed.

(** ** GqlFieldsProvider.ForApplication *)

(** C28: after [On("ForApplication", ctx...).Return(f)] on a mock with no
    other expectation of [ForApplication], calling [ForApplication] with
    the same fields returns [f ctx] and records the fields, while any other
    list of fields does not match and panics, leaving the mock as it
    was. *)
Theorem ForApplication_On (m : GqlFieldsProvider) (ctx ctx' : list FieldCtx) (f : list FieldCtx -> string) (n : Z) :
  fresh_for "ForApplication" (ExpectedCalls m) -> (0 <= n)%Z ->
  let m1 := On m "ForApplication" (Exactly <$> (AFieldCtx <$> ctx)) [VForApplication_string f] n in
  fst (ForApplication m1 ctx) = Returns (f ctx) /\
  Calls (snd (ForApplication m1 ctx)) = (Calls m ++ [("ForApplication", AFieldCtx <$> ctx)])%list /\
  (ctx' <> ctx -> ForApplication m1 ctx' = (Panics (PUnexpectedCall "ForApplication"), m1)).
Proof.
  intros Hf Hn m1. unfold ForApplication. rewrite !copy_ctx_fmap. cbn [app]. unfold m1, On.
  split_and!.
  - rewrite MethodCalled_last by (done || apply Diff_exact_refl || (cbn; lia)). done.
  - rewrite MethodCalled_last by (done || apply Diff_exact_refl || (cbn; lia)). done.
  - intros Hne. rewrite MethodCalled_mismatch; [done|done|]. cbn [Arguments].
    intros Hd%Diff_exact_inv. by apply Hne, fmap_AFieldCtx_inj.
Qed.

End Mocks.

(** ** Witnesses: a fresh mock, the abstract Go types instantiated *)

Definition mock0 : @Mock nat nat nat := mkMock [] [].

Lemma Execute_On_Return_witness :
  Execute (On mock0 "Execute" [Anything; Anything] [VString "exec-1"; err_value None] 1) [1; 2] 7 =
    (Returns ("exec-1", None),
     mkMock ([] ++ [count_call (mkCall "Execute" [Anything; Anything] [VString "exec-1"; err_value None] 1 0)])
            ([] ++ [("Execute", [AOperations [1; 2]; AStrategySpec 7])])) /\
  fst (Execute (On mock0 "Execute" [Anything; Anything]
                   [VExecute_string (fun ops _ => "ops"); VExecute_error (fun _ _ => Some "boom")] 1) [1; 2] 7) =
    Returns ("ops", Some "boom").
Proof.
  apply (Execute_On_Return mock0 [1; 2] 7 1 "exec-1" None (fun ops _ => "ops") (fun _ _ => Some "boom"));
    [constructor | lia].
Defined.

Lemma Execute_panics_witness :
  Execute mock0 [1] 7 = (Panics (PUnexpectedCall "Execute"), mock0) /\
  fst (Execute (On mock0 "Execute" [Anything; Anything] [VNil; VNil] 0) [1] 7) = Panics (PTypeAssertion "string") /\
  fst (Execute (On mock0 "Execute" [Anything; Anything] [VString "x"] 0) [1] 7) = Panics (PIndexOutOfRange 1 1) /\
  fst (Execute (On mock0 "Execute" [Anything; Anything] [VString "x"; VString "y"] 0) [1] 7) =
    Panics (PTypeAssertion "error").
Proof. apply (Execute_panics mock0 [1] 7 0 "x" "y"); [constructor | lia]. Defined.

Lemma Page_Times_witness :
  let '(os, m1) := Page_calls (On mock0 "Page" [Anything] [VString "p"] (Z.of_nat 2)) ["a"; "b"] in
  os = replicate 2 (Returns "p") /\ fst (Page m1 "c") = Panics (PCalledOver "Page" 2).
Proof. apply (Page_Times mock0 "p" 2 ["a"; "b"] "c"); [constructor | reflexivity | lia]. Defined.

Lemma ForApplication_On_witness :
  let m1 := On mock0 "ForApplication" (Exactly <$> (AFieldCtx <$> [1; 2])) [VForApplication_string (fun l => "fields")] 0 in
  fst (ForApplication m1 [1; 2]) = Returns "fields" /\
  Calls (snd (ForApplication m1 [1; 2])) = (Calls mock0 ++ [("ForApplication", AFieldCtx <$> [1; 2])])%list /\
  ([2] <> [1; 2] -> ForApplication m1 [2] = (Panics (PUnexpectedCall "ForApplication"), m1)).
Proof. apply (ForApplication_On mock0 [1; 2] [2] (fun l => "fields") 0); [constructor | lia]. Defined.
