(* ===== verification/Client.v ===== *)
(** * Client: the whole of [NewRuntimeClient] (runtime.go lines 76-110)

    [NewRuntimeClient] builds the REST config from the kubeconfig bytes
    ([clientcmd.RESTConfigFromKubeConfig]), the target cluster's
    clientset from it ([kubernetes.NewForConfig]) and the control-plane
    clientset ([GetK8sClient], declared elsewhere in the package), and
    returns the first error among the three, in that order, before it
    derives the user's names.  The three constructors are external:
    they are the [Variable]s of the section, so every theorem holds for
    whatever they do.  The derivation of the names once the clients
    exist is [Builders.NewRuntimeClient]; the struct [RuntimeClient] of
    the code, with its two clients, is [Runtime]. *)

From S2P Require Import Prelude Types Policy Builders.

Local Open Scope string_scope.

Module Full.
Section Construction.
Context {Config Interface : Type}.
Variable RESTConfigFromKubeConfig : list Byte.byte -> goresult Config.
Variable NewForConfig : Config -> goresult Interface.
Variable GetK8sClient : goresult Interface.

(** [type RuntimeClient struct { K8s, KcpK8s kubernetes.Interface; User;
    L2L3OperatiorRole; RollbackE }]: the two clients and the rest of the
    client as [Types.RuntimeClient] has it. *)
Record Runtime := mkRuntime {
  K8s : Interface;
  KcpK8s : Interface;
  Client : RuntimeClient }.

Definition NewRuntimeClient (kubeConfig : list Byte.byte) (userID L2L3OperatiorRole tenant : string)
    : goresult Runtime :=
  match RESTConfigFromKubeConfig kubeConfig with
  | Error err => Error err
  | Ok config =>
      match NewForConfig config with
      | Error err => Error err
      | Ok clientset =>
          match GetK8sClient with
          | Error err => Error err
          | Ok coreClientset =>
              Ok (mkRuntime clientset coreClientset (Builders.NewRuntimeClient userID L2L3OperatiorRole tenant))
          end
      end
  end.

(** C29: [NewRuntimeClient] returns the first error of its three
    constructions, in the code's order, and no client: a kubeconfig that
    does not parse fails whatever the other two would do, a clientset
    that cannot be built fails before the control-plane client is asked
    for, and a failing control-plane client fails the whole. *)
Theorem NewRuntimeClient_errors (kubeConfig : list Byte.byte) (userID role tenant : string)
    (config : Config) (clientset : Interface) (err : GoError) :
  (RESTConfigFromKubeConfig kubeConfig = Error err ->
     NewRuntimeClient kubeConfig userID role tenant = Error err) /\
  (RESTConfigFromKubeConfig kubeConfig = Ok config -> NewForConfig config = Error err ->
     NewRuntimeClient kubeConfig userID role tenant = Error err) /\
  (RESTConfigFromKubeConfig kubeConfig = Ok config -> NewForConfig config = Ok clientset ->
     GetK8sClient = Error err -> NewRuntimeClient kubeConfig userID role tenant = Error err).
Proof.
  unfold NewRuntimeClient. split_and!; intros H1; rewrite H1; [done| |]; intros H2; rewrite H2; [done|].
  intros H3. by rewrite H3.
Qed.

(** C30: a client is returned exactly when the three constructions
    succeed; it holds the two clientsets they built, and its user, level
    and empty ledger are those of [Builders.NewRuntimeClient], so every
    theorem about a run of [Builders.NewRuntimeClient]'s client applies
    to the client the code constructs. *)
Theorem NewRuntimeClient_ok (kubeConfig : list Byte.byte) (userID role tenant : string) (r : Runtime) :
  NewRuntimeClient kubeConfig userID role tenant = Ok r <->
  exists config, RESTConfigFromKubeConfig kubeConfig = Ok config /\
    NewForConfig config = Ok (K8s r) /\ GetK8sClient = Ok (KcpK8s r) /\
    Client r = Builders.NewRuntimeClient userID role tenant.
Proof.
  unfold NewRuntimeClient. split.
  - destruct (RESTConfigFromKubeConfig _) as [config|]; [|done].
    destruct (NewForConfig config) as [cs|] eqn:E1; [|done].
    destruct GetK8sClient as [core|] eqn:E2; [|done].
    intros [= <-]. exists config. by split_and!.
  - intros (config & -> & -> & -> & E). destruct r. cbn in E. by subst.
Qed.

End Construction.
End Full.

(** ** Witnesses: a kubeconfig that parses, a clientset that cannot be built *)

Definition kubeconfig_bytes : list Byte.byte := [Byte.x61; Byte.x70; Byte.x69].

Lemma NewRuntimeClient_errors_witness :
  let parse := fun _ : list Byte.byte => @Ok nat GoError 1 in
  let newFor := fun _ : nat => @Error nat GoError (Errorf "no host") in
  let core := @Ok nat GoError 2 in
  Full.NewRuntimeClient parse newFor core kubeconfig_bytes "alice" RUNTIME_OPERATOR "tenant-1" = Error (Errorf "no host").
Proof.
  intros parse newFor core.
  apply (proj1 (proj2 (Full.NewRuntimeClient_errors parse newFor core kubeconfig_bytes "alice" RUNTIME_OPERATOR
                         "tenant-1" 1 3 (Errorf "no host")))); reflexivity.
Defined.

Lemma NewRuntimeClient_ok_witness :
  let parse := fun _ : list Byte.byte => @Ok nat GoError 1 in
  let newFor := fun n : nat => @Ok nat GoError (n + 1) in
  let core := @Ok nat GoError 5 in
  Full.NewRuntimeClient parse newFor core kubeconfig_bytes "alice" RUNTIME_OPERATOR "tenant-1"
    = Ok (Full.mkRuntime 2 5 alice_client) /\
  exists config, parse kubeconfig_bytes = Ok config /\ newFor config = Ok 2 /\ core = Ok 5 /\
    alice_client = NewRuntimeClient "alice" RUNTIME_OPERATOR "tenant-1".
Proof.
  intros parse newFor core. split; [reflexivity|].
  apply (Full.NewRuntimeClient_ok parse newFor core kubeconfig_bytes "alice" RUNTIME_OPERATOR "tenant-1"
           (Full.mkRuntime 2 5 alice_client)).
  reflexivity.
Defined.
